(** * neuropack / KeyWave: a shallow embedding of the authentication engine

    The development follows the Python sources
    - [neuropack/benchmarking/metrics.py]   (module [Metrics]),
    - [neuropack/container.py]              (module [Container]),
    - [neuropack/__init__.py]               (modules [Database] and [KeyWave]).

    Conventions of the embedding.
    - A Python [float] is an exact rational of [Q]: rounding and overflow
      are not modelled, and statements that would depend on them are put in
      terms of the code's own operations. A float that can be not-a-number
      (a score, an amplitude, an element of a template) is a [pyfloat],
      which adds [NaN] to the rationals; a reading of the clock is never
      not-a-number and stays in [Q].
    - A Python [int] is a [Z]; [//] is [Z.div] (both round towards minus
      infinity for a positive divisor).
    - A function that can raise returns a [result]; a method that reads or
      changes the device, the task, the clock or the engine is a function of
      the monad [M] of module [KeyWave].
    - Calls to the logger are left out: they return nothing and change
      neither the engine nor its collaborators. *)

From Stdlib Require Import String Ascii List ZArith NArith QArith Qabs Lia Lqa Bool
  Arith Sorted.
Import ListNotations.

Set Implicit Arguments.
Set Warnings "-register-all".

(** ** Python values shared by all modules *)

Inductive result (A : Type) : Type :=
| Ok (a : A)
| Raise (msg : string).

Arguments Ok {A} a.
Arguments Raise {A} msg.

Definition Qltb (x y : Q) : bool := negb (Qle_bool y x).
Definition Qgeb (x y : Q) : bool := Qle_bool y x.

(** A float that may be not-a-number. *)
Inductive pyfloat : Type :=
| Finite (q : Q)
| NaN.

Definition isnan (x : pyfloat) : bool :=
  match x with NaN => true | Finite _ => false end.

(** Every comparison with [NaN] is false. *)
Definition flt (x y : pyfloat) : bool :=
  match x, y with
  | Finite a, Finite b => Qltb a b
  | _, _ => false
  end.

Definition fgt (x y : pyfloat) : bool := flt y x.

Definition fge (x y : pyfloat) : bool :=
  match x, y with
  | Finite a, Finite b => Qgeb a b
  | _, _ => false
  end.

Definition feq (x y : pyfloat) : bool :=
  match x, y with
  | Finite a, Finite b => Qeq_bool a b
  | _, _ => false
  end.

Definition fadd (x y : pyfloat) : pyfloat :=
  match x, y with
  | Finite a, Finite b => Finite (a + b)
  | _, _ => NaN
  end.

(** [numpy] division of an integer count by an integer length: zero by zero
    is not-a-number (the counts below never exceed the length). *)
Definition np_true_divide (a b : Z) : pyfloat :=
  if (b =? 0)%Z then NaN else Finite (inject_Z a / inject_Z b).

Definition fsub (x y : pyfloat) : pyfloat :=
  match x, y with
  | Finite a, Finite b => Finite (a - b)
  | _, _ => NaN
  end.

Definition fabs (x : pyfloat) : pyfloat :=
  match x with
  | Finite a => Finite (Qabs a)
  | NaN => NaN
  end.

(** Division by a number that is not zero. *)
Definition fdiv (x : pyfloat) (d : Q) : pyfloat :=
  match x with
  | Finite a => Finite (a / d)
  | NaN => NaN
  end.

(** An array all of whose elements are numbers. *)
Definition nums (l : list Q) : list pyfloat := map Finite l.

(** An array that holds no not-a-number. *)
Definition all_numbers (l : list pyfloat) : Prop :=
  Forall (fun x => isnan x = false) l.

(** [numpy.maximum]: not-a-number if either argument is. *)
Definition np_maximum (x y : pyfloat) : pyfloat :=
  match x, y with
  | Finite a, Finite b => if Qltb a b then Finite b else Finite a
  | _, _ => NaN
  end.

(** An arithmetic operator of [numpy] on two one-dimensional arrays: element
    by element when the lengths agree, an array of length one is stretched
    to the other's length, and any other pair of lengths is an error. *)
Fixpoint zip_with (A : Type) (f : A -> A -> A) (a b : list A) : list A :=
  match a, b with
  | x :: a', y :: b' => f x y :: zip_with f a' b'
  | _, _ => []
  end.

Definition np_binop (A : Type) (f : A -> A -> A) (a b : list A)
  : result (list A) :=
  if (length a =? length b)%nat then Ok (zip_with f a b)
  else
    match a, b with
    | [x], _ => Ok (map (f x) b)
    | _, [y] => Ok (map (fun v => f v y) a)
    | _, _ => Raise "operands could not be broadcast together"
    end.

(** [numpy.argmin] on floats: the first not-a-number if there is one, else
    the first least element. *)
Fixpoint fargmin_from (best_i : nat) (best : Q) (i : nat) (l : list pyfloat)
  : nat :=
  match l with
  | [] => best_i
  | NaN :: _ => i
  | Finite x :: rest =>
      if Qltb x best then fargmin_from i x (S i) rest
      else fargmin_from best_i best (S i) rest
  end.

Definition fargmin (l : list pyfloat) : result nat :=
  match l with
  | [] => Raise "attempt to get argmin of an empty sequence"
  | NaN :: _ => Ok 0%nat
  | Finite x :: rest => Ok (fargmin_from 0 x 1 rest)
  end.

(** ** benchmarking/metrics.py *)

Module Metrics.

(** [(sims >= t).sum()] and [(sims < t).sum()]: a score that is
    not-a-number is counted by neither. *)
Definition count_ge (sims : list pyfloat) (t : Q) : Z :=
  Z.of_nat (length (filter (fun s => fge s (Finite t)) sims)).

Definition count_lt (sims : list pyfloat) (t : Q) : Z :=
  Z.of_nat (length (filter (fun s => flt s (Finite t)) sims)).

Definition len (sims : list pyfloat) : Z := Z.of_nat (length sims).

Definition TPR (p_sims : list pyfloat) (t : Q) : pyfloat :=
  let TP := count_ge p_sims t in
  np_true_divide TP (len p_sims).

Definition FPR (n_sims : list pyfloat) (t : Q) : pyfloat :=
  let FP := count_ge n_sims t in
  np_true_divide FP (len n_sims).

Definition FNR (p_sims : list pyfloat) (t : Q) : pyfloat :=
  let FN := count_lt p_sims t in
  np_true_divide FN (len p_sims).

Definition TNR (n_sims : list pyfloat) (t : Q) : pyfloat :=
  let TN := count_lt n_sims t in
  np_true_divide TN (len n_sims).

Definition confustion_matrix (p_sims n_sims : list pyfloat) (t : Q)
  : Z * Z * Z * Z :=
  (count_ge p_sims t, count_ge n_sims t, count_lt p_sims t, count_lt n_sims t).

(** [numpy.linspace(start, stop, num)], in exact arithmetic. *)
Definition linspace (start stop : Q) (num : Z) : result (list Q) :=
  if (num <? 0)%Z then Raise "Number of samples, num, must be non-negative"
  else
    let div := (num - 1)%Z in
    let delta := stop - start in
    let y := map (fun i => inject_Z (Z.of_nat i)) (seq 0 (Z.to_nat num)) in
    let y :=
      if (0 <? div)%Z then
        let step := delta / inject_Z div in
        if Qeq_bool step 0 then map (fun v => v / inject_Z div * delta) y
        else map (fun v => v * step) y
      else map (fun v => v * delta) y in
    let y := map (fun v => v + start) y in
    Ok (if (1 <? num)%Z then removelast y ++ [stop] else y).

(** [roc]: false-positive rates, true-positive rates and thresholds. *)
Definition roc (p n : list pyfloat) (res : Z)
  : result (list pyfloat * list pyfloat * list Q) :=
  let max_sim := 1 in
  let min_sim := 0 in
  match linspace min_sim max_sim res with
  | Raise m => Raise m
  | Ok thresholds =>
      Ok (map (FPR n) thresholds, map (TPR p) thresholds, thresholds)
  end.

(** [calc_eer]. *)
Definition calc_eer (p n : list pyfloat) (res : Z) : result (pyfloat * Q) :=
  match roc p n res with
  | Raise m => Raise m
  | Ok (_fpr, _tpr, _t) =>
      let _fnr := map (fsub (Finite 1)) _tpr in
      match np_binop fsub _fpr _fnr with
      | Raise m => Raise m
      | Ok d =>
          match fargmin (map fabs d) with
          | Raise m => Raise m
          | Ok i =>
              match nth_error _fnr i, nth_error _t i with
              | Some r, Some t => Ok (r, t)
              | _, _ => Raise "IndexError"
              end
          end
      end
  end.

(** [numpy.diff] and [numpy.trapz(y, x)] of one-dimensional arrays. *)
Definition np_diff (l : list Q) : list Q :=
  zip_with (fun later earlier => later - earlier) (tl l) (removelast l).

Definition np_trapz (y x : list Q) : result Q :=
  let d := np_diff x in
  let s := zip_with Qplus (tl y) (removelast y) in
  match np_binop Qmult d s with
  | Raise m => Raise m
  | Ok prod => Ok (fold_left Qplus (map (fun v => v / 2) prod) 0)
  end.

(** [auc]. *)
Definition auc (fpr tpr : list Q) : result Q :=
  let correction :=
    if forallb (fun d => Qgeb d 0) (np_diff fpr) then 1 else - (1) in
  match np_trapz tpr fpr with
  | Raise m => Raise m
  | Ok area => Ok (correction * area)
  end.

(** The quotient of a count by the length of the array, as the four rates
    return it for an array that is not empty. *)
Definition ratio (k : Z) (sims : list pyfloat) : Q := inject_Z k / inject_Z (len sims).

(** Arrays whose neighbouring elements never decrease, or never increase. *)
Definition ascending (l : list Q) : Prop :=
  forall i a b, nth_error l i = Some a -> nth_error l (S i) = Some b -> a <= b.

Definition descending (l : list Q) : Prop :=
  forall i a b, nth_error l i = Some a -> nth_error l (S i) = Some b -> b <= a.

End Metrics.

(** ** container.py *)

Module Container.

(** Python slicing [l[a:b]] of a list, with the usual treatment of
    negative and out-of-range bounds. *)
Definition slice_index (n i : Z) : Z :=
  let i := if (i <? 0)%Z then (i + n)%Z else i in
  Z.max 0 (Z.min n i).

Definition py_slice (A : Type) (a b : Z) (l : list A) : list A :=
  let n := Z.of_nat (length l) in
  let a' := Z.to_nat (slice_index n a) in
  let b' := Z.to_nat (slice_index n b) in
  skipn a' (firstn b' l).

(** [list.index]: position of the first occurrence. *)
Fixpoint index (key : string) (names : list string) : nat :=
  match names with
  | [] => 0
  | n :: rest => if String.eqb n key then 0 else S (index key rest)
  end.

Definition contains (key : string) (names : list string) : bool :=
  existsb (String.eqb key) names.

(** [AbstractContainer.__getitem__] for a channel name. *)
Definition getitem (names : list string) (sigs : list (list pyfloat))
           (key : string) : result (list pyfloat) :=
  if negb (contains key names) then Raise "No channel with that name"
  else
    let i := index key names in
    match nth_error sigs i with
    | Some s => Ok s
    | None => Raise "IndexError"
    end.

(** [AbstractContainer.__len__]. *)
Definition container_len (sigs : list (list pyfloat)) : Z :=
  match sigs with
  | [] => 0
  | s :: _ => Z.of_nat (length s)
  end.

(** [numpy.max] of a one-dimensional array: not-a-number as soon as one
    element is; the empty array has no maximum. *)
Fixpoint max_from (best : pyfloat) (l : list pyfloat) : pyfloat :=
  match l with
  | [] => best
  | x :: rest => max_from (np_maximum best x) rest
  end.

Definition np_max (l : list pyfloat) : result pyfloat :=
  match l with
  | [] => Raise "zero-size array to reduction operation maximum"
  | x :: rest => Ok (max_from x rest)
  end.

(** [numpy.abs] of an array of amplitudes, and of an array of times. *)
Definition np_abs (l : list pyfloat) : list pyfloat := map fabs l.

Definition np_abs_times (l : list Q) : list Q := map Qabs l.

(** *** EventContainer *)

Record EventContainer : Type := {
  ev_channel_names : list string;
  ev_sample_rate : Z;
  ev_signals : list (list pyfloat);
  ev_timestamps : list Q
}.

(** [EventContainer.__init__]: the test [isinstance(signals[0], list)]
    indexes the list of signals. *)
Definition new_EventContainer (names : list string) (rate : Z)
           (sigs : list (list pyfloat)) (ts : list Q) : result EventContainer :=
  match sigs with
  | [] => Raise "IndexError"
  | _ :: _ =>
      Ok {| ev_channel_names := names; ev_sample_rate := rate;
            ev_signals := sigs; ev_timestamps := ts |}
  end.

Definition ev_getitem (e : EventContainer) (key : string)
  : result (list pyfloat) :=
  getitem (ev_channel_names e) (ev_signals e) key.

Definition ev_len (e : EventContainer) : Z := container_len (ev_signals e).

(** The loop [for ch in self.channel_names] of [contains_blink]. *)
Fixpoint blink_loop (e : EventContainer) (chs : list string) : result bool :=
  match chs with
  | [] => Ok false
  | ch :: rest =>
      match ev_getitem e ch with
      | Raise m => Raise m
      | Ok s =>
          match np_max (np_abs s) with
          | Raise m => Raise m
          | Ok m => if fgt m (Finite 100) then Ok true else blink_loop e rest
          end
      end
  end.

(** [EventContainer.contains_blink], variadic in the channel names: the argument is
    replaced by all names when empty, and the loop then runs over
    [self.channel_names]. *)
Definition contains_blink (e : EventContainer) (channel_names : list string)
  : result bool :=
  let channel_names :=
    match channel_names with
    | [] => ev_channel_names e
    | _ :: _ => channel_names
    end in
  blink_loop e (ev_channel_names e).

(** The invariant of an epoch that holds data: the channel names are
    distinct, there is one array per name, and no array is empty. *)
Definition ev_well_formed (e : EventContainer) : Prop :=
  NoDup (ev_channel_names e) /\
  length (ev_channel_names e) = length (ev_signals e) /\
  Forall (fun s => s <> []) (ev_signals e).

(** [[self[c] for c in self.channel_names]]. *)
Fixpoint getitems (e : EventContainer) (chs : list string)
  : result (list (list pyfloat)) :=
  match chs with
  | [] => Ok []
  | c :: rest =>
      match ev_getitem e c with
      | Raise m => Raise m
      | Ok s =>
          match getitems e rest with
          | Raise m => Raise m
          | Ok r => Ok (s :: r)
          end
      end
  end.

(** [EventContainer.__truediv__]. *)
Definition ev_truediv (e : EventContainer) (scalar : Q) : result EventContainer :=
  if Qeq_bool scalar 0 then Raise "Can't divide by zero."
  else
    match getitems e (ev_channel_names e) with
    | Raise m => Raise m
    | Ok sigs =>
        new_EventContainer (ev_channel_names e) (ev_sample_rate e)
                           (map (map (fun x => fdiv x scalar)) sigs)
                           (ev_timestamps e)
    end.

(** *** EEGContainer *)

Record BCISignal : Type := {
  sig_timestamp : Q;
  sig_signals : list pyfloat
}.

Record EEGContainer : Type := {
  channel_names : list string;
  sample_rate : Z;
  signals : list (list pyfloat);
  timestamps : list Q;
  events : list Q
}.

Definition new_EEGContainer (names : list string) (rate : Z) : EEGContainer :=
  {| channel_names := names; sample_rate := rate;
     signals := map (fun _ => []) names; timestamps := []; events := [] |}.

(** [self.signals[i].append(rec.signals[i])] for every index of
    [rec.signals]. *)
Fixpoint append_each (sigs : list (list pyfloat)) (vals : list pyfloat)
  : result (list (list pyfloat)) :=
  match vals, sigs with
  | [], _ => Ok sigs
  | _ :: _, [] => Raise "IndexError"
  | v :: vals', s :: sigs' =>
      match append_each sigs' vals' with
      | Raise m => Raise m
      | Ok r => Ok ((s ++ [v]) :: r)
      end
  end.

Definition add_data (c : EEGContainer) (rec : BCISignal) : result EEGContainer :=
  if negb (length (sig_signals rec) =? length (channel_names c))%nat then
    Raise "Number of signals does not match number of channels provided"
  else
    match append_each (signals c) (sig_signals rec) with
    | Raise m => Raise m
    | Ok sigs =>
        Ok {| channel_names := channel_names c; sample_rate := sample_rate c;
              signals := sigs;
              timestamps := timestamps c ++ [sig_timestamp rec];
              events := events c |}
    end.

(** [numpy.argmin]: the first index of a least element. *)
Fixpoint argmin_from (best_i : nat) (best : Q) (i : nat) (l : list Q) : nat :=
  match l with
  | [] => best_i
  | x :: rest =>
      if Qltb x best then argmin_from i x (S i) rest
      else argmin_from best_i best (S i) rest
  end.

Definition argmin (l : list Q) : result nat :=
  match l with
  | [] => Raise "attempt to get argmin of an empty sequence"
  | x :: rest => Ok (argmin_from 0 x 1 rest)
  end.

(** [EEGContainer.__find_closest_timestamp]. *)
Definition find_closest_timestamp (c : EEGContainer) (timestamp : Q)
  : result nat :=
  argmin (np_abs_times (map (fun x => x - timestamp) (timestamps c))).

(** [EEGContainer.add_event]: the epoch and the container with the event
    registered. *)
Definition add_event (c : EEGContainer) (event_time : Q) (before after : Z)
  : result (EventContainer * EEGContainer) :=
  match find_closest_timestamp c event_time with
  | Raise m => Raise m
  | Ok event =>
      match nth_error (timestamps c) event with
      | None => Raise "IndexError"
      | Some event_time =>
          let events' :=
            if existsb (Qeq_bool event_time) (events c) then events c
            else events c ++ [event_time] in
          let c' := {| channel_names := channel_names c;
                       sample_rate := sample_rate c;
                       signals := signals c;
                       timestamps := timestamps c;
                       events := events' |} in
          let event := Z.of_nat event in
          let before_samples := (before * sample_rate c / 1000)%Z in
          let before_samples := Z.max (event - before_samples) 0 in
          let after_samples := (after * sample_rate c / 1000 + 1)%Z in
          let after_samples :=
            Z.min (event + after_samples) (Z.of_nat (length (timestamps c))) in
          let new_timestamps :=
            map (fun x => x - event_time)
                (py_slice before_samples after_samples (timestamps c)) in
          let new_signals :=
            map (py_slice before_samples after_samples) (signals c) in
          match new_EventContainer (channel_names c) (sample_rate c)
                                   new_signals new_timestamps with
          | Raise m => Raise m
          | Ok e => Ok (e, c')
          end
      end
  end.

(** *** Indexing by name or by position *)

(** A key of [__getitem__] and [__setitem__]: a channel name or a
    position. Keys of another type are rejected by the first test of both
    methods and are not represented. *)
Inductive Key : Type :=
| KStr (s : string)
| KInt (i : Z).

(** The first steps of [__getitem__] and [__setitem__]: a position is
    checked against the number of names and replaced by the name there. *)
Definition resolve_key (names : list string) (key : Key) : result string :=
  match key with
  | KStr s => Ok s
  | KInt i =>
      if (i >=? Z.of_nat (length names))%Z || (i <? 0)%Z
      then Raise "Index out of bound"
      else
        match nth_error names (Z.to_nat i) with
        | Some s => Ok s
        | None => Raise "IndexError"
        end
  end.

Definition getitem_key (names : list string) (sigs : list (list pyfloat))
           (key : Key) : result (list pyfloat) :=
  match resolve_key names key with
  | Raise m => Raise m
  | Ok k => getitem names sigs k
  end.

(** [l[i] = v] on a list. *)
Fixpoint list_set (A : Type) (i : nat) (v : A) (l : list A) : option (list A) :=
  match l, i with
  | [], _ => None
  | _ :: rest, O => Some (v :: rest)
  | x :: rest, S i' =>
      match list_set i' v rest with
      | Some r => Some (x :: r)
      | None => None
      end
  end.

(** [AbstractContainer.__setitem__]: the signals after the assignment. *)
Definition setitem_key (names : list string) (sigs : list (list pyfloat))
           (key : Key) (value : list pyfloat) : result (list (list pyfloat)) :=
  match resolve_key names key with
  | Raise m => Raise m
  | Ok k =>
      if negb (contains k names) then Raise "No channel with that name"
      else
        match list_set (index k names) value sigs with
        | Some sigs' => Ok sigs'
        | None => Raise "IndexError"
        end
  end.

(** *** Arithmetic of epochs *)

(** [set(a) == set(b)] for lists of names. *)
Definition same_set (a b : list string) : bool :=
  forallb (fun x => contains x b) a && forallb (fun x => contains x a) b.

(** [[self[c] + other[c] for c in self.channel_names]]. *)
Fixpoint add_channels (self other : EventContainer) (chs : list string)
  : result (list (list pyfloat)) :=
  match chs with
  | [] => Ok []
  | c :: rest =>
      match ev_getitem self c with
      | Raise m => Raise m
      | Ok a =>
          match ev_getitem other c with
          | Raise m => Raise m
          | Ok b =>
              match np_binop fadd a b with
              | Raise m => Raise m
              | Ok s =>
                  match add_channels self other rest with
                  | Raise m => Raise m
                  | Ok r => Ok (s :: r)
                  end
              end
          end
      end
  end.

(** [EventContainer.__add__]. *)
Definition ev_add (self other : EventContainer) : result EventContainer :=
  if negb (same_set (ev_channel_names self) (ev_channel_names other))
  then Raise "AssertionError"
  else
    match ev_signals self, ev_signals other with
    | s0 :: _, o0 :: _ =>
        if negb (length s0 =? length o0)%nat then Raise "AssertionError"
        else if negb (ev_sample_rate self =? ev_sample_rate other)%Z
        then Raise "AssertionError"
        else
          match add_channels self other (ev_channel_names self) with
          | Raise m => Raise m
          | Ok new_signals =>
              new_EventContainer (ev_channel_names self) (ev_sample_rate self)
                                 new_signals (ev_timestamps self)
          end
    | _, _ => Raise "IndexError"
    end.

(** *** Further methods of EEGContainer. The channels of an EEGContainer
    are Python lists, as [__init__] and [add_data] make them. *)

(** [shift_timestamps]. *)
Definition shift_timestamps (c : EEGContainer) : EEGContainer :=
  match timestamps c with
  | [] => c
  | first_timestamp :: _ =>
      {| channel_names := channel_names c; sample_rate := sample_rate c;
         signals := signals c;
         timestamps := map (fun x => x - first_timestamp) (timestamps c);
         events := map (fun x => x - first_timestamp) (events c) |}
  end.

(** The loop [for o in x[1:]: s = np.add(s, o)] of the local function
    [s_osum]. *)
Fixpoint add_up (s : list pyfloat) (rest : list (list pyfloat))
  : result (list pyfloat) :=
  match rest with
  | [] => Ok s
  | o :: rest' =>
      match np_binop fadd s o with
      | Raise m => Raise m
      | Ok s' => add_up s' rest'
      end
  end.

(** [s_osum]: [None] for no signal, the signal itself for one, the sum
    else. *)
Definition s_osum (x : list (list pyfloat))
  : result (option (list pyfloat)) :=
  match x with
  | [] => Ok None
  | [a] => Ok (Some a)
  | a :: rest =>
      match add_up a rest with
      | Raise m => Raise m
      | Ok s => Ok (Some s)
      end
  end.

(** [s_osum(x) / len(x)]. *)
Definition mean_signal (x : list (list pyfloat)) : result (list pyfloat) :=
  match s_osum x with
  | Raise m => Raise m
  | Ok None => Raise "TypeError: unsupported operand type(s) for /"
  | Ok (Some s) =>
      Ok (map (fun v => fdiv v (inject_Z (Z.of_nat (length x)))) s)
  end.

(** [[self[ch] for ch in channel_selection]]. *)
Fixpoint select_channels (c : EEGContainer) (chs : list string)
  : result (list (list pyfloat)) :=
  match chs with
  | [] => Ok []
  | ch :: rest =>
      match getitem (channel_names c) (signals c) ch with
      | Raise m => Raise m
      | Ok s =>
          match select_channels c rest with
          | Raise m => Raise m
          | Ok r => Ok (s :: r)
          end
      end
  end.

(** [EEGContainer.average_ch], variadic in the channel names. The new
    container is built by the constructor, so it has no events. *)
Definition average_ch (c : EEGContainer) (channel_selection : list string)
  : result EEGContainer :=
  let selected :=
    match channel_selection with
    | [] => Ok (channel_names c, signals c)
    | _ :: _ =>
        match select_channels c channel_selection with
        | Raise m => Raise m
        | Ok sigs => Ok (channel_selection, sigs)
        end
    end in
  match selected with
  | Raise m => Raise m
  | Ok (names, sigs) =>
      match mean_signal sigs with
      | Raise m => Raise m
      | Ok new_signal =>
          Ok {| channel_names := [String.concat "" names];
                sample_rate := sample_rate c;
                signals := [new_signal];
                timestamps := timestamps c;
                events := [] |}
      end
  end.

(** The invariant of a recording: one channel per name, and every channel
    as long as the list of time stamps. *)
Definition eeg_well_formed (c : EEGContainer) : Prop :=
  length (signals c) = length (channel_names c) /\
  Forall (fun s => length s = length (timestamps c)) (signals c).

(** The sum of the samples at position [i] over a list of channels, added
    up from the first channel on. Positions outside a channel count as 0. *)
Definition column_sum (i : nat) (first : list pyfloat)
           (rest : list (list pyfloat)) : pyfloat :=
  fold_left fadd (map (fun o => nth i o (Finite 0)) rest)
            (nth i first (Finite 0)).

End Container.

(** ** __init__.py: TemplateDatabase *)

Module Database.

(** A template is a one-dimensional [numpy] array of floats. *)
Definition Template : Type := list pyfloat.

Fixpoint forallb2 (A : Type) (f : A -> A -> bool) (l1 l2 : list A) : bool :=
  match l1, l2 with
  | [], [] => true
  | a :: r1, b :: r2 => f a b && forallb2 f r1 r2
  | _, _ => false
  end.

(** [numpy.array_equal]: same shape and equal elements; not-a-number is
    equal to nothing, itself included. *)
Definition array_equal (a b : Template) : bool := forallb2 feq a b.

(** *** A Python [dict] with string keys: the items in insertion order,
    every key at most once. *)
Section Dict.
Variable V : Type.

Definition dict : Type := list (string * V).

Fixpoint dict_get (k : string) (d : dict) : option V :=
  match d with
  | [] => None
  | (k', v) :: rest => if String.eqb k' k then Some v else dict_get k rest
  end.

Definition dict_mem (k : string) (d : dict) : bool :=
  match dict_get k d with Some _ => true | None => false end.

(** [d[k] = v]: an existing key keeps its place, a new one goes last. *)
Fixpoint dict_set (k : string) (v : V) (d : dict) : dict :=
  match d with
  | [] => [(k, v)]
  | (k', v') :: rest =>
      if String.eqb k' k then (k', v) :: rest
      else (k', v') :: dict_set k v rest
  end.

Fixpoint dict_del (k : string) (d : dict) : dict :=
  match d with
  | [] => []
  | (k', v') :: rest =>
      if String.eqb k' k then rest else (k', v') :: dict_del k rest
  end.

Definition dict_keys (d : dict) : list string := map fst d.

Definition dict_wf (d : dict) : Prop := NoDup (dict_keys d).
End Dict.

Record TemplateDatabase : Type := {
  internal_data : dict (list Template)
}.

Definition new_TemplateDatabase : TemplateDatabase :=
  {| internal_data := [] |}.

Definition get_templates (db : TemplateDatabase) (id : string)
  : bool * option (list Template) :=
  if negb (dict_mem id (internal_data db)) then (false, None)
  else (true, dict_get id (internal_data db)).

Definition add_template (db : TemplateDatabase) (id : string)
           (template : Template) : TemplateDatabase :=
  let d :=
    if negb (dict_mem id (internal_data db))
    then dict_set id [] (internal_data db)
    else internal_data db in
  match dict_get id d with
  | Some v => {| internal_data := dict_set id (v ++ [template]) d |}
  | None => {| internal_data := d |}
  end.

Definition get_all_idents (db : TemplateDatabase) : list string :=
  dict_keys (internal_data db).

Definition remove_identity (db : TemplateDatabase) (id : string)
  : TemplateDatabase :=
  if dict_mem id (internal_data db)
  then {| internal_data := dict_del id (internal_data db) |}
  else db.

(** [construct_from_dict]: every template of every item is added in turn. *)
Definition construct_from_dict (data : dict (list Template))
  : TemplateDatabase :=
  fold_left
    (fun instance kv =>
       fold_left (fun inst t => add_template inst (fst kv) t) (snd kv) instance)
    data new_TemplateDatabase.

(** *** JSON documents, as [json.loads] returns them *)
Inductive json : Type :=
| JNull
| JBool (b : bool)
| JNum (x : pyfloat)
| JStr (s : string)
| JArr (l : list json)
| JObj (items : list (string * json)).

(** [ndarray.tolist] of a vector. *)
Definition tolist (a : Template) : json := JArr (map JNum a).

(** [{k: [a.tolist() for a in v] for (k, v) in self.internal_data.items()}] *)
Definition s_data (db : TemplateDatabase) : json :=
  JObj (map (fun kv => (fst kv, JArr (map tolist (snd kv)))) (internal_data db)).

(** [numpy.array] of a JSON array of numbers. Arrays of another shape or
    element type are not templates; they are outside this model and are
    reported as an error. *)
Fixpoint numbers (l : list json) : result (list pyfloat) :=
  match l with
  | [] => Ok []
  | JNum q :: rest =>
      match numbers rest with
      | Ok qs => Ok (q :: qs)
      | Raise m => Raise m
      end
  | _ :: _ => Raise "not a vector of numbers"
  end.

Definition np_array (t : json) : result Template :=
  match t with
  | JArr l => numbers l
  | _ => Raise "not a vector of numbers"
  end.

(** The inner loop [for t in v: instance.add_template(k, np.array(t))]. *)
Fixpoint add_all (instance : TemplateDatabase) (k : string) (v : list json)
  : result TemplateDatabase :=
  match v with
  | [] => Ok instance
  | t :: rest =>
      match np_array t with
      | Raise m => Raise m
      | Ok a => add_all (add_template instance k a) k rest
      end
  end.

(** The outer loop [for k, v in d.items()] with its assertions. *)
Fixpoint load_items (instance : TemplateDatabase) (items : list (string * json))
  : result TemplateDatabase :=
  match items with
  | [] => Ok instance
  | (k, v) :: rest =>
      match v with
      | JArr l =>
          match add_all instance k l with
          | Raise m => Raise m
          | Ok instance' => load_items instance' rest
          end
      | _ => Raise "AssertionError"
      end
  end.

(** [__eq__]. *)
Definition db_eq (self other : TemplateDatabase) : bool :=
  if negb (length (internal_data self) =? length (internal_data other))%nat
  then false
  else
    forallb
      (fun kv =>
         match dict_get (fst kv) (internal_data other) with
         | None => false
         | Some v_other =>
             if negb (length (snd kv) =? length v_other)%nat then false
             else forallb2 array_equal (snd kv) v_other
         end)
      (internal_data self).

(** The functions [dumps] and [loads] of the standard [json] module are
    parameters of the serialisation. *)
Section Json.
Variable text : Type.
Variable dumps : json -> text.
Variable loads : text -> result json.

Definition to_json (db : TemplateDatabase) : text := dumps (s_data db).

Definition construct_from_json (data : text) : result TemplateDatabase :=
  match loads data with
  | Raise m => Raise m
  | Ok d =>
      let instance := new_TemplateDatabase in
      match d with
      | JObj items => load_items instance items
      | _ => Raise "AttributeError: no attribute items"
      end
  end.
End Json.

(** An item of a dictionary whose list of templates is not empty. *)
Definition has_templates (kv : string * list Template) : bool :=
  match snd kv with [] => false | _ :: _ => true end.

(** A database none of whose templates holds a not-a-number. *)
Definition db_all_numbers (db : TemplateDatabase) : Prop :=
  Forall (fun kv => Forall all_numbers (snd kv)) (internal_data db).

(** The templates stored for an identity; none if it is not found. *)
Definition stored (db : TemplateDatabase) (id : string) : list Template :=
  match snd (get_templates db id) with
  | Some v => v
  | None => []
  end.

(** The loop [for t in templates: self.database.add_template(id, t)]. *)
Definition add_templates (db : TemplateDatabase) (id : string)
           (templates : list Template) : TemplateDatabase :=
  fold_left (fun db t => add_template db id t) templates db.

End Database.

(** ** __init__.py: KeyWave *)

Module KeyWave.
Import Container Database.

Inductive TemplateMode : Type :=
| AverageTemplate
| SingleTemplates
| AverageAndSingleTemplates.

Inductive SimilarityMode : Type :=
| BestSimilarity
| AverageSimilarity.

Definition SimilarityMode_eqb (a b : SimilarityMode) : bool :=
  match a, b with
  | BestSimilarity, BestSimilarity => true
  | AverageSimilarity, AverageSimilarity => true
  | _, _ => false
  end.

(** *** The collaborators of the engine *)

(** What [task.fetch_data()] returns. *)
Record Stimulus : Type := {
  timestamp : Q;
  is_target : bool
}.

(** The methods of the device and of the task that the engine invokes. *)
Inductive Call : Type :=
| DevIsConnected
| DevIsWorn
| DevStartStream
| DevStopStream
| DevHasData
| DevFetchData
| TaskStart
| TaskStop
| TaskIsAlive
| TaskHasData
| TaskFetchData.

(** The device ([DeviceBase]), the task ([PersistentTaskBase]) and the
    clock ([time.time]) over a state [E] of their own. They run beside the
    engine, so a query may answer differently each time it is asked: every
    method maps the state to an answer and a next state. Attributes
    ([removal_time_stamp], [aborted], [channel_names], [sample_rate]) are
    read from the state. *)
Record Hardware (E : Type) : Type := {
  is_connected : E -> bool * E;
  is_worn : E -> bool * E;
  removal_time_stamp : E -> Q;
  set_removal_time_stamp : Q -> E -> E;
  dev_channel_names : E -> list string;
  dev_sample_rate : E -> Z;
  start_stream : E -> E;
  stop_stream : E -> E;
  dev_has_data : E -> bool * E;
  dev_fetch_data : E -> BCISignal * E;
  task_start : E -> E;
  task_stop : E -> E;
  task_is_alive : E -> bool * E;
  task_aborted : E -> bool;
  task_has_data : E -> bool * E;
  task_fetch_data : E -> Stimulus * E;
  time : E -> Q * E
}.

(** The strategies handed to the constructor, and [utils.osum]. *)
Record Plugins : Type := {
  preprocessing_apply : list EventContainer -> list EventContainer;
  extract_features : EventContainer -> Template;
  similarity_metric : Template -> Template -> pyfloat;
  osum : list EventContainer -> result EventContainer
}.

(** The fields of a [KeyWave] object. *)
Record Engine : Type := {
  database : TemplateDatabase;
  default_threshold : Q;
  last_auth : Q;
  last_id : option string;
  before_event_time_ms : Z;
  after_event_time_ms : Z;
  template_mode : TemplateMode;
  similarity_mode : SimilarityMode
}.

Definition with_last_auth (t : Q) (k : Engine) : Engine :=
  {| database := database k; default_threshold := default_threshold k;
     last_auth := t; last_id := last_id k;
     before_event_time_ms := before_event_time_ms k;
     after_event_time_ms := after_event_time_ms k;
     template_mode := template_mode k; similarity_mode := similarity_mode k |}.

Definition with_last_id (i : option string) (k : Engine) : Engine :=
  {| database := database k; default_threshold := default_threshold k;
     last_auth := last_auth k; last_id := i;
     before_event_time_ms := before_event_time_ms k;
     after_event_time_ms := after_event_time_ms k;
     template_mode := template_mode k; similarity_mode := similarity_mode k |}.

Definition with_database (d : TemplateDatabase) (k : Engine) : Engine :=
  {| database := d; default_threshold := default_threshold k;
     last_auth := last_auth k; last_id := last_id k;
     before_event_time_ms := before_event_time_ms k;
     after_event_time_ms := after_event_time_ms k;
     template_mode := template_mode k; similarity_mode := similarity_mode k |}.

(** [KeyWave.__init__] and [reset]. *)
Definition new_KeyWave (db : TemplateDatabase) (thr : Q) (before after : Z)
           (tm : TemplateMode) (sm : SimilarityMode) : Engine :=
  {| database := db; default_threshold := thr; last_auth := 0;
     last_id := None; before_event_time_ms := before;
     after_event_time_ms := after; template_mode := tm;
     similarity_mode := sm |}.

Definition reset (k : Engine) : Engine :=
  with_last_auth 0 (with_last_id None k).

(** *** The pure steps *)

Definition opt_string_eqb (a b : option string) : bool :=
  match a, b with
  | Some x, Some y => String.eqb x y
  | None, None => true
  | _, _ => false
  end.

(** Truth value of an optional float argument: [None] and [0.0] are
    false. *)
Definition truthy_float (x : option Q) : bool :=
  match x with
  | None => false
  | Some t => negb (Qeq_bool t 0)
  end.

(** Truth value of an optional string: [None] and the empty string are
    false. *)
Definition truthy_str (x : option string) : bool :=
  match x with
  | None => false
  | Some s => negb (String.eqb s "")
  end.

(** [threshold = self.default_threshold] when [not threshold]; a member
    of an [Enum] is always true, so a mode falls back only when absent. *)
Definition resolve_threshold (k : Engine) (threshold : option Q) : Q :=
  match threshold with
  | Some t => if negb (truthy_float threshold) then default_threshold k else t
  | None => default_threshold k
  end.

Definition resolve_template_mode (k : Engine) (m : option TemplateMode)
  : TemplateMode :=
  match m with Some m => m | None => template_mode k end.

Definition resolve_similarity_mode (k : Engine) (m : option SimilarityMode)
  : SimilarityMode :=
  match m with Some m => m | None => similarity_mode k end.

Definition count (A : Type) (l : list A) : Q := inject_Z (Z.of_nat (length l)).

(** [__create_templates]. *)
Definition create_templates (pl : Plugins) (events : list EventContainer)
           (mode : TemplateMode) : result (list Template) :=
  let first :=
    match mode with
    | AverageAndSingleTemplates | AverageTemplate =>
        match osum pl events with
        | Raise m => Raise m
        | Ok s =>
            match ev_truediv s (count events) with
            | Raise m => Raise m
            | Ok avg => Ok [extract_features pl avg]
            end
        end
    | SingleTemplates => Ok []
    end in
  match first with
  | Raise m => Raise m
  | Ok templates =>
      match mode with
      | SingleTemplates | AverageAndSingleTemplates =>
          Ok (templates ++ map (extract_features pl) events)
      | AverageTemplate => Ok templates
      end
  end.

(** [sum(sims)] and [max(sims)] of Python. *)
Definition py_sum (sims : list pyfloat) : pyfloat :=
  fold_left fadd sims (Finite 0).

Definition py_max (sims : list pyfloat) : result pyfloat :=
  match sims with
  | [] => Raise "max() arg is an empty sequence"
  | x :: rest =>
      Ok (fold_left (fun best item => if fgt item best then item else best)
                    rest x)
  end.

Definition py_div_len (s : pyfloat) (n : nat) : result pyfloat :=
  match n with
  | O => Raise "ZeroDivisionError"
  | S _ =>
      match s with
      | Finite q => Ok (Finite (q / inject_Z (Z.of_nat n)))
      | NaN => Ok NaN
      end
  end.

(** [list.sort(key=lambda x: x[1], reverse=True)]: stable, greatest key
    first. On keys that are all numbers every stable sort gives this
    list. Where a key is not-a-number the order Python arrives at depends
    on the steps of its sorting algorithm, which are not modelled; the
    statements about the order below are for lists without such a key. *)
Fixpoint insert_desc (x : string * pyfloat) (l : list (string * pyfloat))
  : list (string * pyfloat) :=
  match l with
  | [] => [x]
  | y :: rest =>
      if flt (snd x) (snd y) then y :: insert_desc x rest else x :: l
  end.

Definition sort_desc (l : list (string * pyfloat)) : list (string * pyfloat) :=
  fold_right insert_desc [] l.

(** A list of similarities in which every value is a number. *)
Definition no_nan (l : list (string * pyfloat)) : Prop :=
  Forall (fun s => isnan (snd s) = false) l.

(** [a] stands before [b] in a list sorted by [sort_desc]: [a] is not
    below [b]. *)
Definition not_below (a b : string * pyfloat) : Prop :=
  flt (snd a) (snd b) = false.

(** The body of the loop [for id in ids] of [__calculate_similarity]:
    [None] when the identity is skipped by a [continue]. *)
Definition similarity_of (pl : Plugins) (db : TemplateDatabase)
           (templates : list Template) (mode : SimilarityMode) (id : string)
  : result (option (string * pyfloat)) :=
  let stored_templates := get_templates db id in
  if negb (fst stored_templates) then Ok None
  else
    match snd stored_templates with
    | None | Some [] => Ok None
    | Some stored =>
        let sims :=
          flat_map (fun st => map (fun t => similarity_metric pl st t) templates)
                   stored in
        let sim :=
          if SimilarityMode_eqb mode AverageSimilarity
          then py_div_len (py_sum sims) (length sims)
          else py_max sims in
        match sim with
        | Raise m => Raise m
        | Ok sim => Ok (Some (id, sim))
        end
    end.

Fixpoint similarity_loop (pl : Plugins) (db : TemplateDatabase)
         (templates : list Template) (mode : SimilarityMode)
         (ids : list string) (global_sims : list (string * pyfloat))
  : result (list (string * pyfloat)) :=
  match ids with
  | [] => Ok global_sims
  | id :: rest =>
      match similarity_of pl db templates mode id with
      | Raise m => Raise m
      | Ok None => similarity_loop pl db templates mode rest global_sims
      | Ok (Some s) =>
          similarity_loop pl db templates mode rest (global_sims ++ [s])
      end
  end.

(** [__calculate_similarity]. *)
Definition calculate_similarity (pl : Plugins) (db : TemplateDatabase)
           (templates : list Template) (mode : SimilarityMode)
           (id : option string) : result (list (string * pyfloat)) :=
  let ids :=
    match id with
    | Some i => if negb (truthy_str id) then get_all_idents db else [i]
    | None => get_all_idents db
    end in
  match similarity_loop pl db templates mode ids [] with
  | Raise m => Raise m
  | Ok global_sims => Ok (sort_desc global_sims)
  end.

(** The loop [for time_stamp in stimuli_times] of [__perform_task_rec]. *)
Fixpoint extract_events (c : EEGContainer) (stimuli_times : list Q)
         (before after : Z) (events : list EventContainer)
  : result (list EventContainer * EEGContainer) :=
  match stimuli_times with
  | [] => Ok (events, c)
  | time_stamp :: rest =>
      match add_event c time_stamp before after with
      | Raise m => Raise m
      | Ok (event, c') => extract_events c' rest before after (events ++ [event])
      end
  end.

(** The loop [while len(events[0]) != len(events[-1]): events = events[:-1]].
    Each round shortens the list, so [S (length events)] rounds of fuel
    are never used up (lemma [trim_events_fuel]); [None] stands for fuel
    that ran out. *)
Fixpoint trim_loop (fuel : nat) (events : list EventContainer)
  : option (result (list EventContainer)) :=
  match fuel with
  | O => None
  | S fuel' =>
      match events with
      | [] => Some (Raise "IndexError: list index out of range")
      | first :: _ =>
          if negb (ev_len first =? ev_len (last events first))%Z
          then trim_loop fuel' (removelast events)
          else Some (Ok events)
      end
  end.

Definition trim_events (events : list EventContainer)
  : option (result (list EventContainer)) :=
  trim_loop (S (length events)) events.

(** *** The engine as a state machine *)

(** How a run ends: with a value, with an exception, or not at all within
    the fuel given to its polling loops. *)
Inductive outcome (A : Type) : Type :=
| Return (a : A)
| Throw (msg : string)
| Diverge.

Arguments Return {A} a.
Arguments Throw {A} msg.
Arguments Diverge {A}.

Section Effects.
Variable E : Type.
Variable hw : Hardware E.
Variable pl : Plugins.

(** The state a call runs in: the collaborators, the methods invoked on
    them so far (oldest first), and the engine object. *)
Record World : Type := {
  env : E;
  calls : list Call;
  self : Engine
}.

Definition M (A : Type) : Type := World -> outcome A * World.

Definition ret (A : Type) (a : A) : M A := fun w => (Return a, w).

Definition bind (A B : Type) (c : M A) (k : A -> M B) : M B :=
  fun w =>
    match c w with
    | (Return a, w') => k a w'
    | (Throw m, w') => (Throw m, w')
    | (Diverge, w') => (Diverge, w')
    end.

Definition throw (A : Type) (msg : string) : M A := fun w => (Throw msg, w).

Definition diverge (A : Type) : M A := fun w => (Diverge, w).

(** [try: ... except Exception as e: ...]. *)
Definition try_catch (A : Type) (c : M A) : M (string + A) :=
  fun w =>
    match c w with
    | (Return a, w') => (Return (inr a), w')
    | (Throw m, w') => (Return (inl m), w')
    | (Diverge, w') => (Diverge, w')
    end.

Definition lift (A : Type) (r : result A) : M A :=
  match r with
  | Ok a => ret a
  | Raise m => throw A m
  end.

Notation "x <- c ;; k" := (bind c (fun x => k))
  (at level 61, c at next level, right associativity).
Notation "c ;;; k" := (bind c (fun _ => k))
  (at level 61, right associativity).

(** A method with an answer, a method without, an attribute read and an
    attribute write. Only methods are recorded in [calls]. *)
Definition query (A : Type) (c : Call) (f : E -> A * E) : M A :=
  fun w =>
    let (a, e) := f (env w) in
    (Return a, {| env := e; calls := calls w ++ [c]; self := self w |}).

Definition command (c : Call) (f : E -> E) : M unit :=
  fun w =>
    (Return tt,
     {| env := f (env w); calls := calls w ++ [c]; self := self w |}).

Definition attribute (A : Type) (f : E -> A) : M A :=
  fun w => (Return (f (env w)), w).

Definition set_attribute (f : E -> E) : M unit :=
  fun w => (Return tt, {| env := f (env w); calls := calls w; self := self w |}).

(** [time()]. *)
Definition clock : M Q :=
  fun w =>
    let (t, e) := time hw (env w) in
    (Return t, {| env := e; calls := calls w; self := self w |}).

Definition get_self : M Engine := fun w => (Return (self w), w).

Definition update_self (f : Engine -> Engine) : M unit :=
  fun w =>
    (Return tt, {| env := env w; calls := calls w; self := f (self w) |}).

(** The loop [while time() - start < timeout_s and self.task.is_alive()]. *)
Fixpoint poll_loop (fuel : nat) (start timeout_s : Q)
         (eeg_container : EEGContainer) : M EEGContainer :=
  match fuel with
  | O => diverge EEGContainer
  | S fuel' =>
      now <- clock ;;
      if negb (Qltb (now - start) timeout_s) then ret eeg_container
      else
        alive <- query TaskIsAlive (task_is_alive hw) ;;
        if negb alive then ret eeg_container
        else
          removal <- attribute (removal_time_stamp hw) ;;
          removed <-
            (if Qltb start removal then ret true
             else
               worn <- query DevIsWorn (is_worn hw) ;;
               ret (negb worn)) ;;
          if removed : bool then
            command DevStopStream (stop_stream hw) ;;;
            command TaskStop (task_stop hw) ;;;
            throw EEGContainer "Device not on head"
          else
            aborted <- attribute (task_aborted hw) ;;
            if aborted : bool then
              still <- query TaskIsAlive (task_is_alive hw) ;;
              (if still : bool then command TaskStop (task_stop hw)
               else ret tt) ;;;
              throw EEGContainer "Task was stopped early"
            else
              has <- query DevHasData (dev_has_data hw) ;;
              c' <-
                (if has : bool then
                   rec <- query DevFetchData (dev_fetch_data hw) ;;
                   lift (add_data eeg_container rec)
                 else ret eeg_container) ;;
              poll_loop fuel' start timeout_s c'
  end.

(** The loop [while self.task.has_data()]. *)
Fixpoint drain_loop (fuel : nat) (stop_time : Q) (stimuli_times : list Q)
  : M (list Q) :=
  match fuel with
  | O => diverge (list Q)
  | S fuel' =>
      has <- query TaskHasData (task_has_data hw) ;;
      if negb has then ret stimuli_times
      else
        t <- query TaskFetchData (task_fetch_data hw) ;;
        stop <-
          (if Qltb stop_time (timestamp t) then ret true
           else
             alive <- query TaskIsAlive (task_is_alive hw) ;;
             ret (negb alive)) ;;
        if stop : bool then ret stimuli_times
        else
          drain_loop fuel' stop_time
                     (if is_target t then stimuli_times ++ [timestamp t]
                      else stimuli_times)
  end.

Definition run_trim (events : list EventContainer) : M (list EventContainer) :=
  match trim_events events with
  | None => diverge (list EventContainer)
  | Some r => lift r
  end.

(** [__perform_task_rec]. *)
Definition perform_task_rec (fuel : nat) (timeout_s : Q)
  : M (list EventContainer) :=
  names <- attribute (dev_channel_names hw) ;;
  rate <- attribute (dev_sample_rate hw) ;;
  let eeg_container := new_EEGContainer names rate in
  start <- clock ;;
  command DevStartStream (start_stream hw) ;;;
  command TaskStart (task_start hw) ;;;
  eeg_container <- poll_loop fuel start timeout_s eeg_container ;;
  command DevStopStream (stop_stream hw) ;;;
  stop_time <- clock ;;
  stimuli_times <- drain_loop fuel stop_time [] ;;
  command TaskStop (task_stop hw) ;;;
  k <- get_self ;;
  r <- lift (extract_events eeg_container stimuli_times
                            (before_event_time_ms k)
                            (after_event_time_ms k) []) ;;
  run_trim (fst r).

(** The continuous-authentication test of [authenticate]: [Some b] when
    the call returns [b] at once, [None] when it goes on to record. *)
Definition fast_path (id : string) (continuous_auth : bool)
  : M (option bool) :=
  k <- get_self ;;
  removal <- attribute (removal_time_stamp hw) ;;
  if continuous_auth && Qltb removal (last_auth k) then
    worn <- query DevIsWorn (is_worn hw) ;;
    if negb worn then
      now <- clock ;;
      set_attribute (set_removal_time_stamp hw now) ;;;
      ret (Some false)
    else if opt_string_eqb (Some id) (last_id k) then ret (Some true)
    else ret None
  else ret None.

(** [authenticate], from the [try] on. *)
Definition authenticate_record (fuel : nat) (id : string) (timeout_s : Q)
           (threshold : Q) (tmode : TemplateMode) (smode : SimilarityMode)
  : M bool :=
  r <- try_catch (perform_task_rec fuel timeout_s) ;;
  match r with
  | inl _ =>
      update_self (with_last_auth 0) ;;;
      ret false
  | inr events =>
      let events := preprocessing_apply pl events in
      templates <- lift (create_templates pl events tmode) ;;
      k <- get_self ;;
      sims <- lift (calculate_similarity pl (database k) templates smode
                                         (Some id)) ;;
      match sims with
      | [s] =>
          if isnan (snd s) then ret false
          else if flt (snd s) (Finite threshold) then ret false
          else
            now <- clock ;;
            update_self (with_last_auth now) ;;;
            update_self (with_last_id (Some id)) ;;;
            ret true
      | _ => ret false
      end
  end.

(** [authenticate]. The optional arguments are [None] when omitted. *)
Definition authenticate (fuel : nat) (id : string) (continuous_auth : bool)
           (timeout_s : Q) (threshold : option Q)
           (tmode : option TemplateMode) (smode : option SimilarityMode)
  : M bool :=
  connected <- query DevIsConnected (is_connected hw) ;;
  if negb connected then ret false
  else
    k <- get_self ;;
    if negb (contains id (get_all_idents (database k))) then ret false
    else
      let threshold := resolve_threshold k threshold in
      let tmode := resolve_template_mode k tmode in
      let smode := resolve_similarity_mode k smode in
      fast <- fast_path id continuous_auth ;;
      match fast with
      | Some b => ret b
      | None => authenticate_record fuel id timeout_s threshold tmode smode
      end.

(** [identification], from the [try] on. *)
Definition identification_record (fuel : nat) (timeout_s : Q)
           (threshold : Q) (tmode : TemplateMode) (smode : SimilarityMode)
  : M (bool * option string) :=
  r <- try_catch (perform_task_rec fuel timeout_s) ;;
  match r with
  | inl _ => ret (false, None)
  | inr events =>
      let events := preprocessing_apply pl events in
      templates <- lift (create_templates pl events tmode) ;;
      k <- get_self ;;
      sims <- lift (calculate_similarity pl (database k) templates smode
                                         None) ;;
      match sims with
      | [] => ret (false, Some ""%string)
      | s :: _ =>
          if flt (snd s) (Finite threshold) then ret (false, Some ""%string)
          else ret (true, Some (fst s))
      end
  end.

(** [identification]. *)
Definition identification (fuel : nat) (timeout_s : Q) (threshold : option Q)
           (tmode : option TemplateMode) (smode : option SimilarityMode)
  : M (bool * option string) :=
  connected <- query DevIsConnected (is_connected hw) ;;
  if negb connected then ret (false, None)
  else
    k <- get_self ;;
    let threshold := resolve_threshold k threshold in
    let tmode := resolve_template_mode k tmode in
    let smode := resolve_similarity_mode k smode in
    identification_record fuel timeout_s threshold tmode smode.

(** [enroll]. *)
Definition enroll (fuel : nat) (id : string) (timeout_s : Q)
           (enrollment_mode : option TemplateMode) : M bool :=
  connected <- query DevIsConnected (is_connected hw) ;;
  if negb connected then ret false
  else
    k <- get_self ;;
    let enrollment_mode := resolve_template_mode k enrollment_mode in
    r <- try_catch (perform_task_rec fuel timeout_s) ;;
    match r with
    | inl _ => ret false
    | inr events =>
        let events := preprocessing_apply pl events in
        templates <- lift (create_templates pl events enrollment_mode) ;;
        update_self
          (fun k =>
             with_database
               (fold_left (fun db t => add_template db id t) templates
                          (database k)) k) ;;;
        now <- clock ;;
        update_self (with_last_auth now) ;;;
        update_self (with_last_id (Some id)) ;;;
        ret true
    end.

(** A computation that leaves the engine object as it found it. *)
Definition frames_self (A : Type) (c : M A) : Prop :=
  forall w, self (snd (c w)) = self w.

(** A computation that only adds to the record of calls. *)
Definition grows_calls (A : Type) (c : M A) : Prop :=
  forall w, exists rest, calls (snd (c w)) = calls w ++ rest.

End Effects.

End KeyWave.

(** ** A scripted device and task

    A concrete instance of the collaborators, on which the engine can be run
    from start to end: the device hands out a prepared list of samples, the
    task a prepared list of stimuli, and the clock advances by one second
    each time it is read. *)

Module Bench.
Import Container Database KeyWave.

Record Rig : Type := {
  rig_connected : bool;
  rig_worn : bool;
  rig_removal : Q;
  rig_now : Q;
  rig_alive : bool;
  rig_aborted : bool;
  rig_samples : list BCISignal;
  rig_stimuli : list Stimulus
}.

Definition rig_with_removal (t : Q) (r : Rig) : Rig :=
  {| rig_connected := rig_connected r; rig_worn := rig_worn r;
     rig_removal := t; rig_now := rig_now r; rig_alive := rig_alive r;
     rig_aborted := rig_aborted r; rig_samples := rig_samples r;
     rig_stimuli := rig_stimuli r |}.

Definition rig_with_alive (b : bool) (r : Rig) : Rig :=
  {| rig_connected := rig_connected r; rig_worn := rig_worn r;
     rig_removal := rig_removal r; rig_now := rig_now r; rig_alive := b;
     rig_aborted := rig_aborted r; rig_samples := rig_samples r;
     rig_stimuli := rig_stimuli r |}.

Definition rig_tick (r : Rig) : Q * Rig :=
  (rig_now r,
   {| rig_connected := rig_connected r; rig_worn := rig_worn r;
      rig_removal := rig_removal r; rig_now := Qred (rig_now r + 1);
      rig_alive := rig_alive r; rig_aborted := rig_aborted r;
      rig_samples := rig_samples r; rig_stimuli := rig_stimuli r |}).

Definition rig_fetch_sample (r : Rig) : BCISignal * Rig :=
  match rig_samples r with
  | [] => ({| sig_timestamp := 0; sig_signals := [] |}, r)
  | s :: rest =>
      (s, {| rig_connected := rig_connected r; rig_worn := rig_worn r;
             rig_removal := rig_removal r; rig_now := rig_now r;
             rig_alive := rig_alive r; rig_aborted := rig_aborted r;
             rig_samples := rest; rig_stimuli := rig_stimuli r |})
  end.

Definition rig_fetch_stimulus (r : Rig) : Stimulus * Rig :=
  match rig_stimuli r with
  | [] => ({| timestamp := 0; is_target := false |}, r)
  | s :: rest =>
      (s, {| rig_connected := rig_connected r; rig_worn := rig_worn r;
             rig_removal := rig_removal r; rig_now := rig_now r;
             rig_alive := rig_alive r; rig_aborted := rig_aborted r;
             rig_samples := rig_samples r; rig_stimuli := rest |})
  end.

Definition nonempty (A : Type) (l : list A) : bool :=
  match l with [] => false | _ :: _ => true end.

Definition rig_hw : Hardware Rig :=
  {| is_connected := fun r => (rig_connected r, r);
     is_worn := fun r => (rig_worn r, r);
     removal_time_stamp := rig_removal;
     set_removal_time_stamp := rig_with_removal;
     dev_channel_names := fun _ => ["Cz"%string];
     dev_sample_rate := fun _ => 1%Z;
     start_stream := fun r => r;
     stop_stream := fun r => r;
     dev_has_data := fun r => (nonempty (rig_samples r), r);
     dev_fetch_data := rig_fetch_sample;
     task_start := rig_with_alive true;
     task_stop := rig_with_alive false;
     task_is_alive := fun r => (rig_alive r, r);
     task_aborted := rig_aborted;
     task_has_data := fun r => (nonempty (rig_stimuli r), r);
     task_fetch_data := rig_fetch_stimulus;
     time := rig_tick |}.

(** Strategies of the bench: no filtering, the first channel as the
    template, a metric that scores every pair with the same value, and the
    first epoch in place of the sum. *)
Definition bench_plugins (score : pyfloat) : Plugins :=
  {| preprocessing_apply := fun events => events;
     extract_features :=
       fun e => match ev_signals e with [] => [] | s :: _ => s end;
     similarity_metric := fun _ _ => score;
     osum :=
       fun events =>
         match events with
         | [] => Raise "osum of no events"
         | e :: _ => Ok e
         end |}.

(** Strategies whose metric tells templates apart: 1 for two templates
    that begin with the same number, one quarter for other templates. *)
Definition telling_plugins : Plugins :=
  {| preprocessing_apply := fun events => events;
     extract_features :=
       fun e => match ev_signals e with [] => [] | s :: _ => s end;
     similarity_metric :=
       fun a b =>
         match a, b with
         | x :: _, y :: _ => if feq x y then Finite 1 else Finite (1 # 4)
         | _, _ => Finite (1 # 4)
         end;
     osum :=
       fun events =>
         match events with
         | [] => Raise "osum of no events"
         | e :: _ => Ok e
         end |}.

Definition sample (t v : Q) : BCISignal :=
  {| sig_timestamp := t; sig_signals := [Finite v] |}.

Definition target (t : Q) : Stimulus :=
  {| timestamp := t; is_target := true |}.

(** Six samples, one per second from second 100 on. *)
Definition six_samples : list BCISignal :=
  [sample 100 1; sample 101 2; sample 102 3;
   sample 103 4; sample 104 5; sample 105 6].

Definition rig (connected worn : bool) (removal : Q)
           (stimuli : list Stimulus) : Rig :=
  {| rig_connected := connected; rig_worn := worn; rig_removal := removal;
     rig_now := 100; rig_alive := false; rig_aborted := false;
     rig_samples := six_samples; rig_stimuli := stimuli |}.

Definition db_alice : TemplateDatabase :=
  add_template new_TemplateDatabase "alice" (nums [1; 2; 3; 4; 5]).

(** An engine with a two-second window on either side of an event and a
    default threshold of one half. *)
Definition engine (db : TemplateDatabase) (auth : Q) (id : option string)
  : Engine :=
  {| database := db; default_threshold := 1 # 2; last_auth := auth;
     last_id := id; before_event_time_ms := 2000;
     after_event_time_ms := 2000; template_mode := AverageTemplate;
     similarity_mode := AverageSimilarity |}.

Definition world (r : Rig) (k : Engine) : World Rig :=
  {| env := r; calls := []; self := k |}.

(** The container the six samples fill. *)
Definition six_container : EEGContainer :=
  {| channel_names := ["Cz"%string]; sample_rate := 1;
     signals := [nums [1; 2; 3; 4; 5; 6]];
     timestamps := [100; 101; 102; 103; 104; 105];
     events := [] |}.

(** An epoch of two channels with a deflection of 150 units on the
    first. *)
Definition blink_epoch : EventContainer :=
  {| ev_channel_names := ["Cz"; "Pz"]%string; ev_sample_rate := 256;
     ev_signals := [nums [1; -(150)]; nums [2; 3]];
     ev_timestamps := [0; 1] |}.

(** Epochs that [contains_blink] misreads: a not-a-number beside a
    deflection, two channels of one name, and a channel without samples. *)
Definition nan_epoch : EventContainer :=
  {| ev_channel_names := ["Cz"%string]; ev_sample_rate := 256;
     ev_signals := [[NaN; Finite (- (150))]]; ev_timestamps := [0; 1] |}.

Definition twin_epoch : EventContainer :=
  {| ev_channel_names := ["Cz"; "Cz"]%string; ev_sample_rate := 256;
     ev_signals := [[Finite 1]; [Finite 150]]; ev_timestamps := [0] |}.

Definition hollow_epoch : EventContainer :=
  {| ev_channel_names := ["Cz"%string]; ev_sample_rate := 256;
     ev_signals := [[]]; ev_timestamps := [] |}.

(** The database of the unit tests. *)
Definition db_two : TemplateDatabase :=
  construct_from_dict
    [("ps1"%string, [nums [1; 2; 3; 4; 5]; nums [4 # 10; 5 # 10; 6; 6]]);
     ("ps2"%string, [nums [5; 6; 7; 8; 9]])].

(** *** A text codec for the bench

    A printer and a parser of JSON text that stand in for [json.dumps] and
    [json.loads] where a run needs them. The printer follows the layout of
    [json.dumps] (separators [", "] and [": "], [NaN] for not-a-number);
    a number is written as a decimal fraction of at most 17 places. *)

Definition chars (s : string) : list ascii := list_ascii_of_string s.
Definition quote : ascii := ascii_of_nat 34.
Definition backslash : ascii := ascii_of_nat 92.

Fixpoint digits_from (fuel : nat) (n : N) (acc : list ascii) : list ascii :=
  match fuel with
  | O => acc
  | S fuel' =>
      let acc := ascii_of_N (48 + n mod 10) :: acc in
      if (n / 10 =? 0)%N then acc else digits_from fuel' (n / 10) acc
  end.

Definition print_N (n : N) : list ascii :=
  digits_from (S (N.to_nat (N.log2 n))) n [].

Fixpoint frac_digits (fuel : nat) (r d : N) : list ascii :=
  match fuel with
  | O => []
  | S fuel' =>
      let x := (r * 10)%N in
      ascii_of_N (48 + x / d)
      :: (if (x mod d =? 0)%N then [] else frac_digits fuel' (x mod d) d)
  end.

Definition print_number (x : pyfloat) : list ascii :=
  match x with
  | NaN => chars "NaN"
  | Finite q =>
      let a := Z.to_N (Z.abs (Qnum q)) in
      let d := Npos (Qden q) in
      (if (Qnum q <? 0)%Z then ["-"%char] else [])
      ++ print_N (a / d) ++ "."%char :: frac_digits 17 (a mod d) d
  end.

Fixpoint escape (l : list ascii) : list ascii :=
  match l with
  | [] => []
  | c :: rest =>
      if Ascii.eqb c quote || Ascii.eqb c backslash
      then backslash :: c :: escape rest
      else c :: escape rest
  end.

Definition print_string (s : string) : list ascii :=
  quote :: escape (chars s) ++ [quote].

Fixpoint join (parts : list (list ascii)) : list ascii :=
  match parts with
  | [] => []
  | [p] => p
  | p :: rest => p ++ chars ", " ++ join rest
  end.

Fixpoint print_json (j : json) : list ascii :=
  match j with
  | JNull => chars "null"
  | JBool true => chars "true"
  | JBool false => chars "false"
  | JNum x => print_number x
  | JStr s => print_string s
  | JArr l => "["%char :: join (map print_json l) ++ ["]"%char]
  | JObj items =>
      "{"%char
      :: join (map (fun kv =>
                      match kv with
                      | (k, v) => print_string k ++ chars ": " ++ print_json v
                      end) items)
      ++ ["}"%char]
  end.

Definition is_digit (c : ascii) : bool :=
  ((48 <=? N_of_ascii c) && (N_of_ascii c <=? 57))%N.

Fixpoint take_digits (t : list ascii) (acc : N) (count : nat)
  : N * nat * list ascii :=
  match t with
  | c :: rest =>
      if is_digit c
      then take_digits rest (acc * 10 + (N_of_ascii c - 48))%N (S count)
      else (acc, count, t)
  | [] => (acc, count, t)
  end.

Definition parse_number (t : list ascii) : option (pyfloat * list ascii) :=
  let (negative, t1) :=
    match t with
    | "-"%char :: r => (true, r)
    | _ => (false, t)
    end in
  let '(i, ni, t2) := take_digits t1 0 0 in
  if (ni =? 0)%nat then None
  else
    let '(f, nf, t3) :=
      match t2 with
      | "."%char :: r => take_digits r 0 0
      | _ => (0%N, 0%nat, t2)
      end in
    let q := inject_Z (Z.of_N i)
             + inject_Z (Z.of_N f) / inject_Z (10 ^ Z.of_nat nf) in
    Some (Finite (Qred (if negative : bool then - q else q)), t3).

Fixpoint parse_chars (t : list ascii) (acc : list ascii)
  : option (string * list ascii) :=
  match t with
  | [] => None
  | c :: rest =>
      if Ascii.eqb c quote then Some (string_of_list_ascii (rev acc), rest)
      else if Ascii.eqb c backslash then
        match rest with
        | c' :: rest' => parse_chars rest' (c' :: acc)
        | [] => None
        end
      else parse_chars rest (c :: acc)
  end.

Fixpoint skip_space (t : list ascii) : list ascii :=
  match t with
  | " "%char :: rest => skip_space rest
  | _ => t
  end.

Fixpoint parse_value (fuel : nat) (t : list ascii) : option (json * list ascii) :=
  match fuel with
  | O => None
  | S fuel' =>
      match skip_space t with
      | "n"%char :: "u"%char :: "l"%char :: "l"%char :: rest => Some (JNull, rest)
      | "t"%char :: "r"%char :: "u"%char :: "e"%char :: rest =>
          Some (JBool true, rest)
      | "f"%char :: "a"%char :: "l"%char :: "s"%char :: "e"%char :: rest =>
          Some (JBool false, rest)
      | "N"%char :: "a"%char :: "N"%char :: rest => Some (JNum NaN, rest)
      | "["%char :: rest =>
          match skip_space rest with
          | "]"%char :: rest' => Some (JArr [], rest')
          | _ =>
              match parse_elements fuel' rest with
              | Some (l, rest') => Some (JArr l, rest')
              | None => None
              end
          end
      | "{"%char :: rest =>
          match skip_space rest with
          | "}"%char :: rest' => Some (JObj [], rest')
          | _ =>
              match parse_members fuel' rest with
              | Some (items, rest') => Some (JObj items, rest')
              | None => None
              end
          end
      | c :: rest =>
          if Ascii.eqb c quote then
            match parse_chars rest [] with
            | Some (s, rest') => Some (JStr s, rest')
            | None => None
            end
          else
            match parse_number (c :: rest) with
            | Some (x, rest') => Some (JNum x, rest')
            | None => None
            end
      | [] => None
      end
  end
with parse_elements (fuel : nat) (t : list ascii)
  : option (list json * list ascii) :=
  match fuel with
  | O => None
  | S fuel' =>
      match parse_value fuel' t with
      | None => None
      | Some (v, rest) =>
          match skip_space rest with
          | ","%char :: rest' =>
              match parse_elements fuel' rest' with
              | Some (l, rest'') => Some (v :: l, rest'')
              | None => None
              end
          | "]"%char :: rest' => Some ([v], rest')
          | _ => None
          end
      end
  end
with parse_members (fuel : nat) (t : list ascii)
  : option (list (string * json) * list ascii) :=
  match fuel with
  | O => None
  | S fuel' =>
      match skip_space t with
      | c :: rest =>
          if negb (Ascii.eqb c quote) then None
          else
            match parse_chars rest [] with
            | None => None
            | Some (k, rest1) =>
                match skip_space rest1 with
                | ":"%char :: rest2 =>
                    match parse_value fuel' rest2 with
                    | None => None
                    | Some (v, rest3) =>
                        match skip_space rest3 with
                        | ","%char :: rest4 =>
                            match parse_members fuel' rest4 with
                            | Some (items, rest5) => Some ((k, v) :: items, rest5)
                            | None => None
                            end
                        | "}"%char :: rest4 => Some ([(k, v)], rest4)
                        | _ => None
                        end
                    end
                | _ => None
                end
            end
      | [] => None
      end
  end.

Definition json_dumps (j : json) : list ascii := print_json j.

Definition json_loads (t : list ascii) : result json :=
  match parse_value (S (length t)) t with
  | Some (j, rest) =>
      match skip_space rest with
      | [] => Ok j
      | _ :: _ => Raise "Extra data"
      end
  | None => Raise "Expecting value"
  end.

(** A database whose numbers are decimal fractions, and one with a
    template that holds a not-a-number. *)
Definition db_decimal : TemplateDatabase :=
  construct_from_dict
    [("ps1"%string, [nums [1; 2; 3]; nums [5 # 2; - (7 # 4)]]);
     ("ps2"%string, [nums [1 # 8; 6]])].

Definition db_nan : TemplateDatabase :=
  construct_from_dict [("ps1"%string, [[Finite 1; NaN]])].

(** Worlds to run the engine in. Two target stimuli in the middle of the
    recording give two full epochs. *)
Definition two_targets : list Stimulus := [target 102; target 103].

Definition w_ready : World Rig :=
  world (rig true true 0 two_targets) (engine db_alice 0 None).

Definition w_empty_db : World Rig :=
  world (rig true true 0 two_targets) (engine new_TemplateDatabase 0 None).

(** After an authentication of alice at second 50, the device still worn. *)
Definition w_session : World Rig :=
  world (rig true true 0 two_targets) (engine db_alice 50 (Some "alice"%string)).

Definition w_session_unworn : World Rig :=
  world (rig true false 0 two_targets) (engine db_alice 50 (Some "alice"%string)).

Definition w_session_disconnected : World Rig :=
  world (rig false true 0 two_targets) (engine db_alice 50 (Some "alice"%string)).

(** The unworn device after the query [is_connected], and after the
    acquisition that then fails. *)
Definition w_unworn_asked : World Rig :=
  {| env := env w_session_unworn; calls := [DevIsConnected];
     self := self w_session_unworn |}.

Definition w_unworn_failed : World Rig :=
  snd (perform_task_rec rig_hw 20 10 w_unworn_asked).

(** A device whose task reports one stimulus at the first, one at the third
    and one at the last sample. *)
Definition w_edge_stimuli : World Rig :=
  world (rig true true 0 [target 100; target 102; target 105])
        (engine db_alice 0 None).

Definition w_no_stimuli : World Rig :=
  world (rig true true 0 []) (engine db_alice 0 None).

Definition epoch_lengths (r : outcome (list EventContainer)) : option (list Z) :=
  match r with
  | Return events => Some (map ev_len events)
  | _ => None
  end.

(** The epoch of two seconds around an event of the six-sample recording,
    with the recording after the event is registered. *)
Definition six_epoch (event_time : Q) : EventContainer * EEGContainer :=
  match add_event six_container event_time 2000 2000 with
  | Ok r => r
  | Raise _ => (blink_epoch, six_container)
  end.

(** A recording of three samples on two channels, with one event. *)
Definition two_channel_container : EEGContainer :=
  {| channel_names := ["Cz"; "Pz"]%string; sample_rate := 256;
     signals := [nums [1; 2; 3]; nums [3; 6; 9]];
     timestamps := [10; 11; 12];
     events := [11] |}.

(** The run of the engine on [w_ready], step by step: after the query
    [is_connected], after the recording, and the epochs, templates and
    similarities obtained on the way. *)
Definition w_ready_asked : World Rig :=
  {| env := env w_ready; calls := [DevIsConnected]; self := self w_ready |}.

Definition w_ready_recorded : World Rig :=
  snd (perform_task_rec rig_hw 20 8 w_ready_asked).

Definition ready_events : list EventContainer :=
  match fst (perform_task_rec rig_hw 20 8 w_ready_asked) with
  | Return events => events
  | _ => []
  end.

Definition ready_templates : list Template :=
  match create_templates (bench_plugins (Finite (3 # 10))) ready_events
                         AverageTemplate with
  | Ok templates => templates
  | Raise _ => []
  end.

Definition ready_sims (id : option string) : list (string * pyfloat) :=
  match calculate_similarity (bench_plugins (Finite (3 # 10))) db_alice
                             ready_templates AverageSimilarity id with
  | Ok sims => sims
  | Raise _ => []
  end.

(** The world after [authenticate("alice", threshold=0.1)] on [w_ready],
    and the world after [enroll("bob")] on it. *)
Definition w_ready_accepted : World Rig :=
  snd (authenticate rig_hw (bench_plugins (Finite (3 # 10))) 20 "alice" false 8
                    (Some (1 # 10)) None None w_ready).

Definition w_bob_enrolled : World Rig :=
  snd (enroll rig_hw (bench_plugins (Finite (3 # 10))) 20 "bob" 8 None w_ready).

(** The unworn device with its task running, as the polling loop finds
    it. *)
Definition w_unworn_polling : World Rig :=
  {| env := rig_with_alive true (snd (rig_tick (env w_session_unworn)));
     calls := [DevIsConnected; DevStartStream; TaskStart];
     self := self w_session_unworn |}.

End Bench.

(** * Properties *)

(** ** Comparisons *)

Lemma Qltb_lt (x y : Q) : Qltb x y = true <-> x < y.
Proof.
  unfold Qltb. rewrite negb_true_iff, <- not_true_iff_false, Qle_bool_iff.
  split; [apply Qnot_le_lt | apply Qlt_not_le].
Qed.

Lemma Qltb_ge (x y : Q) : Qltb x y = false <-> y <= x.
Proof.
  unfold Qltb. rewrite negb_false_iff. apply Qle_bool_iff.
Qed.

Lemma Qgeb_le (x y : Q) : Qgeb x y = true <-> y <= x.
Proof. unfold Qgeb. apply Qle_bool_iff. Qed.

Lemma Qltb_Qgeb (x y : Q) : Qltb x y = negb (Qgeb x y).
Proof. reflexivity. Qed.

Lemma Qeq_bool_same (x : Q) : Qeq_bool x x = true.
Proof. apply Qeq_bool_iff. reflexivity. Qed.

(** ** Evaluation metrics *)

Section MetricsFacts.
Import Metrics.

(** Every score that is a number is counted once: either as reaching the
    threshold or as below it. *)
Lemma count_partition (sims : list pyfloat) (t : Q) :
  all_numbers sims ->
  (count_ge sims t + count_lt sims t = len sims)%Z.
Proof.
  unfold count_ge, count_lt, len.
  induction 1 as [|s sims Hs Hall IH]; [reflexivity|].
  destruct s as [q|]; [|discriminate Hs].
  cbn [filter fge flt]. rewrite Qltb_Qgeb.
  destruct (Qgeb q t); cbn [negb length]; rewrite !Nat2Z.inj_succ; lia.
Qed.

Lemma len_pos (sims : list pyfloat) : sims <> [] -> (0 < len sims)%Z.
Proof.
  unfold len. destruct sims; [congruence | simpl; lia].
Qed.

Lemma divide_sum_one (a b n : Z) :
  (a + b = n)%Z -> (0 < n)%Z ->
  feq (fadd (np_true_divide a n) (np_true_divide b n)) (Finite 1) = true.
Proof.
  intros Hsum Hpos. unfold np_true_divide.
  destruct (Z.eqb_spec n 0) as [->|Hn]; [lia|].
  simpl. apply Qeq_bool_iff.
  rewrite <- Hsum, inject_Z_plus. field.
  rewrite <- inject_Z_plus, Hsum. intros H.
  apply Hn. revert H. unfold Qeq. simpl. lia.
Qed.

End MetricsFacts.

(** C9. For non-empty arrays of scores none of which is not-a-number, and
    any threshold, the true-positive and false-negative rates add up to
    one, and so do the false-positive and true-negative rates. *)
Theorem rates_sum_to_one (p n : list pyfloat) (t : Q) :
  p <> [] -> n <> [] -> all_numbers p -> all_numbers n ->
  feq (fadd (Metrics.TPR p t) (Metrics.FNR p t)) (Finite 1) = true /\
  feq (fadd (Metrics.FPR n t) (Metrics.TNR n t)) (Finite 1) = true.
Proof.
  intros Hp Hn Hpn Hnn.
  unfold Metrics.TPR, Metrics.FNR, Metrics.FPR, Metrics.TNR.
  split; apply divide_sum_one;
    auto using count_partition, len_pos.
Qed.

Lemma rates_sum_to_one_witness :
  feq (fadd (Metrics.TPR (nums [8 # 10; 9 # 10; 7 # 10; 6 # 10]) (3 # 4))
            (Metrics.FNR (nums [8 # 10; 9 # 10; 7 # 10; 6 # 10]) (3 # 4)))
      (Finite 1) = true /\
  feq (fadd (Metrics.FPR (nums [6 # 10; 6 # 10]) (3 # 4))
            (Metrics.TNR (nums [6 # 10; 6 # 10]) (3 # 4)))
      (Finite 1) = true.
Proof.
  apply (@rates_sum_to_one (nums [8 # 10; 9 # 10; 7 # 10; 6 # 10])
                           (nums [6 # 10; 6 # 10]) (3 # 4));
    first [discriminate | repeat constructor].
Defined.

(** C9, as stated for every non-empty array, fails: a score that is
    not-a-number is counted neither as reaching the threshold nor as below
    it, so for the array that holds one such score and a score of 0.9 the
    true-positive rate at 0.5 is one half, the false-negative rate is 0,
    and they add up to one half. *)
Lemma rates_sum_with_nan :
  [NaN; Finite (9 # 10)] <> [] /\
  feq (Metrics.TPR [NaN; Finite (9 # 10)] (1 # 2)) (Finite (1 # 2)) = true /\
  feq (Metrics.FNR [NaN; Finite (9 # 10)] (1 # 2)) (Finite 0) = true /\
  feq (fadd (Metrics.TPR [NaN; Finite (9 # 10)] (1 # 2))
            (Metrics.FNR [NaN; Finite (9 # 10)] (1 # 2)))
      (Finite 1) = false.
Proof. repeat split. discriminate. Qed.

(** ** Containers *)

Section ContainerFacts.
Import Container.

Lemma all_numbers_or_nan (l : list pyfloat) : all_numbers l \/ In NaN l.
Proof.
  induction l as [|x l [IH | IH]].
  - left. constructor.
  - destruct x as [q|].
    + left. constructor; [reflexivity | exact IH].
    + right. left. reflexivity.
  - right. right. exact IH.
Qed.

Lemma all_numbers_no_nan (l : list pyfloat) : all_numbers l -> ~ In NaN l.
Proof.
  intros Hall Hin. unfold all_numbers in Hall. rewrite Forall_forall in Hall.
  specialize (Hall NaN Hin). discriminate Hall.
Qed.

Lemma max_from_nan (l : list pyfloat) : max_from NaN l = NaN.
Proof. induction l as [|x l IH]; [reflexivity | exact IH]. Qed.

(** One not-a-number makes the maximum not-a-number... *)
Lemma max_from_has_nan (l : list pyfloat) :
  forall best, In NaN l -> max_from best l = NaN.
Proof.
  induction l as [|x l IH]; intros best Hin; [destruct Hin|].
  cbn [max_from]. destruct Hin as [-> | Hin].
  - destruct best; apply max_from_nan.
  - apply IH. exact Hin.
Qed.

(** ... and without one the maximum is a number that exceeds [c] exactly
    when some element does. *)
Lemma max_from_gt (c : Q) (l : list pyfloat) :
  all_numbers l ->
  forall best,
  exists m, max_from (Finite best) l = Finite m /\
            (c < m <-> c < best \/ exists x, In (Finite x) l /\ c < x).
Proof.
  induction 1 as [|x l Hx Hall IH]; intros best; cbn [max_from].
  - exists best. split; [reflexivity|].
    split; [auto | intros [H | [x [[] _]]]; exact H].
  - destruct x as [x|]; [|discriminate Hx]. cbn [np_maximum].
    destruct (Qltb best x) eqn:Hbx.
    + apply Qltb_lt in Hbx. destruct (IH x) as (m & Hm & Hiff).
      exists m. split; [exact Hm|]. rewrite Hiff. split.
      * intros [H | [y [Hy H]]]; right; [exists x | exists y]; simpl; auto.
      * intros [H | [y [[Hy | Hy] H]]].
        -- left. lra.
        -- injection Hy as <-. left. exact H.
        -- right. exists y. auto.
    + apply Qltb_ge in Hbx. destruct (IH best) as (m & Hm & Hiff).
      exists m. split; [exact Hm|]. rewrite Hiff. split.
      * intros [H | [y [Hy H]]]; [left; exact H |].
        right. exists y. simpl. auto.
      * intros [H | [y [[Hy | Hy] H]]].
        -- left. exact H.
        -- injection Hy as <-. left. lra.
        -- right. exists y. auto.
Qed.

Lemma np_abs_numbers (s : list pyfloat) :
  all_numbers s -> all_numbers (np_abs s).
Proof.
  induction 1 as [|x s Hx Hall IH]; [constructor|].
  cbn [np_abs map]. constructor; [|exact IH].
  destruct x; [reflexivity | discriminate Hx].
Qed.

Lemma np_abs_nan (s : list pyfloat) : In NaN s -> In NaN (np_abs s).
Proof. intros H. apply (in_map fabs) in H. exact H. Qed.

Lemma np_abs_finite (s : list pyfloat) (y : Q) :
  In (Finite y) (np_abs s) <-> exists x, In (Finite x) s /\ y = Qabs x.
Proof.
  unfold np_abs. rewrite in_map_iff. split.
  - intros [[x|] [Hx Hin]]; [|discriminate Hx].
    injection Hx as <-. exists x. auto.
  - intros [x [Hin ->]]. exists (Finite x). auto.
Qed.

(** The test [np.abs(s).max() > 100] on an array that is not empty: it
    holds exactly when the array has no not-a-number and some amplitude
    above 100. *)
Lemma np_abs_max_gt (s : list pyfloat) :
  s <> [] ->
  exists m, np_max (np_abs s) = Ok m /\
            (fgt m (Finite 100) = true <->
             all_numbers s /\ exists x, In (Finite x) s /\ 100 < Qabs x).
Proof.
  destruct s as [|a r] eqn:Hs; [congruence | intros _]. rewrite <- Hs.
  assert (Hmax : np_max (np_abs s) = Ok (max_from (fabs a) (np_abs r)))
    by (rewrite Hs; reflexivity).
  exists (max_from (fabs a) (np_abs r)). split; [exact Hmax|].
  destruct (all_numbers_or_nan s) as [Hall | Hnan].
  - assert (Ha : exists qa, a = Finite qa /\ all_numbers r).
    { rewrite Hs in Hall. inversion Hall as [|x l Hx Hl]; subst.
      destruct a as [qa|]; [|discriminate Hx]. exists qa. auto. }
    destruct Ha as (qa & -> & Hr). cbn [fabs].
    destruct (@max_from_gt 100 (np_abs r) (np_abs_numbers Hr) (Qabs qa))
      as (m & Hm & Hiff).
    rewrite Hm. unfold fgt. cbn [flt]. rewrite Qltb_lt, Hiff. split.
    + intros H. split; [exact Hall|]. destruct H as [H | [y [Hy H]]].
      * exists qa. rewrite Hs. simpl. auto.
      * apply np_abs_finite in Hy. destruct Hy as [x [Hx ->]].
        exists x. rewrite Hs. simpl. auto.
    + intros [_ [x [Hx H]]]. rewrite Hs in Hx. destruct Hx as [Hx | Hx].
      * injection Hx as <-. left. exact H.
      * right. exists (Qabs x). split; [|exact H].
        apply np_abs_finite. exists x. auto.
  - assert (Hm : max_from (fabs a) (np_abs r) = NaN).
    { rewrite Hs in Hnan. destruct Hnan as [-> | Hnan].
      - apply max_from_nan.
      - apply max_from_has_nan. apply np_abs_nan. exact Hnan. }
    rewrite Hm. split; [intros H; discriminate H|].
    intros [Hall _]. exfalso. exact (all_numbers_no_nan Hall Hnan).
Qed.

Lemma contains_In (key : string) (names : list string) :
  contains key names = true <-> In key names.
Proof.
  unfold contains. rewrite existsb_exists. split.
  - intros [x [Hx He]]. apply String.eqb_eq in He. subst. exact Hx.
  - intros H. exists key. split; [exact H | apply String.eqb_refl].
Qed.

Lemma index_nth (names : list string) :
  NoDup names ->
  forall i ch, nth_error names i = Some ch -> index ch names = i.
Proof.
  induction 1 as [|n names Hn Hnd IH]; intros [|i] ch Hi; simpl in Hi.
  - discriminate.
  - discriminate.
  - injection Hi as ->. simpl. now rewrite String.eqb_refl.
  - simpl. destruct (String.eqb_spec n ch) as [->|Hne].
    + exfalso. apply Hn. eapply nth_error_In. exact Hi.
    + f_equal. apply IH. exact Hi.
Qed.

Lemma getitem_nth (names : list string) (sigs : list (list pyfloat)) i ch s :
  NoDup names ->
  nth_error names i = Some ch -> nth_error sigs i = Some s ->
  getitem names sigs ch = Ok s.
Proof.
  intros Hnd Hn Hs. unfold getitem.
  assert (Hin : contains ch names = true)
    by (apply contains_In; eapply nth_error_In; exact Hn).
  rewrite Hin. cbn [negb]. rewrite (index_nth Hnd _ Hn), Hs. reflexivity.
Qed.

Variable e : EventContainer.
Hypothesis WF : ev_well_formed e.

(** A name of the epoch selects a stored, non-empty array... *)
Lemma ev_getitem_name (ch : string) :
  In ch (ev_channel_names e) ->
  exists s, ev_getitem e ch = Ok s /\ In s (ev_signals e) /\ s <> [].
Proof.
  destruct WF as (Hnd & Hlen & Hne). intros Hin.
  apply In_nth_error in Hin. destruct Hin as [i Hi].
  assert (Hlt : (i < length (ev_signals e))%nat).
  { rewrite <- Hlen. apply nth_error_Some. congruence. }
  apply nth_error_Some in Hlt.
  destruct (nth_error (ev_signals e) i) as [s|] eqn:Hs; [|congruence].
  exists s. split; [|split].
  - eapply getitem_nth; eassumption.
  - eapply nth_error_In. exact Hs.
  - rewrite Forall_forall in Hne. apply Hne. eapply nth_error_In. exact Hs.
Qed.

(** ... and every stored array is selected by some name. *)
Lemma ev_signal_named (s : list pyfloat) :
  In s (ev_signals e) ->
  exists ch, In ch (ev_channel_names e) /\ ev_getitem e ch = Ok s.
Proof.
  destruct WF as (Hnd & Hlen & Hne). intros Hin.
  apply In_nth_error in Hin. destruct Hin as [i Hi].
  assert (Hlt : (i < length (ev_channel_names e))%nat).
  { rewrite Hlen. apply nth_error_Some. congruence. }
  apply nth_error_Some in Hlt.
  destruct (nth_error (ev_channel_names e) i) as [ch|] eqn:Hch; [|congruence].
  exists ch. split.
  - eapply nth_error_In. exact Hch.
  - eapply getitem_nth; eassumption.
Qed.

Lemma blink_loop_spec (chs : list string) :
  incl chs (ev_channel_names e) ->
  exists b, blink_loop e chs = Ok b /\
            (b = true <->
             exists ch s x, In ch chs /\ ev_getitem e ch = Ok s /\
                            all_numbers s /\ In (Finite x) s /\
                            100 < Qabs x).
Proof.
  induction chs as [|ch chs IH]; intros Hincl.
  - exists false. split; [reflexivity|]. split; [discriminate|].
    intros (ch & _ & _ & [] & _).
  - destruct (ev_getitem_name ch (Hincl ch (or_introl eq_refl)))
      as (s & Hget & _ & Hne).
    destruct (np_abs_max_gt Hne) as (m & Hmax & Hm).
    cbn [blink_loop]. rewrite Hget, Hmax.
    destruct (fgt m (Finite 100)) eqn:Hgt.
    + exists true. split; [reflexivity|]. split; [intros _ | reflexivity].
      destruct (proj1 Hm eq_refl) as (Hall & x & Hx & Hlt).
      exists ch, s, x. simpl. auto.
    + destruct IH as (b & Hb & Hiff).
      { intros c Hc. apply Hincl. right. exact Hc. }
      exists b. split; [exact Hb|]. rewrite Hiff. split.
      * intros (c & s' & x & Hc & Hg & Hall & Hx & Hlt).
        exists c, s', x. simpl. auto.
      * intros (c & s' & x & [<- | Hc] & Hg & Hall & Hx & Hlt).
        -- rewrite Hget in Hg. injection Hg as <-.
           assert (Hc : false = true)
             by (apply Hm; split; [exact Hall | exists x; auto]).
           discriminate Hc.
        -- exists c, s', x. auto.
Qed.

End ContainerFacts.

(** C10. On an epoch with distinct channel names and one array that is not
    empty per name, [contains_blink] answers true exactly when some channel
    without a not-a-number holds a sample whose absolute amplitude exceeds
    100, and the selection of channel names passed to it does not change
    the answer. *)
Theorem contains_blink_spec (e : Container.EventContainer) (selection : list string) :
  Container.ev_well_formed e ->
  exists b,
    Container.contains_blink e selection = Ok b /\
    (b = true <->
     exists s x, In s (Container.ev_signals e) /\ all_numbers s /\
                 In (Finite x) s /\ 100 < Qabs x) /\
    Container.contains_blink e selection = Container.contains_blink e [].
Proof.
  intros WF. unfold Container.contains_blink.
  destruct (blink_loop_spec WF (incl_refl _)) as (b & Hb & Hiff).
  exists b. split; [exact Hb|]. split; [|reflexivity].
  rewrite Hiff. split.
  - intros (ch & s & x & Hch & Hg & Hall & Hx & Hlt).
    destruct (ev_getitem_name WF ch Hch) as (s' & Hg' & Hin & _).
    rewrite Hg in Hg'. injection Hg' as <-. exists s, x. auto.
  - intros (s & x & Hs & Hall & Hx & Hlt).
    destruct (ev_signal_named WF s Hs) as (ch & Hch & Hg).
    exists ch, s, x. auto.
Qed.

Lemma contains_blink_spec_witness :
  exists b,
    Container.contains_blink Bench.blink_epoch ["Pz"%string] = Ok b /\
    (b = true <->
     exists s x, In s (Container.ev_signals Bench.blink_epoch) /\
                 all_numbers s /\ In (Finite x) s /\ 100 < Qabs x) /\
    Container.contains_blink Bench.blink_epoch ["Pz"%string] =
    Container.contains_blink Bench.blink_epoch [].
Proof.
  apply (@contains_blink_spec Bench.blink_epoch ["Pz"%string]).
  unfold Container.ev_well_formed, Bench.blink_epoch. simpl. repeat split.
  - repeat constructor; simpl; intuition discriminate.
  - repeat constructor; discriminate.
Defined.

(** C10, as stated for every epoch, fails in three ways. A sample that is
    not-a-number hides its channel: the maximum is not-a-number and the
    comparison with 100 is false, so a deflection of 150 beside it goes
    unseen. Two channels of the same name are both read from the first
    array of that name, so a deflection on the second goes unseen. And an
    array without samples has no maximum, so the call raises. *)
Lemma contains_blink_misses :
  (In [NaN; Finite (- (150))] (Container.ev_signals Bench.nan_epoch) /\
   Container.contains_blink Bench.nan_epoch [] = Ok false) /\
  (In [Finite 150] (Container.ev_signals Bench.twin_epoch) /\
   Container.contains_blink Bench.twin_epoch [] = Ok false) /\
  Container.contains_blink Bench.hollow_epoch []
  = Raise "zero-size array to reduction operation maximum".
Proof. repeat split; simpl; auto. Qed.

(** ** Epoch extraction *)

Section EpochFacts.
Import Container.

(** [argmin_from] either keeps the running best, which then bounds every
    later element from below, or moves to a later, strictly smaller
    element that bounds all of them. *)
Lemma argmin_from_spec (l : list Q) :
  forall best_i best i,
    (argmin_from best_i best i l = best_i /\
     forall x, In x l -> best <= x) \/
    (exists k y,
        argmin_from best_i best i l = (i + k)%nat /\
        nth_error l k = Some y /\ y < best /\
        forall x, In x l -> y <= x).
Proof.
  induction l as [|x l IH]; intros best_i best i; cbn [argmin_from].
  - left. split; [reflexivity | intros x []].
  - destruct (Qltb x best) eqn:Hx.
    + apply Qltb_lt in Hx. right.
      destruct (IH i x (S i)) as [[Hr Hall] | (k & y & Hr & Hk & Hy & Hall)].
      * exists 0%nat, x. rewrite Hr, Nat.add_0_r.
        split; [reflexivity|]. split; [reflexivity|]. split; [exact Hx|].
        intros z [<- | Hz]; [lra | auto].
      * exists (S k), y. rewrite Hr, Nat.add_succ_r.
        split; [reflexivity|]. split; [exact Hk|]. split; [lra|].
        intros z [<- | Hz]; [lra | auto].
    + apply Qltb_ge in Hx.
      destruct (IH best_i best (S i)) as [[Hr Hall] | (k & y & Hr & Hk & Hy & Hall)].
      * left. split; [exact Hr|].
        intros z [<- | Hz]; [lra | auto].
      * right. exists (S k), y. rewrite Hr, Nat.add_succ_r.
        split; [reflexivity|]. split; [exact Hk|]. split; [exact Hy|].
        intros z [<- | Hz]; [lra | auto].
Qed.

Lemma argmin_spec (l : list Q) :
  l <> [] ->
  exists i y, argmin l = Ok i /\ nth_error l i = Some y /\
              forall x, In x l -> y <= x.
Proof.
  destruct l as [|a r]; [congruence | intros _]. cbn [argmin].
  destruct (argmin_from_spec r 0 a 1) as [[Hr Hall] | (k & y & Hr & Hk & Hy & Hall)].
  - exists 0%nat, a. rewrite Hr.
    split; [reflexivity|]. split; [reflexivity|].
    intros z [<- | Hz]; [lra | auto].
  - exists (S k), y. rewrite Hr.
    split; [reflexivity|]. split; [exact Hk|].
    intros z [<- | Hz]; [lra | auto].
Qed.

(** The located index is that of a stored time stamp closest to the
    event. *)
Lemma find_closest_timestamp_spec (c : EEGContainer) (t : Q) :
  timestamps c <> [] ->
  exists i ti,
    find_closest_timestamp c t = Ok i /\
    nth_error (timestamps c) i = Some ti /\
    forall x, In x (timestamps c) -> Qabs (ti - t) <= Qabs (x - t).
Proof.
  intros Hne. unfold find_closest_timestamp, np_abs_times.
  rewrite map_map.
  destruct (@argmin_spec (map (fun x => Qabs (x - t)) (timestamps c)))
    as (i & y & Hi & Hy & Hall).
  { destruct (timestamps c); [congruence | discriminate]. }
  rewrite nth_error_map in Hy.
  destruct (nth_error (timestamps c) i) as [ti|] eqn:Hti; [|discriminate].
  cbn [option_map] in Hy.
  assert (Hy' : y = Qabs (ti - t)) by congruence. subst y.
  exists i, ti.
  split; [exact Hi|]. split; [exact Hti|].
  intros x Hx. apply Hall. apply in_map_iff. exists x. auto.
Qed.

Lemma slice_index_id (n i : Z) :
  (0 <= i <= n)%Z -> slice_index n i = i.
Proof.
  intros H. unfold slice_index.
  destruct (Z.ltb_spec i 0); lia.
Qed.

Lemma py_slice_length (A : Type) (a b : Z) (l : list A) :
  (0 <= a <= b)%Z -> (b <= Z.of_nat (length l))%Z ->
  Z.of_nat (length (py_slice a b l)) = (b - a)%Z.
Proof.
  intros Hab Hb. unfold py_slice.
  rewrite !slice_index_id by lia.
  rewrite length_skipn, length_firstn. lia.
Qed.

Lemma py_slice_nth (A : Type) (a b : Z) (l : list A) (k : nat) :
  (0 <= a <= b)%Z -> (b <= Z.of_nat (length l))%Z ->
  (a + Z.of_nat k < b)%Z ->
  nth_error (py_slice a b l) k = nth_error l (Z.to_nat a + k).
Proof.
  intros Hab Hb Hk. unfold py_slice.
  rewrite !slice_index_id by lia.
  rewrite nth_error_skipn, nth_error_firstn.
  destruct (Nat.ltb_spec (Z.to_nat a + k) (Z.to_nat b)); [reflexivity | lia].
Qed.

End EpochFacts.

(** C2. For a container that holds samples, [add_event] locates an index of
    least absolute difference between the stored time stamps and the event
    time; the time stamps of the epoch it returns are zero at the located
    sample; and the epoch has as many time stamps as the window of
    [before * rate / 1000] samples before and [after * rate / 1000 + 1]
    samples from the located one on, cut off at the two ends of the
    recording. *)
Theorem add_event_epoch (c : Container.EEGContainer) (event_time : Q)
        (before after : Z) :
  Container.timestamps c <> [] -> Container.signals c <> [] ->
  (0 <= before)%Z -> (0 <= after)%Z -> (0 <= Container.sample_rate c)%Z ->
  exists i ti e c',
    Container.find_closest_timestamp c event_time = Ok i /\
    nth_error (Container.timestamps c) i = Some ti /\
    (forall x, In x (Container.timestamps c) ->
               Qabs (ti - event_time) <= Qabs (x - event_time)) /\
    Container.add_event c event_time before after = Ok (e, c') /\
    let n := Z.of_nat (length (Container.timestamps c)) in
    let before_samples := (before * Container.sample_rate c / 1000)%Z in
    let after_samples := (after * Container.sample_rate c / 1000 + 1)%Z in
    let lo := Z.max (Z.of_nat i - before_samples) 0 in
    let hi := Z.min (Z.of_nat i + after_samples) n in
    (lo <= Z.of_nat i < hi)%Z /\
    Z.of_nat (length (Container.ev_timestamps e)) = (hi - lo)%Z /\
    (exists z, nth_error (Container.ev_timestamps e) (Z.to_nat (Z.of_nat i - lo))
               = Some z /\ z == 0) /\
    ((0 <= Z.of_nat i - before_samples)%Z -> (Z.of_nat i + after_samples <= n)%Z ->
     Z.of_nat (length (Container.ev_timestamps e))
     = (before_samples + after_samples)%Z).
Proof.
  intros Hts Hsig Hb Ha Hr.
  destruct (find_closest_timestamp_spec c event_time Hts)
    as (i & ti & Hfind & Hti & Hmin).
  assert (Hi : (i < length (Container.timestamps c))%nat)
    by (apply nth_error_Some; congruence).
  assert (Hbs : (0 <= before * Container.sample_rate c / 1000)%Z)
    by (apply Z.div_pos; nia).
  assert (Has : (1 <= after * Container.sample_rate c / 1000 + 1)%Z).
  { assert (0 <= after * Container.sample_rate c / 1000)%Z
      by (apply Z.div_pos; nia). lia. }
  unfold Container.add_event. rewrite Hfind, Hti.
  destruct (Container.signals c) as [|s0 sigs] eqn:Hs; [congruence|].
  cbn [map Container.new_EventContainer].
  do 4 eexists. repeat split; try eassumption; cbn [Container.ev_timestamps].
  - lia.
  - lia.
  - rewrite length_map, py_slice_length; lia.
  - rewrite nth_error_map, py_slice_nth by lia.
    replace (Z.to_nat
               (Z.max (Z.of_nat i - before * Container.sample_rate c / 1000) 0)
             + Z.to_nat
                 (Z.of_nat i
                  - Z.max (Z.of_nat i - before * Container.sample_rate c / 1000)
                          0))%nat
      with i by lia.
    rewrite Hti. cbn [option_map]. eexists. split; [reflexivity|]. ring.
  - intros H1 H2. rewrite length_map, py_slice_length; lia.
Qed.

Lemma add_event_epoch_witness :
  exists i ti e c',
    Container.find_closest_timestamp Bench.six_container (1032 # 10) = Ok i /\
    nth_error (Container.timestamps Bench.six_container) i = Some ti /\
    (forall x, In x (Container.timestamps Bench.six_container) ->
               Qabs (ti - (1032 # 10)) <= Qabs (x - (1032 # 10))) /\
    Container.add_event Bench.six_container (1032 # 10) 2000 2000 = Ok (e, c') /\
    let n := Z.of_nat (length (Container.timestamps Bench.six_container)) in
    let before_samples :=
      (2000 * Container.sample_rate Bench.six_container / 1000)%Z in
    let after_samples :=
      (2000 * Container.sample_rate Bench.six_container / 1000 + 1)%Z in
    let lo := Z.max (Z.of_nat i - before_samples) 0 in
    let hi := Z.min (Z.of_nat i + after_samples) n in
    (lo <= Z.of_nat i < hi)%Z /\
    Z.of_nat (length (Container.ev_timestamps e)) = (hi - lo)%Z /\
    (exists z, nth_error (Container.ev_timestamps e) (Z.to_nat (Z.of_nat i - lo))
               = Some z /\ z == 0) /\
    ((0 <= Z.of_nat i - before_samples)%Z -> (Z.of_nat i + after_samples <= n)%Z ->
     Z.of_nat (length (Container.ev_timestamps e))
     = (before_samples + after_samples)%Z).
Proof.
  apply (@add_event_epoch Bench.six_container (1032 # 10) 2000 2000);
    simpl; first [discriminate | lia].
Defined.

Example add_event_six :
  option_map (fun r => (Container.ev_timestamps (fst r), Container.ev_signals (fst r)))
             (match Container.add_event Bench.six_container (1023 # 10) 2000 2000 with
              | Ok r => Some r
              | Raise _ => None
              end)
  = Some ([100 - 102; 101 - 102; 102 - 102; 103 - 102; 104 - 102],
          [nums [1; 2; 3; 4; 5]]).
Proof. reflexivity. Qed.

(** ** The template database *)

Section DictFacts.
Import Database.
Variable V : Type.

Lemma dict_get_absent (k : string) (d : dict V) :
  ~ In k (dict_keys d) -> dict_get k d = None.
Proof.
  induction d as [|[k' v'] d IH]; intros Hk; [reflexivity|].
  cbn [dict_get]. destruct (String.eqb_spec k' k) as [->|Hne].
  - exfalso. apply Hk. simpl. auto.
  - apply IH. intros H. apply Hk. simpl. auto.
Qed.

Lemma dict_get_last (k : string) (v : V) (d : dict V) :
  ~ In k (dict_keys d) -> dict_get k (d ++ [(k, v)]) = Some v.
Proof.
  induction d as [|[k' v'] d IH]; intros Hk; cbn [app dict_get].
  - now rewrite String.eqb_refl.
  - destruct (String.eqb_spec k' k) as [->|Hne].
    + exfalso. apply Hk. simpl. auto.
    + apply IH. intros H. apply Hk. simpl. auto.
Qed.

Lemma dict_set_absent (k : string) (v : V) (d : dict V) :
  ~ In k (dict_keys d) -> dict_set k v d = d ++ [(k, v)].
Proof.
  induction d as [|[k' v'] d IH]; intros Hk; [reflexivity|].
  cbn [app dict_set]. destruct (String.eqb_spec k' k) as [->|Hne].
  - exfalso. apply Hk. simpl. auto.
  - f_equal. apply IH. intros H. apply Hk. simpl. auto.
Qed.

Lemma dict_set_last (k : string) (v v' : V) (d : dict V) :
  ~ In k (dict_keys d) -> dict_set k v' (d ++ [(k, v)]) = d ++ [(k, v')].
Proof.
  induction d as [|[k' w] d IH]; intros Hk; cbn [app dict_set].
  - now rewrite String.eqb_refl.
  - destruct (String.eqb_spec k' k) as [->|Hne].
    + exfalso. apply Hk. simpl. auto.
    + f_equal. apply IH. intros H. apply Hk. simpl. auto.
Qed.

Lemma dict_get_In (k : string) (v : V) (d : dict V) :
  dict_wf d -> In (k, v) d -> dict_get k d = Some v.
Proof.
  unfold dict_wf.
  induction d as [|[k' v'] d IH]; intros Hnd Hin; [destruct Hin|].
  cbn [dict_keys map fst] in Hnd. inversion Hnd as [|? ? Hk Hnd']; subst.
  cbn [dict_get]. destruct Hin as [Heq | Hin].
  - injection Heq as -> ->. now rewrite String.eqb_refl.
  - destruct (String.eqb_spec k' k) as [->|Hne].
    + exfalso. apply Hk. apply in_map_iff. exists (k, v). auto.
    + apply IH; assumption.
Qed.

End DictFacts.

Section DatabaseFacts.
Import Database.

Lemma dict_mem_absent (V : Type) (k : string) (d : dict V) :
  ~ In k (dict_keys d) -> dict_mem k d = false.
Proof. intros H. unfold dict_mem. now rewrite dict_get_absent. Qed.

(** Adding the first template of an identity creates its entry at the end
    of the dictionary... *)
Lemma add_template_new (acc : dict (list Template)) (k : string) (t : Template) :
  ~ In k (dict_keys acc) ->
  add_template {| internal_data := acc |} k t
  = {| internal_data := acc ++ [(k, [t])] |}.
Proof.
  intros Hk. unfold add_template. cbn [internal_data].
  rewrite dict_mem_absent by exact Hk. cbn [negb].
  rewrite dict_set_absent by exact Hk.
  rewrite dict_get_last by exact Hk.
  now rewrite dict_set_last by exact Hk.
Qed.

(** ... and a further template is appended to the list of that entry. *)
Lemma add_template_last (acc : dict (list Template)) (k : string)
      (v : list Template) (t : Template) :
  ~ In k (dict_keys acc) ->
  add_template {| internal_data := acc ++ [(k, v)] |} k t
  = {| internal_data := acc ++ [(k, v ++ [t])] |}.
Proof.
  intros Hk. unfold add_template, dict_mem. cbn [internal_data].
  rewrite dict_get_last by exact Hk. cbn [negb].
  rewrite dict_get_last by exact Hk.
  now rewrite dict_set_last by exact Hk.
Qed.

Lemma numbers_tolist (a : Template) : numbers (map JNum a) = Ok a.
Proof.
  induction a as [|q a IH]; [reflexivity|].
  cbn [map numbers]. now rewrite IH.
Qed.

Lemma add_all_last (ts : list Template) :
  forall (acc : dict (list Template)) (k : string) (v : list Template),
    ~ In k (dict_keys acc) ->
    add_all {| internal_data := acc ++ [(k, v)] |} k (map tolist ts)
    = Ok {| internal_data := acc ++ [(k, v ++ ts)] |}.
Proof.
  induction ts as [|t ts IH]; intros acc k v Hk; cbn [map add_all].
  - now rewrite app_nil_r.
  - unfold tolist at 1. cbn [np_array]. rewrite numbers_tolist.
    rewrite add_template_last by exact Hk.
    rewrite IH by exact Hk. now rewrite <- app_assoc.
Qed.

Lemma add_all_new (acc : dict (list Template)) (k : string) (ts : list Template) :
  ~ In k (dict_keys acc) -> ts <> [] ->
  add_all {| internal_data := acc |} k (map tolist ts)
  = Ok {| internal_data := acc ++ [(k, ts)] |}.
Proof.
  intros Hk Hne. destruct ts as [|t ts]; [congruence|].
  cbn [map add_all]. unfold tolist at 1. cbn [np_array].
  rewrite numbers_tolist, add_template_new by exact Hk.
  now rewrite add_all_last by exact Hk.
Qed.

(** Loading the items of a serialised dictionary after [acc] rebuilds the
    dictionary behind [acc], item by item and in the same order. *)
Lemma load_items_s_data (d : dict (list Template)) :
  forall acc,
    NoDup (dict_keys (acc ++ d)) ->
    (forall k v, In (k, v) d -> v <> []) ->
    load_items {| internal_data := acc |}
               (map (fun kv => (fst kv, JArr (map tolist (snd kv)))) d)
    = Ok {| internal_data := acc ++ d |}.
Proof.
  induction d as [|[k v] d IH]; intros acc Hnd Hne; cbn [map load_items fst snd].
  - now rewrite app_nil_r.
  - assert (Hk : ~ In k (dict_keys acc)).
    { unfold dict_keys in *. rewrite map_app in Hnd. cbn [map fst] in Hnd.
      apply NoDup_remove_2 in Hnd. intros H. apply Hnd.
      apply in_or_app. auto. }
    rewrite add_all_new; [| exact Hk | apply (Hne k); simpl; auto].
    rewrite IH.
    + now rewrite <- app_assoc.
    + now rewrite <- app_assoc.
    + intros k' v' H. apply (Hne k'). simpl. auto.
Qed.

Lemma feq_same (x : pyfloat) : isnan x = false -> feq x x = true.
Proof.
  destruct x as [q|]; [intros _ | discriminate]. apply Qeq_bool_same.
Qed.

(** An array is equal to itself unless it holds a not-a-number. *)
Lemma array_equal_same (a : Template) :
  all_numbers a -> array_equal a a = true.
Proof.
  unfold array_equal. induction 1 as [|x a Hx Hall IH]; [reflexivity|].
  cbn [forallb2]. now rewrite (feq_same _ Hx), IH.
Qed.

Lemma templates_equal_same (v : list Template) :
  Forall all_numbers v -> forallb2 array_equal v v = true.
Proof.
  induction 1 as [|a v Ha Hall IH]; [reflexivity|].
  cbn [forallb2]. now rewrite (array_equal_same Ha), IH.
Qed.

Lemma db_eq_same (db : TemplateDatabase) :
  dict_wf (internal_data db) -> db_all_numbers db -> db_eq db db = true.
Proof.
  intros Hwf Hnum. unfold db_eq. rewrite Nat.eqb_refl. cbn [negb].
  apply forallb_forall. intros [k v] Hin. cbn [fst snd].
  rewrite (@dict_get_In _ k v _ Hwf Hin), Nat.eqb_refl. cbn [negb].
  apply templates_equal_same.
  unfold db_all_numbers in Hnum. rewrite Forall_forall in Hnum.
  exact (Hnum (k, v) Hin).
Qed.

End DatabaseFacts.




Example db_decimal_text :
  string_of_list_ascii (Database.to_json Bench.json_dumps Bench.db_decimal)
  = String.concat ""
      ["{"; String (ascii_of_nat 34) "ps1"; String (ascii_of_nat 34) ": ";
       "[[1.0, 2.0, 3.0], [2.5, -1.75]], ";
       String (ascii_of_nat 34) "ps2"; String (ascii_of_nat 34) ": ";
       "[[0.125, 6.0]]}"]%string.
Proof. vm_compute. reflexivity. Qed.

Example db_two_items :
  Database.internal_data Bench.db_two
  = [("ps1"%string, [nums [1; 2; 3; 4; 5]; nums [4 # 10; 5 # 10; 6; 6]]);
     ("ps2"%string, [nums [5; 6; 7; 8; 9]])].
Proof. reflexivity. Qed.

(** A database that holds an identity without templates does not survive
    the round trip: the identity is lost. *)
Example empty_entry_lost :
  Database.construct_from_json (@Ok Database.json)
    (Database.to_json (fun j => j)
       {| Database.internal_data := [("ps1"%string, [])] |})
  = Ok Database.new_TemplateDatabase.
Proof. reflexivity. Qed.

(** ** The trimming loop of the acquisition procedure *)

Section TrimFacts.
Import Container KeyWave.

Lemma removelast_shorter (A : Type) (l : list A) :
  l <> [] -> S (length (removelast l)) = length l.
Proof.
  intros Hne. rewrite removelast_firstn_len, length_firstn.
  destruct l; [congruence | simpl; lia].
Qed.

Lemma last_default (A : Type) (l : list A) (d d' : A) :
  l <> [] -> last l d = last l d'.
Proof.
  induction l as [|a l IH]; [congruence | intros _].
  destruct l as [|b l]; [reflexivity|].
  change (last (b :: l) d = last (b :: l) d'). apply IH. discriminate.
Qed.

(** The fuel handed to the loop by [trim_events] is never used up. *)
Lemma trim_loop_fuel (fuel : nat) :
  forall events, (length events < fuel)%nat -> trim_loop fuel events <> None.
Proof.
  induction fuel as [|fuel IH]; intros events Hlen; [lia|].
  cbn [trim_loop]. destruct events as [|first rest]; [discriminate|].
  destruct (negb (ev_len first =? ev_len (last (first :: rest) first))%Z);
    [|discriminate].
  apply IH.
  assert (H := @removelast_shorter _ (first :: rest)).
  cbn [length] in *. specialize (H ltac:(discriminate)). lia.
Qed.

Lemma trim_events_fuel (events : list EventContainer) :
  trim_events events <> None.
Proof. apply trim_loop_fuel. lia. Qed.

(** What the loop does establish on a list that is not empty: it returns a
    prefix that is not empty and whose last epoch is as long as its
    first. *)
Lemma trim_loop_prefix (fuel : nat) :
  forall events d,
    (length events < fuel)%nat -> events <> [] ->
    exists kept dropped,
      trim_loop fuel events = Some (Ok kept) /\
      events = kept ++ dropped /\ kept <> [] /\
      ev_len (hd d kept) = ev_len (last kept d).
Proof.
  induction fuel as [|fuel IH]; intros events d Hlen Hne; [lia|].
  cbn [trim_loop]. destruct events as [|first rest]; [congruence|].
  destruct (Z.eqb_spec (ev_len first) (ev_len (last (first :: rest) first)))
    as [Heq | Hneq]; cbn [negb].
  - exists (first :: rest), []. rewrite app_nil_r.
    repeat split; [discriminate|].
    rewrite (@last_default _ (first :: rest) d first) by discriminate.
    exact Heq.
  - destruct rest as [|second rest]; [exfalso; apply Hneq; reflexivity|].
    assert (Hshort := @removelast_shorter _ (first :: second :: rest)
                                          ltac:(discriminate)).
    destruct (IH (removelast (first :: second :: rest)) d)
      as (kept & dropped & Hrun & Hsplit & Hkept & Hends).
    + cbn [length] in *. lia.
    + discriminate.
    + exists kept, (dropped ++ [last (first :: second :: rest) first]).
      repeat split; try assumption.
      rewrite app_assoc, <- Hsplit.
      apply app_removelast_last. discriminate.
Qed.

(** X27. For a list of epochs that is not empty the trimming loop of the
    acquisition ends without an error: it keeps a prefix of the list that
    is not empty, drops epochs from the end only, and the first and the
    last epoch it keeps have the same length. *)
Lemma trim_events_prefix (events : list EventContainer) (d : EventContainer) :
  events <> [] ->
  exists kept dropped,
    trim_events events = Some (Ok kept) /\
    events = kept ++ dropped /\ kept <> [] /\
    ev_len (hd d kept) = ev_len (last kept d).
Proof. intros Hne. apply trim_loop_prefix; [lia | exact Hne]. Qed.

End TrimFacts.

(** C3. The trimming loop compares only the first epoch with the last one.
    On a recording of six samples, stimuli at the first, the third and the
    last sample give epochs of 3, 5 and 3 samples; the loop returns all
    three although the middle one differs in length. With no stimulus at
    all the very first test indexes an empty list and raises. *)
Theorem trim_keeps_unequal_epochs :
  (exists events c',
      KeyWave.extract_events Bench.six_container [100; 102; 105] 2000 2000 []
      = Ok (events, c') /\
      KeyWave.trim_events events = Some (Ok events) /\
      map Container.ev_len events = [3; 5; 3]%Z) /\
  KeyWave.extract_events Bench.six_container [] 2000 2000 []
  = Ok ([], Bench.six_container) /\
  KeyWave.trim_events [] = Some (Raise "IndexError: list index out of range").
Proof.
  split; [| split; reflexivity].
  do 2 eexists. split; [reflexivity|]. split; reflexivity.
Qed.

(** ** The engine *)

Section EngineFacts.
Import Container Database KeyWave.
Variable E : Type.
Variable hw : Hardware E.
Variable pl : Plugins.

Local Abbreviation frames := (@frames_self E).

Lemma frames_ret (A : Type) (a : A) : frames (ret a).
Proof. intros w. reflexivity. Qed.

Lemma frames_throw (A : Type) (m : string) : frames (throw (E:=E) A m).
Proof. intros w. reflexivity. Qed.

Lemma frames_diverge (A : Type) : frames (diverge (E:=E) A).
Proof. intros w. reflexivity. Qed.

Lemma frames_bind (A B : Type) (c : M E A) (k : A -> M E B) :
  frames c -> (forall a, frames (k a)) -> frames (bind c k).
Proof.
  intros Hc Hk w. unfold bind. specialize (Hc w).
  destruct (c w) as [[a | m |] w']; cbn [snd] in *; [|exact Hc|exact Hc].
  rewrite Hk. exact Hc.
Qed.

Lemma frames_lift (A : Type) (r : result A) : frames (lift (E:=E) r).
Proof. destruct r; intros w; reflexivity. Qed.

Lemma frames_query (A : Type) (c : Call) (f : E -> A * E) : frames (query c f).
Proof. intros w. unfold query. destruct (f (env w)). reflexivity. Qed.

Lemma frames_command (c : Call) (f : E -> E) : frames (command c f).
Proof. intros w. reflexivity. Qed.

Lemma frames_attribute (A : Type) (f : E -> A) : frames (attribute f).
Proof. intros w. reflexivity. Qed.

Lemma frames_set_attribute (f : E -> E) : frames (set_attribute f).
Proof. intros w. reflexivity. Qed.

Lemma frames_clock : frames (clock hw).
Proof. intros w. unfold clock. destruct (time hw (env w)). reflexivity. Qed.

Lemma frames_get_self : frames (get_self (E:=E)).
Proof. intros w. reflexivity. Qed.

Lemma frames_if (A : Type) (b : bool) (c1 c2 : M E A) :
  frames c1 -> frames c2 -> frames (if b then c1 else c2).
Proof. destruct b; auto. Qed.

Ltac frame_step :=
  first
    [ apply frames_ret | apply frames_throw | apply frames_diverge
    | apply frames_lift | apply frames_query | apply frames_command
    | apply frames_attribute | apply frames_set_attribute
    | apply frames_clock | apply frames_get_self
    | apply frames_if
    | apply frames_bind; [| intros ? ] ].

Lemma frames_poll_loop (fuel : nat) :
  forall start timeout_s c, frames (poll_loop hw fuel start timeout_s c).
Proof.
  induction fuel as [|fuel IH]; intros start timeout_s c; cbn [poll_loop].
  - apply frames_diverge.
  - repeat frame_step. apply IH.
Qed.

Lemma frames_drain_loop (fuel : nat) :
  forall stop_time stimuli, frames (drain_loop hw fuel stop_time stimuli).
Proof.
  induction fuel as [|fuel IH]; intros stop_time stimuli; cbn [drain_loop].
  - apply frames_diverge.
  - repeat frame_step. apply IH.
Qed.

Lemma frames_run_trim (events : list EventContainer) :
  frames (run_trim (E:=E) events).
Proof.
  unfold run_trim. destruct (trim_events events);
    [apply frames_lift | apply frames_diverge].
Qed.

(** The acquisition procedure never touches the engine object. *)
Lemma frames_perform_task_rec (fuel : nat) (timeout_s : Q) :
  frames (perform_task_rec hw fuel timeout_s).
Proof.
  unfold perform_task_rec.
  repeat first [ apply frames_poll_loop | apply frames_drain_loop
               | apply frames_run_trim | frame_step ].
Qed.

Lemma frames_fast_path (id : string) (continuous_auth : bool) :
  frames (fast_path hw id continuous_auth).
Proof. unfold fast_path. repeat frame_step. Qed.

End EngineFacts.

Import Container Database KeyWave Bench.

(** C7 (amended). For an identity that is not in the database,
    [authenticate] returns false at once: the only method invoked on the
    device or the task is the query [is_connected] (so neither
    [start_stream] nor the task's [start] is called), and the engine object,
    with [last_id] and [last_auth], is unchanged. *)
Theorem authenticate_unknown_identity
        (E : Type) (hw : Hardware E) (pl : Plugins) (fuel : nat) (id : string)
        (continuous_auth : bool) (timeout_s : Q) (threshold : option Q)
        (tmode : option TemplateMode) (smode : option SimilarityMode)
        (w : World E) :
  contains id (get_all_idents (database (self w))) = false ->
  authenticate hw pl fuel id continuous_auth timeout_s threshold tmode smode w
  = (Return false,
     {| env := snd (is_connected hw (env w));
        calls := calls w ++ [DevIsConnected];
        self := self w |}).
Proof.
  intros Hid. unfold authenticate, bind, query, get_self, ret.
  destruct (is_connected hw (env w)) as [connected e1].
  destruct connected; cbn [negb snd self]; [|reflexivity].
  rewrite Hid. reflexivity.
Qed.

Lemma authenticate_unknown_identity_witness :
  authenticate rig_hw (bench_plugins (Finite 1)) 20 "ghost" false 10
               None None None w_ready
  = (Return false,
     {| env := snd (is_connected rig_hw (env w_ready));
        calls := calls w_ready ++ [DevIsConnected];
        self := self w_ready |}).
Proof.
  apply (@authenticate_unknown_identity Rig rig_hw (bench_plugins (Finite 1))
           20 "ghost" false 10 None None None w_ready).
  reflexivity.
Defined.

(** C7, as stated, fails: the call for an unknown identity does invoke a
    method of the device, namely [is_connected]. *)
Lemma authenticate_unknown_queries_device :
  contains "ghost" (get_all_idents (database (self w_ready))) = false /\
  calls w_ready = [] /\
  calls (snd (authenticate rig_hw (bench_plugins (Finite 1)) 20 "ghost" false
                           10 None None None w_ready))
  = [DevIsConnected].
Proof. repeat split. Qed.

(** C1 (amended). Let the device be connected and [id] be in the database,
    let [last_auth] be later than the device's [removal_time_stamp] and
    [last_id] be [id]. Then [authenticate(id, continuous_auth=True)] asks
    the device whether it is worn and nothing else: if it is, the call
    returns true; if it is not, the call stores the current time in
    [removal_time_stamp] and returns false. Either way no acquisition is
    run ([start_stream] is not called) and the engine object is
    unchanged. *)
Theorem continuous_auth_fast_path
        (E : Type) (hw : Hardware E) (pl : Plugins) (fuel : nat) (id : string)
        (timeout_s : Q) (threshold : option Q)
        (tmode : option TemplateMode) (smode : option SimilarityMode)
        (w : World E) (e1 e2 e3 : E) (worn : bool) (now : Q) :
  is_connected hw (env w) = (true, e1) ->
  contains id (get_all_idents (database (self w))) = true ->
  removal_time_stamp hw e1 < last_auth (self w) ->
  last_id (self w) = Some id ->
  is_worn hw e1 = (worn, e2) ->
  time hw e2 = (now, e3) ->
  authenticate hw pl fuel id true timeout_s threshold tmode smode w
  = if worn
    then (Return true,
          {| env := e2; calls := calls w ++ [DevIsConnected; DevIsWorn];
             self := self w |})
    else (Return false,
          {| env := set_removal_time_stamp hw now e3;
             calls := calls w ++ [DevIsConnected; DevIsWorn];
             self := self w |}).
Proof.
  intros Hconn Hid Hlt Hlast Hworn Htime.
  apply Qltb_lt in Hlt.
  unfold authenticate, fast_path, bind, query, get_self, ret, attribute,
    clock, set_attribute.
  rewrite Hconn. cbn [negb env calls self]. rewrite Hid.
  cbn [negb env calls self]. rewrite Hlt.
  cbn [andb env calls self]. rewrite Hworn. cbn [env calls self].
  rewrite <- app_assoc. cbn [app].
  destruct worn; cbn [negb env calls self].
  - rewrite Hlast. cbn [opt_string_eqb]. rewrite String.eqb_refl. reflexivity.
  - rewrite Htime. reflexivity.
Qed.

Lemma continuous_auth_fast_path_witness :
  authenticate rig_hw (bench_plugins (Finite 1)) 20 "alice" true 10
               None None None w_session
  = (Return true,
     {| env := env w_session; calls := [DevIsConnected; DevIsWorn];
        self := self w_session |}) /\
  authenticate rig_hw (bench_plugins (Finite 1)) 20 "alice" true 10
               None None None w_session_unworn
  = (Return false,
     {| env := rig_with_removal 100 (snd (rig_tick (env w_session_unworn)));
        calls := [DevIsConnected; DevIsWorn];
        self := self w_session_unworn |}).
Proof.
  split.
  - apply (@continuous_auth_fast_path Rig rig_hw (bench_plugins (Finite 1)) 20
             "alice" 10 None None None w_session
             (env w_session) (env w_session) (snd (rig_tick (env w_session)))
             true 100); reflexivity.
  - apply (@continuous_auth_fast_path Rig rig_hw (bench_plugins (Finite 1)) 20
             "alice" 10 None None None w_session_unworn
             (env w_session_unworn) (env w_session_unworn)
             (snd (rig_tick (env w_session_unworn))) false 100); reflexivity.
Defined.

(** C1, as stated, fails: with the session recorded and the device worn
    but not connected, the call returns false. *)
Lemma continuous_auth_needs_connection :
  Qltb (removal_time_stamp rig_hw (env w_session_disconnected))
       (last_auth (self w_session_disconnected)) = true /\
  last_id (self w_session_disconnected) = Some "alice"%string /\
  fst (is_worn rig_hw (env w_session_disconnected)) = true /\
  fst (authenticate rig_hw (bench_plugins (Finite 1)) 20 "alice" true 10
                    None None None w_session_disconnected)
  = Return false.
Proof. repeat split. Qed.

(** C5. When the acquisition procedure raises inside [authenticate], the
    call returns false, and afterwards [last_auth] is 0 while every other
    field of the engine object is what it was; when it raises inside
    [identification], the call returns [(False, None)] and leaves the
    engine object as it was, so [last_auth] and [last_id] keep their
    values. The device, the task and the record of calls are in both cases
    as the failed acquisition left them. *)
Theorem acquisition_failure_state
        (E : Type) (hw : Hardware E) (pl : Plugins) (fuel : nat)
        (timeout_s : Q) (threshold : option Q)
        (tmode : option TemplateMode) (smode : option SimilarityMode) :
  (forall (id : string) (continuous_auth : bool) (w w1 w2 : World E)
          (e1 : E) (msg : string),
      is_connected hw (env w) = (true, e1) ->
      contains id (get_all_idents (database (self w))) = true ->
      fast_path hw id continuous_auth
                {| env := e1; calls := calls w ++ [DevIsConnected];
                   self := self w |}
      = (Return None, w1) ->
      perform_task_rec hw fuel timeout_s w1 = (Throw msg, w2) ->
      exists w',
        authenticate hw pl fuel id continuous_auth timeout_s threshold tmode
                     smode w
        = (Return false, w') /\
        env w' = env w2 /\ calls w' = calls w2 /\
        last_auth (self w') = 0 /\
        last_id (self w') = last_id (self w) /\
        database (self w') = database (self w) /\
        default_threshold (self w') = default_threshold (self w) /\
        before_event_time_ms (self w') = before_event_time_ms (self w) /\
        after_event_time_ms (self w') = after_event_time_ms (self w) /\
        template_mode (self w') = template_mode (self w) /\
        similarity_mode (self w') = similarity_mode (self w)) /\
  (forall (w w2 : World E) (e1 : E) (msg : string),
      is_connected hw (env w) = (true, e1) ->
      perform_task_rec hw fuel timeout_s
                       {| env := e1; calls := calls w ++ [DevIsConnected];
                          self := self w |}
      = (Throw msg, w2) ->
      identification hw pl fuel timeout_s threshold tmode smode w
      = (Return (false, None), w2) /\
      self w2 = self w /\
      last_auth (self w2) = last_auth (self w) /\
      last_id (self w2) = last_id (self w)).
Proof.
  split.
  - intros id continuous_auth w w1 w2 e1 msg Hconn Hid Hfast Hrec.
    exists {| env := env w2; calls := calls w2;
              self := with_last_auth 0 (self w) |}.
    split; [|repeat split].
    assert (Hself : self w2 = self w).
    { assert (H2 := frames_perform_task_rec hw fuel timeout_s w1).
      rewrite Hrec in H2. cbn [snd] in H2. rewrite H2.
      assert (H1 := frames_fast_path hw id continuous_auth
                      {| env := e1; calls := calls w ++ [DevIsConnected];
                         self := self w |}).
      rewrite Hfast in H1. exact H1. }
    unfold authenticate. unfold bind at 1. unfold query at 1.
    rewrite Hconn. cbn [negb]. unfold bind at 1, get_self at 1.
    cbn [self]. rewrite Hid. cbn [negb].
    unfold bind at 1. rewrite Hfast.
    unfold authenticate_record, bind, try_catch. rewrite Hrec.
    unfold update_self, ret. rewrite Hself. reflexivity.
  - intros w w2 e1 msg Hconn Hrec.
    assert (Hself : self w2 = self w).
    { assert (H2 := frames_perform_task_rec hw fuel timeout_s
                      {| env := e1; calls := calls w ++ [DevIsConnected];
                         self := self w |}).
      rewrite Hrec in H2. exact H2. }
    split; [|split; [exact Hself | now rewrite Hself]].
    unfold identification. unfold bind at 1. unfold query at 1.
    rewrite Hconn. cbn [negb]. unfold bind at 1, get_self at 1.
    unfold identification_record, bind, try_catch. rewrite Hrec.
    reflexivity.
Qed.

Lemma acquisition_failure_state_witness :
  (exists w',
      authenticate rig_hw (bench_plugins (Finite 1)) 20 "alice" false 10
                   None None None w_session_unworn
      = (Return false, w') /\
      env w' = env w_unworn_failed /\ calls w' = calls w_unworn_failed /\
      last_auth (self w') = 0 /\
      last_id (self w') = last_id (self w_session_unworn) /\
      database (self w') = database (self w_session_unworn) /\
      default_threshold (self w') = default_threshold (self w_session_unworn) /\
      before_event_time_ms (self w')
      = before_event_time_ms (self w_session_unworn) /\
      after_event_time_ms (self w')
      = after_event_time_ms (self w_session_unworn) /\
      template_mode (self w') = template_mode (self w_session_unworn) /\
      similarity_mode (self w') = similarity_mode (self w_session_unworn)) /\
  (identification rig_hw (bench_plugins (Finite 1)) 20 10 None None None
                  w_session_unworn
   = (Return (false, None), w_unworn_failed) /\
   self w_unworn_failed = self w_session_unworn /\
   last_auth (self w_unworn_failed) = last_auth (self w_session_unworn) /\
   last_id (self w_unworn_failed) = last_id (self w_session_unworn)).
Proof.
  split.
  - apply (proj1 (@acquisition_failure_state Rig rig_hw
                    (bench_plugins (Finite 1)) 20 10 None None None)
                 "alice"%string false w_session_unworn w_unworn_asked
                 w_unworn_failed
                 (env w_session_unworn) "Device not on head"%string);
      reflexivity.
  - apply (proj2 (@acquisition_failure_state Rig rig_hw
                    (bench_plugins (Finite 1)) 20 10 None None None)
                 w_session_unworn w_unworn_failed
                 (env w_session_unworn) "Device not on head"%string);
      reflexivity.
Defined.

Example failed_authenticate_resets :
  last_auth (self w_session_unworn) = 50 /\
  option_map (fun k => (last_auth k, last_id k))
             (Some (self (snd (authenticate rig_hw (bench_plugins (Finite 1)) 20
                                            "alice" false 10 None None None
                                            w_session_unworn))))
  = Some (0, Some "alice"%string) /\
  option_map (fun k => (last_auth k, last_id k))
             (Some (self (snd (identification rig_hw (bench_plugins (Finite 1)) 20
                                              10 None None None
                                              w_session_unworn))))
  = Some (50, Some "alice"%string).
Proof. repeat split. Qed.

(** C4. A threshold of 0.0 passed to [authenticate] or [identification] is
    treated as if no threshold had been passed: the call runs exactly as
    with the argument omitted, so the decision uses the default threshold.
    With a default of one half and a similarity of 0.3, the call with
    threshold 0.0 rejects, while the call with threshold 0.1 accepts. *)
Theorem zero_threshold_falls_back :
  (forall (E : Type) (hw : Hardware E) (pl : Plugins) (fuel : nat)
          (id : string) (continuous_auth : bool) (timeout_s : Q)
          (tmode : option TemplateMode) (smode : option SimilarityMode)
          (w : World E),
      authenticate hw pl fuel id continuous_auth timeout_s (Some 0) tmode smode w
      = authenticate hw pl fuel id continuous_auth timeout_s None tmode smode w) /\
  (forall (E : Type) (hw : Hardware E) (pl : Plugins) (fuel : nat)
          (timeout_s : Q)
          (tmode : option TemplateMode) (smode : option SimilarityMode)
          (w : World E),
      identification hw pl fuel timeout_s (Some 0) tmode smode w
      = identification hw pl fuel timeout_s None tmode smode w) /\
  fst (authenticate rig_hw (bench_plugins (Finite (3 # 10))) 20 "alice" false 8
                    (Some 0) None None w_ready)
  = Return false /\
  fst (authenticate rig_hw (bench_plugins (Finite (3 # 10))) 20 "alice" false 8
                    (Some (1 # 10)) None None w_ready)
  = Return true.
Proof.
  split; [| split; [| split]]; reflexivity.
Qed.

(** C6. Where [identification] rejects because no similarity was computed
    or because the best similarity is below the threshold, the identity it
    returns is the empty string, not [None]. With a similarity of 0.3 for
    the one enrolled identity and the default threshold of one half the
    call returns [(False, "")]; so it does with an empty database. When the
    device is not connected or the acquisition fails it returns
    [(False, None)]. *)
Theorem identification_rejects_with_empty_string :
  fst (identification rig_hw (bench_plugins (Finite (3 # 10))) 20 8
                      None None None w_ready)
  = Return (false, Some ""%string) /\
  fst (identification rig_hw (bench_plugins (Finite (3 # 10))) 20 8
                      None None None w_empty_db)
  = Return (false, Some ""%string) /\
  fst (identification rig_hw (bench_plugins (Finite (3 # 10))) 20 8
                      None None None w_session_disconnected)
  = Return (false, None) /\
  fst (identification rig_hw (bench_plugins (Finite (3 # 10))) 20 8
                      None None None w_session_unworn)
  = Return (false, None).
Proof. repeat split. Qed.

Example identification_accepts :
  fst (identification rig_hw (bench_plugins (Finite (3 # 10))) 20 8
                      (Some (1 # 10)) None None w_ready)
  = Return (true, Some "alice"%string).
Proof. reflexivity. Qed.

(** The same lists of epochs, produced by a whole run of the acquisition
    procedure on the scripted device. *)
Example acquisition_returns_unequal_epochs :
  epoch_lengths (fst (perform_task_rec rig_hw 20 8 w_edge_stimuli))
  = Some [3; 5; 3]%Z /\
  fst (perform_task_rec rig_hw 20 8 w_no_stimuli)
  = Throw "IndexError: list index out of range".
Proof. split; reflexivity. Qed.

(** ** Similarities and the decision of [identification] *)

Section SimilarityFacts.
Variable pl : Plugins.

Lemma not_below_finite (a b : string * pyfloat) (x y : Q) :
  snd a = Finite x -> snd b = Finite y -> (not_below a b <-> y <= x).
Proof.
  intros Ha Hb. unfold not_below. rewrite Ha, Hb. cbn [flt].
  apply Qltb_ge.
Qed.

Lemma number_finite (a : string * pyfloat) :
  isnan (snd a) = false -> exists x, snd a = Finite x.
Proof. destruct (snd a) as [x|]; [eauto | discriminate]. Qed.

Lemma not_below_refl (a : string * pyfloat) : not_below a a.
Proof.
  unfold not_below. destruct (snd a) as [x|]; [|reflexivity].
  cbn [flt]. apply Qltb_ge. lra.
Qed.

Lemma not_below_trans (a b c : string * pyfloat) :
  isnan (snd a) = false -> isnan (snd b) = false -> isnan (snd c) = false ->
  not_below a b -> not_below b c -> not_below a c.
Proof.
  intros Ha Hb Hc.
  destruct (number_finite _ Ha) as [x Hx].
  destruct (number_finite _ Hb) as [y Hy].
  destruct (number_finite _ Hc) as [z Hz].
  rewrite (@not_below_finite a b x y Hx Hy), (@not_below_finite b c y z Hy Hz),
    (@not_below_finite a c x z Hx Hz).
  lra.
Qed.

Lemma below_not_below (a b : string * pyfloat) :
  flt (snd a) (snd b) = true -> not_below b a.
Proof.
  unfold not_below. destruct (snd a) as [x|], (snd b) as [y|];
    cbn [flt]; try discriminate.
  rewrite Qltb_lt, Qltb_ge. lra.
Qed.

Lemma insert_desc_In (x y : string * pyfloat) (l : list (string * pyfloat)) :
  In y (insert_desc x l) <-> y = x \/ In y l.
Proof.
  induction l as [|z l IH]; cbn [insert_desc].
  - simpl. intuition.
  - destruct (flt (snd x) (snd z)); simpl in *; rewrite ?IH; intuition.
Qed.

Lemma sort_desc_In (y : string * pyfloat) (l : list (string * pyfloat)) :
  In y (sort_desc l) <-> In y l.
Proof.
  unfold sort_desc. induction l as [|x l IH]; cbn [fold_right].
  - reflexivity.
  - rewrite insert_desc_In, IH. simpl. intuition.
Qed.

Lemma insert_desc_sorted (x : string * pyfloat) (l : list (string * pyfloat)) :
  isnan (snd x) = false -> no_nan l ->
  StronglySorted not_below l -> StronglySorted not_below (insert_desc x l).
Proof.
  intros Hx Hl Hs. induction Hs as [|y l Hs IH Hy]; cbn [insert_desc].
  - constructor; constructor.
  - inversion Hl as [|? ? Hyn Hl']; subst.
    destruct (flt (snd x) (snd y)) eqn:Hxy.
    + constructor; [apply IH; exact Hl'|].
      apply Forall_forall. intros z Hz. apply insert_desc_In in Hz.
      destruct Hz as [-> | Hz].
      * apply below_not_below. exact Hxy.
      * rewrite Forall_forall in Hy. apply Hy. exact Hz.
    + constructor; [constructor; assumption|].
      constructor; [exact Hxy|].
      apply Forall_forall. intros z Hz.
      rewrite Forall_forall in Hy. unfold no_nan in Hl'.
      rewrite Forall_forall in Hl'.
      apply (@not_below_trans x y z); auto.
Qed.

Lemma sort_desc_no_nan (l : list (string * pyfloat)) :
  no_nan l -> no_nan (sort_desc l).
Proof.
  unfold no_nan. rewrite !Forall_forall. intros H x Hx.
  apply H. apply sort_desc_In. exact Hx.
Qed.

Lemma sort_desc_sorted (l : list (string * pyfloat)) :
  no_nan l -> StronglySorted not_below (sort_desc l).
Proof.
  induction l as [|x l IH]; intros Hl.
  - constructor.
  - inversion Hl as [|? ? Hx Hl']; subst.
    change (sort_desc (x :: l)) with (insert_desc x (sort_desc l)).
    apply insert_desc_sorted; [exact Hx | apply sort_desc_no_nan; exact Hl' |].
    apply IH. exact Hl'.
Qed.

(** The first entry of a sorted list of numbers is not below any entry. *)
Lemma sort_desc_head (l : list (string * pyfloat)) (s : string * pyfloat)
      (rest : list (string * pyfloat)) :
  no_nan l -> sort_desc l = s :: rest ->
  forall x, In x l -> not_below s x.
Proof.
  intros Hl Heq x Hx. apply sort_desc_In in Hx. rewrite Heq in Hx.
  assert (Hs := sort_desc_sorted Hl). rewrite Heq in Hs.
  inversion Hs as [|? ? _ Hall]; subst.
  destruct Hx as [<- | Hx]; [apply not_below_refl|].
  rewrite Forall_forall in Hall. apply Hall. exact Hx.
Qed.

(** Every similarity computed by the loop belongs to one of the identities
    it ran over. *)
Lemma similarity_loop_ids (db : TemplateDatabase) (templates : list Template)
      (mode : SimilarityMode) (ids : list string) :
  forall acc sims,
    similarity_loop pl db templates mode ids acc = Ok sims ->
    forall s, In s sims -> In s acc \/ In (fst s) ids.
Proof.
  induction ids as [|id ids IH]; intros acc sims Hrun s Hs;
    cbn [similarity_loop] in Hrun.
  - injection Hrun as <-. auto.
  - destruct (similarity_of pl db templates mode id) as [[p|]|m] eqn:Hof;
      [| |discriminate].
    + destruct (IH _ _ Hrun s Hs) as [Hacc | Hid]; [|simpl; auto].
      apply in_app_or in Hacc. destruct Hacc as [Hacc | [<- | []]]; [auto|].
      right. left. unfold similarity_of in Hof.
      destruct (negb (fst (get_templates db id))); [discriminate|].
      destruct (snd (get_templates db id)) as [[|t ts]|]; try discriminate.
      destruct (if SimilarityMode_eqb mode AverageSimilarity then _ else _);
        [|discriminate].
      injection Hof as <-. reflexivity.
    + destruct (IH _ _ Hrun s Hs) as [Hacc | Hid]; simpl; auto.
Qed.

(** X28. The list that [identification] decides on, as
    [__calculate_similarity] returns it without an identity: its first
    entry belongs to an enrolled identity and, when all similarities are
    numbers, no entry has a greater similarity. *)
Lemma calculate_similarity_best (db : TemplateDatabase)
      (templates : list Template) (mode : SimilarityMode)
      (s : string * pyfloat) (rest : list (string * pyfloat)) :
  calculate_similarity pl db templates mode None = Ok (s :: rest) ->
  In (fst s) (get_all_idents db) /\
  (no_nan (s :: rest) -> forall x, In x (s :: rest) -> not_below s x).
Proof.
  unfold calculate_similarity. intros Hrun.
  destruct (similarity_loop pl db templates mode (get_all_idents db) [])
    as [global_sims|m] eqn:Hloop; [|discriminate].
  injection Hrun as Hsort. split.
  - assert (Hin : In s global_sims)
      by (apply sort_desc_In; rewrite Hsort; simpl; auto).
    destruct (similarity_loop_ids _ _ _ _ _ Hloop s Hin) as [[] | H].
    exact H.
  - intros Hnum x Hx.
    assert (Hg : no_nan global_sims).
    { unfold no_nan in *. rewrite Forall_forall in *. intros y Hy.
      apply Hnum. rewrite <- Hsort. apply sort_desc_In. exact Hy. }
    apply (sort_desc_head Hg Hsort). apply sort_desc_In.
    rewrite Hsort. exact Hx.
Qed.

End SimilarityFacts.

(** X29. The decision of [identification] once the recording, the
    templates and the similarities are there: the two rejections give the
    empty string, the acceptance gives the identity of the first entry. *)
Lemma identification_decision
      (E : Type) (hw : Hardware E) (pl : Plugins) (fuel : nat)
      (timeout_s : Q) (threshold : option Q)
      (tmode : option TemplateMode) (smode : option SimilarityMode)
      (w w2 : World E) (e1 : E) (events : list EventContainer)
      (templates : list Template) (sims : list (string * pyfloat)) :
  is_connected hw (env w) = (true, e1) ->
  perform_task_rec hw fuel timeout_s
                   {| env := e1; calls := calls w ++ [DevIsConnected];
                      self := self w |}
  = (Return events, w2) ->
  create_templates pl (preprocessing_apply pl events)
                   (resolve_template_mode (self w) tmode) = Ok templates ->
  calculate_similarity pl (database (self w)) templates
                       (resolve_similarity_mode (self w) smode) None = Ok sims ->
  identification hw pl fuel timeout_s threshold tmode smode w
  = (Return
       match sims with
       | [] => (false, Some ""%string)
       | s :: _ =>
           if flt (snd s) (Finite (resolve_threshold (self w) threshold))
           then (false, Some ""%string)
           else (true, Some (fst s))
       end,
     w2).
Proof.
  intros Hconn Hrec Htpl Hsim.
  assert (Hself : self w2 = self w).
  { assert (H2 := frames_perform_task_rec hw fuel timeout_s
                    {| env := e1; calls := calls w ++ [DevIsConnected];
                       self := self w |}).
    rewrite Hrec in H2. exact H2. }
  unfold identification. unfold bind at 1. unfold query at 1.
  rewrite Hconn. cbn [negb]. unfold bind at 1, get_self at 1. cbn [self].
  unfold identification_record. unfold bind at 1. unfold try_catch.
  rewrite Hrec. rewrite Htpl. unfold lift at 1. unfold bind at 1, ret at 1.
  unfold bind at 1, get_self at 1. rewrite Hself, Hsim.
  unfold lift, bind, ret.
  destruct sims as [|s rest]; [reflexivity|].
  destruct (flt (snd s) (Finite (resolve_threshold (self w) threshold)));
    reflexivity.
Qed.

(** * Further properties *)

(** ** The template database: lookup, insertion and removal *)

Section DatabaseOps.
Variable V : Type.

Lemma dict_get_set_same (k : string) (v : V) (d : dict V) :
  dict_get k (dict_set k v d) = Some v.
Proof.
  induction d as [|[k' v'] d IH]; cbn [dict_set dict_get].
  - now rewrite String.eqb_refl.
  - destruct (String.eqb_spec k' k) as [->|Hne]; cbn [dict_get].
    + now rewrite String.eqb_refl.
    + destruct (String.eqb_spec k' k); [congruence | exact IH].
Qed.

Lemma dict_get_set_other (k k' : string) (v : V) (d : dict V) :
  k' <> k -> dict_get k' (dict_set k v d) = dict_get k' d.
Proof.
  intros Hne. induction d as [|[k0 v0] d IH]; cbn [dict_set dict_get].
  - destruct (String.eqb_spec k k'); [congruence | reflexivity].
  - destruct (String.eqb_spec k0 k) as [->|Hk]; cbn [dict_get].
    + destruct (String.eqb_spec k k'); [congruence | reflexivity].
    + destruct (String.eqb_spec k0 k'); [reflexivity | exact IH].
Qed.

Lemma dict_keys_set (k : string) (v : V) (d : dict V) :
  dict_keys (dict_set k v d)
  = if dict_mem k d then dict_keys d else dict_keys d ++ [k].
Proof.
  unfold dict_mem.
  induction d as [|[k0 v0] d IH]; cbn [dict_set dict_get dict_keys map fst app].
  - reflexivity.
  - destruct (String.eqb_spec k0 k) as [->|Hk]; cbn [dict_keys map fst].
    + reflexivity.
    + fold (dict_keys (dict_set k v d)). rewrite IH.
      destruct (dict_get k d); reflexivity.
Qed.

Lemma dict_mem_In (k : string) (d : dict V) :
  dict_mem k d = true <-> In k (dict_keys d).
Proof.
  unfold dict_mem.
  induction d as [|[k0 v0] d IH]; cbn [dict_get dict_keys map fst].
  - split; [discriminate | intros []].
  - destruct (String.eqb_spec k0 k) as [->|Hk].
    + split; [simpl; auto | reflexivity].
    + rewrite IH. simpl. intuition congruence.
Qed.

Lemma dict_keys_del_incl (k x : string) (d : dict V) :
  In x (dict_keys (dict_del k d)) -> In x (dict_keys d).
Proof.
  induction d as [|[k0 v0] d IH]; cbn [dict_del dict_keys map fst];
    [intros [] |].
  destruct (String.eqb_spec k0 k) as [->|Hk]; cbn [dict_keys map fst].
  - simpl. auto.
  - simpl. intros [-> | H]; auto.
Qed.

Lemma dict_wf_del (k : string) (d : dict V) :
  dict_wf d -> dict_wf (dict_del k d).
Proof.
  unfold dict_wf.
  induction d as [|[k0 v0] d IH]; cbn [dict_del dict_keys map fst]; intros Hnd;
    [constructor|].
  inversion Hnd as [|? ? Hk0 Hnd']; subst.
  destruct (String.eqb_spec k0 k) as [->|Hk]; [exact Hnd'|].
  cbn [map fst]. constructor; [|apply IH; exact Hnd'].
  intros Hin. apply Hk0. eapply dict_keys_del_incl. exact Hin.
Qed.

Lemma dict_get_del_same (k : string) (d : dict V) :
  dict_wf d -> dict_get k (dict_del k d) = None.
Proof.
  unfold dict_wf.
  induction d as [|[k0 v0] d IH]; cbn [dict_del dict_keys map fst]; intros Hnd;
    [reflexivity|].
  inversion Hnd as [|? ? Hk0 Hnd']; subst.
  destruct (String.eqb_spec k0 k) as [->|Hk].
  - apply dict_get_absent. exact Hk0.
  - cbn [dict_get]. destruct (String.eqb_spec k0 k); [congruence|].
    apply IH. exact Hnd'.
Qed.

Lemma dict_get_del_other (k k' : string) (d : dict V) :
  k' <> k -> dict_get k' (dict_del k d) = dict_get k' d.
Proof.
  intros Hne. induction d as [|[k0 v0] d IH]; cbn [dict_del dict_get];
    [reflexivity|].
  destruct (String.eqb_spec k0 k) as [->|Hk]; cbn [dict_get].
  - destruct (String.eqb_spec k k'); [congruence | reflexivity].
  - destruct (String.eqb_spec k0 k'); [reflexivity | exact IH].
Qed.

Lemma dict_wf_set (k : string) (v : V) (d : dict V) :
  dict_wf d -> dict_wf (dict_set k v d).
Proof.
  unfold dict_wf. intros Hnd. rewrite dict_keys_set.
  destruct (dict_mem k d) eqn:Hmem; [exact Hnd|].
  assert (Hk : ~ In k (dict_keys d)).
  { intros H. apply dict_mem_In in H. congruence. }
  clear Hmem. induction (dict_keys d) as [|x l IH]; cbn [app].
  - constructor; [intros [] | constructor].
  - inversion Hnd as [|? ? Hx Hl]; subst. constructor.
    + intros H. apply in_app_or in H. destruct H as [H | [<- | []]].
      * exact (Hx H).
      * apply Hk. simpl. auto.
    + apply IH; [exact Hl|]. intros H. apply Hk. simpl. auto.
Qed.

End DatabaseOps.

Lemma get_templates_lookup (db : TemplateDatabase) (id : string) :
  get_templates db id
  = match dict_get id (internal_data db) with
    | Some v => (true, Some v)
    | None => (false, None)
    end.
Proof.
  unfold get_templates, dict_mem.
  destruct (dict_get id (internal_data db)); reflexivity.
Qed.

(** X1. After [remove_identity(id)] the identity is not found, every other
    identity is found with the templates it had, and the listed identities
    are those listed before without [id]. *)
Theorem remove_identity_forgets (db : TemplateDatabase) (id : string) :
  dict_wf (internal_data db) ->
  get_templates (remove_identity db id) id = (false, None) /\
  (forall other, other <> id ->
                 get_templates (remove_identity db id) other
                 = get_templates db other) /\
  ~ In id (get_all_idents (remove_identity db id)) /\
  dict_wf (internal_data (remove_identity db id)).
Proof.
  intros Hwf. unfold remove_identity.
  destruct (dict_mem id (internal_data db)) eqn:Hmem.
  - assert (Hnone : dict_get id (dict_del id (internal_data db)) = None)
      by (apply dict_get_del_same; exact Hwf).
    repeat split.
    + rewrite get_templates_lookup. cbn [internal_data]. now rewrite Hnone.
    + intros other Hne. rewrite !get_templates_lookup. cbn [internal_data].
      now rewrite dict_get_del_other.
    + unfold get_all_idents. cbn [internal_data]. intros Hin.
      apply dict_mem_In in Hin. unfold dict_mem in Hin.
      rewrite Hnone in Hin. discriminate.
    + cbn [internal_data]. apply dict_wf_del. exact Hwf.
  - repeat split; auto.
    + rewrite get_templates_lookup. unfold dict_mem in Hmem.
      destruct (dict_get id (internal_data db)); [discriminate | reflexivity].
    + unfold get_all_idents. intros Hin. apply dict_mem_In in Hin. congruence.
Qed.

Lemma remove_identity_forgets_witness :
  get_templates (remove_identity db_two "ps1") "ps1" = (false, None) /\
  (forall other, other <> "ps1"%string ->
                 get_templates (remove_identity db_two "ps1") other
                 = get_templates db_two other) /\
  ~ In "ps1"%string (get_all_idents (remove_identity db_two "ps1")) /\
  dict_wf (internal_data (remove_identity db_two "ps1")).
Proof.
  apply (@remove_identity_forgets db_two "ps1").
  unfold dict_wf. simpl. repeat constructor; simpl; intuition discriminate.
Defined.

(** X2. After [add_template(id, t)] the identity is found and its list is
    the list it had (none if it was absent) with [t] at the end; every other
    identity is found with the templates it had; the listed identities are
    the ones listed before, in the same order, with [id] added last if it
    was new. *)
Theorem add_template_appends (db : TemplateDatabase) (id : string)
        (t : Template) :
  get_templates (add_template db id t) id
  = (true, Some (match snd (get_templates db id) with
                 | Some v => v ++ [t]
                 | None => [t]
                 end)) /\
  (forall other, other <> id ->
                 get_templates (add_template db id t) other
                 = get_templates db other) /\
  get_all_idents (add_template db id t)
  = (if fst (get_templates db id) then get_all_idents db
     else get_all_idents db ++ [id]).
Proof.
  rewrite (get_templates_lookup db id).
  unfold add_template, get_all_idents, dict_mem.
  destruct (dict_get id (internal_data db)) as [v|] eqn:Hget; cbn [negb fst snd].
  - rewrite Hget. cbn [internal_data]. repeat split.
    + rewrite get_templates_lookup. cbn [internal_data].
      now rewrite dict_get_set_same.
    + intros other Hne. rewrite !get_templates_lookup. cbn [internal_data].
      now rewrite dict_get_set_other.
    + rewrite dict_keys_set. unfold dict_mem. now rewrite Hget.
  - rewrite dict_get_set_same. cbn [internal_data]. repeat split.
    + rewrite get_templates_lookup. cbn [internal_data].
      now rewrite dict_get_set_same.
    + intros other Hne. rewrite !get_templates_lookup. cbn [internal_data].
      now rewrite !dict_get_set_other.
    + rewrite !dict_keys_set. unfold dict_mem.
      rewrite dict_get_set_same, Hget. reflexivity.
Qed.

Lemma add_template_wf (db : TemplateDatabase) (id : string) (t : Template) :
  dict_wf (internal_data db) -> dict_wf (internal_data (add_template db id t)).
Proof.
  intros Hwf. unfold add_template, dict_mem.
  destruct (dict_get id (internal_data db)) as [v|] eqn:Hget; cbn [negb].
  - rewrite Hget. cbn [internal_data]. now apply dict_wf_set.
  - rewrite dict_get_set_same. cbn [internal_data].
    now apply dict_wf_set, dict_wf_set.
Qed.

Lemma fold_add_last (ts : list Template) :
  forall (acc : dict (list Template)) (k : string) (v : list Template),
    ~ In k (dict_keys acc) ->
    fold_left (fun inst t => add_template inst k t) ts
              {| internal_data := acc ++ [(k, v)] |}
    = {| internal_data := acc ++ [(k, v ++ ts)] |}.
Proof.
  induction ts as [|t ts IH]; intros acc k v Hk; cbn [fold_left].
  - now rewrite app_nil_r.
  - rewrite add_template_last by exact Hk.
    rewrite IH by exact Hk. now rewrite <- app_assoc.
Qed.

Lemma construct_from_dict_items (d : dict (list Template)) :
  forall acc,
    NoDup (dict_keys (acc ++ d)) ->
    fold_left
      (fun instance kv =>
         fold_left (fun inst t => add_template inst (fst kv) t) (snd kv) instance)
      d {| internal_data := acc |}
    = {| internal_data := acc ++ filter has_templates d |}.
Proof.
  induction d as [|[k v] d IH]; intros acc Hnd; cbn [fold_left filter fst snd].
  - now rewrite app_nil_r.
  - assert (Hk : ~ In k (dict_keys acc)).
    { unfold dict_keys in *. rewrite map_app in Hnd. cbn [map fst] in Hnd.
      apply NoDup_remove_2 in Hnd. intros H. apply Hnd.
      apply in_or_app. auto. }
    destruct v as [|t ts]; unfold has_templates; cbn [snd fold_left].
    + apply IH. unfold dict_keys in *. rewrite map_app in *.
      cbn [map fst] in Hnd. eapply NoDup_remove_1. exact Hnd.
    + rewrite add_template_new by exact Hk.
      rewrite (@fold_add_last ts acc k [t] Hk). cbn [app].
      rewrite IH.
      * now rewrite <- app_assoc.
      * now rewrite <- app_assoc.
Qed.

Lemma dict_get_filter (d : dict (list Template)) (k : string) :
  dict_wf d ->
  dict_get k (filter has_templates d)
  = match dict_get k d with
    | Some (t :: ts) => Some (t :: ts)
    | _ => None
    end.
Proof.
  unfold dict_wf.
  induction d as [|[k0 v0] d IH]; intros Hnd; [reflexivity|].
  cbn [dict_keys map fst] in Hnd. inversion Hnd as [|? ? Hk0 Hnd']; subst.
  cbn [filter dict_get].
  destruct (String.eqb_spec k0 k) as [->|Hne].
  - destruct v0 as [|t ts]; unfold has_templates; cbn [snd dict_get].
    + apply dict_get_absent. intros Hin. apply Hk0.
      unfold dict_keys in *. apply in_map_iff in Hin.
      destruct Hin as [[k' v'] [Hfst Hin]]. apply filter_In in Hin.
      apply in_map_iff. exists (k', v'). tauto.
    + now rewrite String.eqb_refl.
  - destruct (has_templates (k0, v0)); cbn [dict_get].
    + destruct (String.eqb_spec k0 k); [congruence | apply IH; exact Hnd'].
    + apply IH. exact Hnd'.
Qed.

(** X3. A database built by [construct_from_dict] finds every identity of
    the dictionary that has at least one template, with exactly its
    templates in their order; an identity with an empty list, like one that
    is not in the dictionary, is not found. *)
Theorem construct_from_dict_lookup (d : dict (list Template)) (k : string) :
  dict_wf d ->
  get_templates (construct_from_dict d) k
  = match dict_get k d with
    | Some (t :: ts) => (true, Some (t :: ts))
    | _ => (false, None)
    end.
Proof.
  intros Hwf. unfold construct_from_dict, new_TemplateDatabase.
  rewrite (@construct_from_dict_items d [] Hwf). cbn [app].
  rewrite get_templates_lookup. cbn [internal_data].
  rewrite dict_get_filter by exact Hwf.
  destruct (dict_get k d) as [[|t ts]|]; reflexivity.
Qed.

Lemma construct_from_dict_lookup_witness :
  get_templates
    (construct_from_dict [("p1"%string, [nums [1; 2; 3; 4; 5]; nums [4 # 10; 5 # 10; 6; 6]]);
                          ("p2"%string, [])]) "p1"
  = match dict_get "p1" [("p1"%string, [nums [1; 2; 3; 4; 5]; nums [4 # 10; 5 # 10; 6; 6]]);
                         ("p2"%string, [])] with
    | Some (t :: ts) => (true, Some (t :: ts))
    | _ => (false, None)
    end.
Proof.
  apply (@construct_from_dict_lookup
           [("p1"%string, [nums [1; 2; 3; 4; 5]; nums [4 # 10; 5 # 10; 6; 6]]);
            ("p2"%string, [])] "p1").
  unfold dict_wf. simpl. repeat constructor; simpl; intuition discriminate.
Defined.

Lemma load_items_rejects (items : list (string * json)) :
  forall instance,
    (exists k v, In (k, v) items /\ forall l, v <> JArr l) ->
    exists m, load_items instance items = Raise m.
Proof.
  induction items as [|[k0 v0] items IH]; intros instance (k & v & Hin & Hv).
  - destruct Hin.
  - cbn [load_items]. destruct v0 as [| | | |l|];
      try (eexists; reflexivity).
    destruct (add_all instance k0 l) as [instance'|m]; [|eexists; reflexivity].
    apply IH. exists k, v. split; [|exact Hv].
    destruct Hin as [Heq | Hin]; [|exact Hin].
    injection Heq as -> <-. exfalso. exact (Hv l eq_refl).
Qed.

(** X4. Loading a database fails, and so returns no database at all, when
    the text does not parse, when the parsed document is not an object, or
    when some identity of the object is not mapped to an array. *)
Theorem construct_from_json_rejects (text : Type) (loads : text -> result json)
        (data : text) :
  match loads data with
  | Raise _ => True
  | Ok (JObj items) => exists k v, In (k, v) items /\ forall l, v <> JArr l
  | Ok _ => True
  end ->
  exists m, construct_from_json loads data = Raise m.
Proof.
  unfold construct_from_json.
  destruct (loads data) as [d|m]; [|intros _; eexists; reflexivity].
  destruct d; try (intros _; eexists; reflexivity).
  apply load_items_rejects.
Qed.

Lemma construct_from_json_rejects_witness :
  exists m,
    construct_from_json (@Ok json)
      (JObj [("ps1"%string, JArr [JArr [JNum (Finite 1)]]); ("ps2"%string, JNum (Finite 3))])
    = Raise m.
Proof.
  apply (@construct_from_json_rejects json (@Ok json)
           (JObj [("ps1"%string, JArr [JArr [JNum (Finite 1)]]); ("ps2"%string, JNum (Finite 3))])).
  exists "ps2"%string, (JNum (Finite 3)). split; [simpl; auto | discriminate].
Defined.

(** ** Recordings: adding samples and events *)

Lemma append_each_spec (vals : list pyfloat) :
  forall (sigs : list (list pyfloat)) (n : nat),
    length vals = length sigs ->
    Forall (fun s => length s = n) sigs ->
    exists r,
      append_each sigs vals = Ok r /\
      length r = length sigs /\
      Forall (fun s => length s = S n) r /\
      forall i s v, nth_error sigs i = Some s -> nth_error vals i = Some v ->
                    nth_error r i = Some (s ++ [v]).
Proof.
  induction vals as [|v vals IH]; intros sigs n Hlen Hall.
  - destruct sigs; [|discriminate]. exists []. cbn [append_each].
    repeat split; [constructor|]. intros [|i] s v H; discriminate.
  - destruct sigs as [|s sigs]; [discriminate|].
    inversion Hall as [|? ? Hs Hall']; subst.
    destruct (IH sigs (length s)) as (r & Hr & Hlr & Hfr & Hnth);
      [simpl in Hlen; lia | exact Hall' |].
    exists ((s ++ [v]) :: r). cbn [append_each]. rewrite Hr.
    repeat split.
    + simpl. now rewrite Hlr.
    + constructor; [rewrite length_app; simpl; lia | exact Hfr].
    + intros [|i] s' v' Hs' Hv'; cbn [nth_error] in *.
      * congruence.
      * apply Hnth; assumption.
Qed.

(** X5. [add_data] refuses a sample whose number of values differs from the
    number of channels. Otherwise it puts the time stamp at the end of the
    time stamps and the value of each channel at the end of that channel,
    so that every channel stays as long as the list of time stamps; names,
    rate and events are untouched. *)
Theorem add_data_keeps_shape (c : EEGContainer) (rec : BCISignal) :
  eeg_well_formed c ->
  (length (sig_signals rec) <> length (channel_names c) ->
   add_data c rec
   = Raise "Number of signals does not match number of channels provided") /\
  (length (sig_signals rec) = length (channel_names c) ->
   exists c',
     add_data c rec = Ok c' /\
     eeg_well_formed c' /\
     timestamps c' = timestamps c ++ [sig_timestamp rec] /\
     channel_names c' = channel_names c /\
     sample_rate c' = sample_rate c /\
     events c' = events c /\
     forall i s v, nth_error (signals c) i = Some s ->
                   nth_error (sig_signals rec) i = Some v ->
                   nth_error (signals c') i = Some (s ++ [v])).
Proof.
  intros [Hlen Hall]. unfold add_data. split; intros Hn.
  - destruct (Nat.eqb_spec (length (sig_signals rec)) (length (channel_names c)));
      [contradiction | reflexivity].
  - rewrite Hn, Nat.eqb_refl. cbn [negb].
    destruct (@append_each_spec (sig_signals rec) (signals c)
                                (length (timestamps c)))
      as (r & Hr & Hlr & Hfr & Hnth); [congruence | exact Hall |].
    rewrite Hr. eexists. split; [reflexivity|].
    cbn [timestamps channel_names sample_rate events signals].
    repeat split; try assumption.
    + cbn [signals channel_names]. congruence.
    + cbn [signals timestamps]. rewrite length_app. cbn [length].
      rewrite Nat.add_1_r. exact Hfr.
Qed.

Lemma add_data_keeps_shape_witness :
  add_data six_container {| sig_timestamp := 106; sig_signals := [Finite 7; Finite 8] |}
  = Raise "Number of signals does not match number of channels provided" /\
  exists c',
    add_data six_container (sample 106 7) = Ok c' /\
    eeg_well_formed c' /\
    timestamps c' = timestamps six_container ++ [sig_timestamp (sample 106 7)] /\
    channel_names c' = channel_names six_container /\
    sample_rate c' = sample_rate six_container /\
    events c' = events six_container /\
    forall i s v, nth_error (signals six_container) i = Some s ->
                  nth_error (sig_signals (sample 106 7)) i = Some v ->
                  nth_error (signals c') i = Some (s ++ [v]).
Proof.
  assert (WF : eeg_well_formed six_container)
    by (split; [reflexivity | repeat constructor]).
  split.
  - apply (proj1 (@add_data_keeps_shape six_container
                    {| sig_timestamp := 106; sig_signals := [Finite 7; Finite 8] |} WF)).
    discriminate.
  - apply (proj2 (@add_data_keeps_shape six_container (sample 106 7) WF)).
    reflexivity.
Defined.

Lemma py_slice_same_length (A B : Type) (a b : Z) (l1 : list A) (l2 : list B) :
  length l1 = length l2 ->
  length (py_slice a b l1) = length (py_slice a b l2).
Proof.
  intros H. unfold py_slice. rewrite !length_skipn, !length_firstn, H.
  reflexivity.
Qed.

(** X6. In a well-formed recording the epoch cut by [add_event] is itself
    well shaped: it has the names and the rate of the recording, one array
    per channel, and every array is as long as the epoch's time stamps. *)
Theorem add_event_epoch_shape (c c' : EEGContainer) (e : EventContainer)
        (event_time : Q) (before after : Z) :
  eeg_well_formed c ->
  add_event c event_time before after = Ok (e, c') ->
  ev_channel_names e = channel_names c /\
  ev_sample_rate e = sample_rate c /\
  length (ev_signals e) = length (channel_names c) /\
  Forall (fun s => length s = length (ev_timestamps e)) (ev_signals e).
Proof.
  intros [Hlen Hall] Hrun. unfold add_event in Hrun.
  destruct (find_closest_timestamp c event_time) as [i|]; [|discriminate].
  destruct (nth_error (timestamps c) i) as [ti|]; [|discriminate].
  unfold new_EventContainer in Hrun.
  destruct (map _ (signals c)) as [|s0 rest] eqn:Hmap; [discriminate|].
  injection Hrun as <- _.
  cbn [ev_channel_names ev_sample_rate ev_signals ev_timestamps].
  repeat split.
  - rewrite <- Hmap, length_map. exact Hlen.
  - rewrite <- Hmap. rewrite length_map. apply Forall_forall.
    intros s Hs. apply in_map_iff in Hs. destruct Hs as (s' & <- & Hs').
    apply py_slice_same_length.
    rewrite Forall_forall in Hall. apply Hall. exact Hs'.
Qed.

Lemma add_event_epoch_shape_witness :
  ev_channel_names (fst (six_epoch (1023 # 10))) = channel_names six_container /\
  ev_sample_rate (fst (six_epoch (1023 # 10))) = sample_rate six_container /\
  length (ev_signals (fst (six_epoch (1023 # 10))))
  = length (channel_names six_container) /\
  Forall (fun s => length s = length (ev_timestamps (fst (six_epoch (1023 # 10)))))
         (ev_signals (fst (six_epoch (1023 # 10)))).
Proof.
  apply (@add_event_epoch_shape six_container (snd (six_epoch (1023 # 10)))
           (fst (six_epoch (1023 # 10))) (1023 # 10) 2000 2000).
  - split; [reflexivity | repeat constructor].
  - reflexivity.
Defined.

(** X7. [add_event] changes nothing of the recording but its list of
    events: the time stamp of the located sample is put at its end unless
    it is there already. A second call with the same arguments returns the
    same epoch and adds nothing. *)
Theorem add_event_registers_once (c c' : EEGContainer) (e : EventContainer)
        (event_time : Q) (before after : Z) :
  add_event c event_time before after = Ok (e, c') ->
  channel_names c' = channel_names c /\
  sample_rate c' = sample_rate c /\
  signals c' = signals c /\
  timestamps c' = timestamps c /\
  (exists i ti,
      find_closest_timestamp c event_time = Ok i /\
      nth_error (timestamps c) i = Some ti /\
      events c'
      = if existsb (Qeq_bool ti) (events c) then events c
        else events c ++ [ti]) /\
  add_event c' event_time before after = Ok (e, c').
Proof.
  intros Hrun. unfold add_event in Hrun.
  destruct (find_closest_timestamp c event_time) as [i|] eqn:Hfind;
    [|discriminate].
  destruct (nth_error (timestamps c) i) as [ti|] eqn:Hti; [|discriminate].
  destruct (new_EventContainer _ _ _ _) as [e0|] eqn:Hnew; [|discriminate].
  injection Hrun as -> <-.
  cbn [channel_names sample_rate signals timestamps events].
  repeat split.
  - exists i, ti. split; [first [assumption | reflexivity]|].
    split; [first [assumption | reflexivity] | reflexivity].
  - unfold add_event, find_closest_timestamp in *.
    cbn [channel_names sample_rate signals timestamps events].
    rewrite Hfind, Hti.
    cbn [sample_rate]. rewrite Hnew.
    assert (Hin : existsb (Qeq_bool ti)
                    (if existsb (Qeq_bool ti) (events c) then events c
                     else events c ++ [ti]) = true).
    { destruct (existsb (Qeq_bool ti) (events c)) eqn:Hex; [exact Hex|].
      rewrite existsb_app. cbn [existsb].
      rewrite Qeq_bool_same. apply orb_true_r. }
    rewrite Hin. reflexivity.
Qed.

Lemma add_event_registers_once_witness :
  channel_names (snd (six_epoch 102)) = channel_names six_container /\
  sample_rate (snd (six_epoch 102)) = sample_rate six_container /\
  signals (snd (six_epoch 102)) = signals six_container /\
  timestamps (snd (six_epoch 102)) = timestamps six_container /\
  (exists i ti,
      find_closest_timestamp six_container 102 = Ok i /\
      nth_error (timestamps six_container) i = Some ti /\
      events (snd (six_epoch 102))
      = if existsb (Qeq_bool ti) (events six_container)
        then events six_container
        else events six_container ++ [ti]) /\
  add_event (snd (six_epoch 102)) 102 2000 2000
  = Ok (fst (six_epoch 102), snd (six_epoch 102)).
Proof.
  apply (@add_event_registers_once six_container (snd (six_epoch 102))
           (fst (six_epoch 102)) 102 2000 2000).
  reflexivity.
Defined.

(** X8. [shift_timestamps] leaves a recording without time stamps as it
    is, its events included. Otherwise every time stamp and every event is
    replaced by its difference to the first time stamp: the first time
    stamp becomes 0 and time stamps keep their order. Names, sample rate
    and signals are untouched in both cases. *)
Theorem shift_timestamps_rebases (c : EEGContainer) :
  (timestamps c = [] -> shift_timestamps c = c) /\
  channel_names (shift_timestamps c) = channel_names c /\
  sample_rate (shift_timestamps c) = sample_rate c /\
  signals (shift_timestamps c) = signals c /\
  (forall first rest,
      timestamps c = first :: rest ->
      timestamps (shift_timestamps c)
      = map (fun x => x - first) (timestamps c) /\
      events (shift_timestamps c) = map (fun x => x - first) (events c) /\
      (exists t0, nth_error (timestamps (shift_timestamps c)) 0 = Some t0 /\
                  t0 == 0) /\
      (forall i j a b,
          nth_error (timestamps c) i = Some a ->
          nth_error (timestamps c) j = Some b ->
          a <= b ->
          exists a' b',
            nth_error (timestamps (shift_timestamps c)) i = Some a' /\
            nth_error (timestamps (shift_timestamps c)) j = Some b' /\
            a' <= b')).
Proof.
  unfold shift_timestamps.
  destruct (timestamps c) as [|first0 rest0] eqn:Hts.
  - repeat split; try reflexivity; discriminate.
  - cbn [channel_names sample_rate signals timestamps events].
    split; [discriminate|]. do 3 (split; [reflexivity|]).
    intros first rest Heq. injection Heq as <- <-.
    split; [reflexivity|]. split; [reflexivity|]. split.
    + cbn [map nth_error]. eexists. split; [reflexivity | ring].
    + intros i j a b Ha Hb Hab. exists (a - first0), (b - first0).
      rewrite !nth_error_map, Ha, Hb.
      split; [reflexivity|]. split; [reflexivity|]. lra.
Qed.

(** ** Channels by name and by position *)

Lemma index_lt (names : list string) (k : string) :
  In k names -> (index k names < length names)%nat.
Proof.
  induction names as [|n names IH]; [intros []|].
  intros Hin. cbn [index length]. destruct (String.eqb_spec n k); [lia|].
  destruct Hin as [-> | Hin]; [congruence|]. apply IH in Hin. lia.
Qed.

Lemma index_distinct (names : list string) (k k' : string) :
  In k names -> k <> k' -> index k names <> index k' names.
Proof.
  induction names as [|n names IH]; [intros []|].
  intros Hin Hne. cbn [index].
  destruct (String.eqb_spec n k) as [Hk|Hk];
    destruct (String.eqb_spec n k') as [Hk'|Hk'];
    try congruence; try discriminate.
  destruct Hin as [Heq | Hin]; [congruence|].
  intros H. injection H as H. exact (IH Hin Hne H).
Qed.

Lemma list_set_spec (A : Type) (l : list A) :
  forall i v,
    (i < length l)%nat ->
    exists l', list_set i v l = Some l' /\ length l' = length l /\
               nth_error l' i = Some v /\
               forall j, j <> i -> nth_error l' j = nth_error l j.
Proof.
  induction l as [|x l IH]; intros i v Hi; [simpl in Hi; lia|].
  destruct i as [|i]; cbn [list_set].
  - exists (v :: l). repeat split. intros [|j] Hj; [congruence | reflexivity].
  - destruct (IH i v) as (l' & Hset & Hlen & Hnth & Hother);
      [simpl in Hi; lia|].
    rewrite Hset. exists (x :: l'). repeat split.
    + simpl. now rewrite Hlen.
    + exact Hnth.
    + intros [|j] Hj; [reflexivity|]. cbn [nth_error]. apply Hother. congruence.
Qed.

Lemma list_set_Some (A : Type) (l l' : list A) (i : nat) (v : A) :
  list_set i v l = Some l' -> (i < length l)%nat.
Proof.
  revert i l'. induction l as [|x l IH]; intros i l' H;
    [destruct i; discriminate|].
  destruct i as [|i]; cbn [list_set length] in *; [lia|].
  destruct (list_set i v l) eqn:Hs; [|discriminate].
  apply IH in Hs. lia.
Qed.

(** X9. A channel is reached alike by its position and by its name: in a
    container with distinct names and one array per name, a position inside
    the list of names and the name at that position both give the array at
    that position. A position outside the list is refused with "Index out
    of bound", a name that is none of the channel names with "No channel
    with that name". *)
Theorem getitem_by_position (names : list string) (sigs : list (list pyfloat)) :
  NoDup names -> length sigs = length names ->
  (forall i name,
      nth_error names i = Some name ->
      exists s, nth_error sigs i = Some s /\
                getitem_key names sigs (KInt (Z.of_nat i)) = Ok s /\
                getitem_key names sigs (KStr name) = Ok s) /\
  (forall i, (i < 0 \/ Z.of_nat (length names) <= i)%Z ->
             getitem_key names sigs (KInt i) = Raise "Index out of bound") /\
  (forall name, ~ In name names ->
                getitem_key names sigs (KStr name)
                = Raise "No channel with that name").
Proof.
  intros Hnd Hlen. repeat split.
  - intros i name Hname.
    assert (Hi : (i < length names)%nat) by (apply nth_error_Some; congruence).
    destruct (nth_error sigs i) as [s|] eqn:Hs;
      [| apply nth_error_None in Hs; lia].
    exists s. split; [reflexivity|].
    unfold getitem_key, resolve_key.
    destruct (Z.geb_spec (Z.of_nat i) (Z.of_nat (length names))); [lia|].
    destruct (Z.ltb_spec (Z.of_nat i) 0); [lia|]. cbn [orb].
    rewrite Nat2Z.id, Hname.
    split; eapply getitem_nth; eassumption.
  - intros i Hi. unfold getitem_key, resolve_key.
    destruct (Z.geb_spec i (Z.of_nat (length names))); [reflexivity|].
    destruct (Z.ltb_spec i 0); [reflexivity | lia].
  - intros name Hname. unfold getitem_key, resolve_key, getitem.
    destruct (contains name names) eqn:Hc; [|reflexivity].
    apply contains_In in Hc. contradiction.
Qed.

Lemma getitem_by_position_witness :
  (forall i name,
      nth_error ["Cz"; "Pz"]%string i = Some name ->
      exists s, nth_error [nums [1; 2]; nums [3; 4]] i = Some s /\
                getitem_key ["Cz"; "Pz"]%string [nums [1; 2]; nums [3; 4]]
                            (KInt (Z.of_nat i)) = Ok s /\
                getitem_key ["Cz"; "Pz"]%string [nums [1; 2]; nums [3; 4]] (KStr name)
                = Ok s) /\
  (forall i, (i < 0 \/ Z.of_nat (length ["Cz"; "Pz"]%string) <= i)%Z ->
             getitem_key ["Cz"; "Pz"]%string [nums [1; 2]; nums [3; 4]] (KInt i)
             = Raise "Index out of bound") /\
  (forall name, ~ In name ["Cz"; "Pz"]%string ->
                getitem_key ["Cz"; "Pz"]%string [nums [1; 2]; nums [3; 4]] (KStr name)
                = Raise "No channel with that name").
Proof.
  apply (@getitem_by_position ["Cz"; "Pz"]%string [nums [1; 2]; nums [3; 4]]).
  - repeat constructor; simpl; intuition discriminate.
  - reflexivity.
Defined.

(** X10. After a successful [container[key] = value] the same key reads
    [value] back, the number of channels is what it was, and every other
    channel name reads what it read before. *)
Theorem setitem_then_getitem (names : list string) (sigs sigs' : list (list pyfloat))
        (key : Key) (value : list pyfloat) :
  setitem_key names sigs key value = Ok sigs' ->
  getitem_key names sigs' key = Ok value /\
  length sigs' = length sigs /\
  (forall k other,
      resolve_key names key = Ok k -> other <> k ->
      getitem names sigs' other = getitem names sigs other).
Proof.
  unfold setitem_key, getitem_key. intros Hset.
  destruct (resolve_key names key) as [k|] eqn:Hres; [|discriminate].
  destruct (contains k names) eqn:Hc; cbn [negb] in Hset; [|discriminate].
  destruct (list_set (index k names) value sigs) as [r|] eqn:Hls;
    [|discriminate].
  injection Hset as ->.
  assert (Hi := list_set_Some _ _ _ Hls).
  destruct (@list_set_spec _ sigs (index k names) value Hi)
    as (l' & Hset' & Hlen & Hnth & Hother).
  rewrite Hls in Hset'. injection Hset' as <-.
  repeat split.
  - unfold getitem. rewrite Hc. cbn [negb]. now rewrite Hnth.
  - exact Hlen.
  - intros k0 other Hk0 Hne. injection Hk0 as <-. unfold getitem.
    destruct (contains other names) eqn:Hco; [|reflexivity]. cbn [negb].
    rewrite Hother; [reflexivity|].
    apply contains_In in Hco. apply index_distinct; [exact Hco | exact Hne].
Qed.

Lemma setitem_then_getitem_witness :
  getitem_key ["Cz"; "Pz"]%string [nums [1; 2]; nums [7; 8]] (KInt 1) = Ok (nums [7; 8]) /\
  length [nums [1; 2]; nums [7; 8]] = length [nums [1; 2]; nums [3; 4]] /\
  (forall k other,
      resolve_key ["Cz"; "Pz"]%string (KInt 1) = Ok k -> other <> k ->
      getitem ["Cz"; "Pz"]%string [nums [1; 2]; nums [7; 8]] other
      = getitem ["Cz"; "Pz"]%string [nums [1; 2]; nums [3; 4]] other).
Proof.
  apply (@setitem_then_getitem ["Cz"; "Pz"]%string [nums [1; 2]; nums [3; 4]]
           [nums [1; 2]; nums [7; 8]] (KInt 1) (nums [7; 8])).
  reflexivity.
Defined.

(** ** Arithmetic on epochs and averaging of channels *)

Lemma np_binop_same_length (A : Type) (f : A -> A -> A) (a b : list A) :
  length a = length b -> np_binop f a b = Ok (zip_with f a b).
Proof. intros H. unfold np_binop. now rewrite H, Nat.eqb_refl. Qed.

Lemma zip_with_length (A : Type) (f : A -> A -> A) (a : list A) :
  forall b, length a = length b -> length (zip_with f a b) = length a.
Proof.
  induction a as [|x a IH]; intros [|y b] H; try discriminate; [reflexivity|].
  cbn [zip_with length]. f_equal. apply IH. simpl in H. lia.
Qed.

Lemma zip_with_plus_nth (a : list pyfloat) :
  forall b i, length a = length b ->
              nth i (zip_with fadd a b) (Finite 0)
              = fadd (nth i a (Finite 0)) (nth i b (Finite 0)).
Proof.
  induction a as [|x a IH]; intros [|y b] i H; try discriminate.
  - destruct i; reflexivity.
  - destruct i as [|i]; [reflexivity|]. cbn [zip_with nth].
    apply IH. simpl in H. lia.
Qed.

Lemma getitems_pointwise (e : EventContainer) (chs : list string) :
  forall ss,
    length chs = length ss ->
    (forall i ch s, nth_error chs i = Some ch -> nth_error ss i = Some s ->
                    ev_getitem e ch = Ok s) ->
    getitems e chs = Ok ss.
Proof.
  induction chs as [|ch chs IH]; intros [|s ss] Hlen Hget; try discriminate.
  - reflexivity.
  - cbn [getitems]. rewrite (Hget 0%nat ch s eq_refl eq_refl).
    rewrite (IH ss); [reflexivity | simpl in Hlen; lia |].
    intros i ch' s' H1 H2. exact (Hget (S i) ch' s' H1 H2).
Qed.

Lemma getitems_all (e : EventContainer) :
  NoDup (ev_channel_names e) ->
  length (ev_channel_names e) = length (ev_signals e) ->
  getitems e (ev_channel_names e) = Ok (ev_signals e).
Proof.
  intros Hnd Hlen. apply getitems_pointwise; [exact Hlen|].
  intros i ch s Hch Hs. unfold ev_getitem. eapply getitem_nth; eassumption.
Qed.

Lemma add_channels_pointwise (e : EventContainer) (chs : list string) :
  forall ss,
    length chs = length ss ->
    (forall i ch s, nth_error chs i = Some ch -> nth_error ss i = Some s ->
                    ev_getitem e ch = Ok s) ->
    add_channels e e chs = Ok (map (fun s => zip_with fadd s s) ss).
Proof.
  induction chs as [|ch chs IH]; intros [|s ss] Hlen Hget; try discriminate.
  - reflexivity.
  - cbn [add_channels map]. rewrite (Hget 0%nat ch s eq_refl eq_refl).
    rewrite np_binop_same_length by reflexivity.
    rewrite (IH ss); [reflexivity | simpl in Hlen; lia |].
    intros i ch' s' H1 H2. exact (Hget (S i) ch' s' H1 H2).
Qed.

Lemma same_set_refl (names : list string) : same_set names names = true.
Proof.
  unfold same_set.
  assert (H : forallb (fun x => contains x names) names = true).
  { apply forallb_forall. intros x Hx. apply contains_In. exact Hx. }
  now rewrite H.
Qed.

Lemma zip_with_same (A : Type) (f : A -> A -> A) (s : list A) :
  zip_with f s s = map (fun x => f x x) s.
Proof.
  induction s as [|x s IH]; [reflexivity|].
  cbn [zip_with map]. now rewrite IH.
Qed.

(** X11. An epoch with distinct channel names, one array per name and at
    least one channel can be added to itself and the sum divided by two:
    neither step raises, the result has the names, the sample rate and the
    time stamps of the epoch, and every sample of it is the sample of the
    epoch added to itself and divided by two. *)
Theorem epoch_add_then_halve (e : EventContainer) :
  NoDup (ev_channel_names e) ->
  length (ev_channel_names e) = length (ev_signals e) ->
  ev_signals e <> [] ->
  exists sum avg,
    ev_add e e = Ok sum /\ ev_truediv sum 2 = Ok avg /\
    ev_channel_names avg = ev_channel_names e /\
    ev_sample_rate avg = ev_sample_rate e /\
    ev_timestamps avg = ev_timestamps e /\
    ev_signals avg
    = map (map (fun x => fdiv (fadd x x) 2)) (ev_signals e).
Proof.
  intros Hnd Hlen Hne.
  destruct (ev_signals e) as [|s0 rest] eqn:Hsig; [congruence|].
  assert (Hadd : add_channels e e (ev_channel_names e)
                 = Ok (map (fun s => zip_with fadd s s) (s0 :: rest))).
  { apply add_channels_pointwise; [exact Hlen|].
    intros i ch s Hch Hs. unfold ev_getitem. rewrite Hsig.
    eapply getitem_nth; eassumption. }
  set (sum := {| ev_channel_names := ev_channel_names e;
                 ev_sample_rate := ev_sample_rate e;
                 ev_signals := map (fun s => zip_with fadd s s) (s0 :: rest);
                 ev_timestamps := ev_timestamps e |}).
  exists sum. eexists. split; [|split].
  - unfold ev_add. rewrite same_set_refl, Hsig, !Nat.eqb_refl, Z.eqb_refl.
    cbn [negb]. rewrite Hadd. reflexivity.
  - unfold ev_truediv. change (Qeq_bool 2 0) with false. cbv iota.
    rewrite (@getitems_all sum); [reflexivity | exact Hnd |].
    unfold sum. cbn [ev_channel_names ev_signals]. rewrite length_map.
    exact Hlen.
  - unfold sum.
    cbn [map new_EventContainer ev_channel_names ev_sample_rate ev_timestamps
         ev_signals].
    repeat split. rewrite !zip_with_same, map_map. f_equal.
    rewrite !map_map. apply map_ext. intros s.
    rewrite zip_with_same, map_map. reflexivity.
Qed.

Lemma epoch_add_then_halve_witness :
  exists sum avg,
    ev_add blink_epoch blink_epoch = Ok sum /\ ev_truediv sum 2 = Ok avg /\
    ev_channel_names avg = ev_channel_names blink_epoch /\
    ev_sample_rate avg = ev_sample_rate blink_epoch /\
    ev_timestamps avg = ev_timestamps blink_epoch /\
    ev_signals avg
    = map (map (fun x => fdiv (fadd x x) 2)) (ev_signals blink_epoch).
Proof.
  apply (@epoch_add_then_halve blink_epoch).
  - simpl. repeat constructor; simpl; intuition discriminate.
  - reflexivity.
  - discriminate.
Defined.

Lemma add_up_spec (rest : list (list pyfloat)) :
  forall (s : list pyfloat) (L : nat),
    length s = L -> Forall (fun o => length o = L) rest ->
    exists r,
      add_up s rest = Ok r /\ length r = L /\
      forall i, nth i r (Finite 0) = column_sum i s rest.
Proof.
  unfold column_sum.
  induction rest as [|o rest IH]; intros s L Hs Hall.
  - exists s. repeat split. exact Hs.
  - inversion Hall as [|? ? Ho Hall']; subst.
    cbn [add_up]. rewrite np_binop_same_length by congruence.
    destruct (IH (zip_with fadd s o) (length s)) as (r & Hr & Hlen & Hnth).
    + apply zip_with_length. congruence.
    + exact Hall'.
    + exists r. split; [exact Hr|]. split; [exact Hlen|].
      intros i. rewrite Hnth. cbn [map fold_left].
      rewrite zip_with_plus_nth by congruence. reflexivity.
Qed.

Lemma mean_signal_spec (first : list pyfloat) (rest : list (list pyfloat))
      (L : nat) :
  length first = L -> Forall (fun o => length o = L) rest ->
  exists avg,
    mean_signal (first :: rest) = Ok avg /\ length avg = L /\
    forall i, (i < L)%nat ->
              nth_error avg i
              = Some (fdiv (column_sum i first rest)
                           (inject_Z (Z.of_nat (length (first :: rest))))).
Proof.
  intros Hf Hall.
  destruct (@add_up_spec rest first L Hf Hall) as (r & Hr & Hlen & Hnth).
  assert (Hsum : s_osum (first :: rest) = Ok (Some r)).
  { unfold s_osum. destruct rest as [|o rest'].
    - cbn [add_up] in Hr. congruence.
    - now rewrite Hr. }
  unfold mean_signal. rewrite Hsum. eexists. split; [reflexivity|].
  split; [now rewrite length_map|].
  intros i Hi. rewrite nth_error_map.
  rewrite (nth_error_nth' r (Finite 0)) by lia. cbn [option_map].
  now rewrite Hnth.
Qed.

(** X12. [average_ch()] of a well-formed recording with at least one
    channel gives a new well-formed recording with one channel, named by
    the concatenated channel names, over the same time stamps: its sample
    at every position is the sum of all channels' samples at that position
    divided by the number of channels. The new recording has no events. *)
Theorem average_ch_mean (c : EEGContainer) (first : list pyfloat)
        (rest : list (list pyfloat)) :
  eeg_well_formed c ->
  signals c = first :: rest ->
  exists c' avg,
    average_ch c [] = Ok c' /\
    eeg_well_formed c' /\
    channel_names c' = [String.concat "" (channel_names c)] /\
    sample_rate c' = sample_rate c /\
    timestamps c' = timestamps c /\
    events c' = [] /\
    signals c' = [avg] /\
    forall i, (i < length (timestamps c))%nat ->
              nth_error avg i
              = Some (fdiv (column_sum i first rest)
                           (inject_Z (Z.of_nat (length (signals c))))).
Proof.
  intros [Hlen Hall] Hsig. rewrite Hsig in Hall.
  inversion Hall as [|? ? Hf Hrest]; subst.
  destruct (@mean_signal_spec first rest (length (timestamps c)) Hf Hrest)
    as (avg & Hmean & Havg & Hnth).
  unfold average_ch. rewrite Hsig, Hmean.
  eexists. exists avg. split; [reflexivity|].
  cbn [channel_names sample_rate timestamps events signals].
  split; [split; [reflexivity | repeat constructor; exact Havg]|].
  repeat split. exact Hnth.
Qed.

Lemma average_ch_mean_witness :
  exists c' avg,
    average_ch two_channel_container [] = Ok c' /\
    eeg_well_formed c' /\
    channel_names c' = [String.concat "" (channel_names two_channel_container)] /\
    sample_rate c' = sample_rate two_channel_container /\
    timestamps c' = timestamps two_channel_container /\
    events c' = [] /\
    signals c' = [avg] /\
    forall i, (i < length (timestamps two_channel_container))%nat ->
              nth_error avg i
              = Some (fdiv (column_sum i (nums [1; 2; 3]) [nums [3; 6; 9]])
                           (inject_Z
                              (Z.of_nat
                                 (length (signals two_channel_container))))).
Proof.
  apply (@average_ch_mean two_channel_container (nums [1; 2; 3])
                          [nums [3; 6; 9]]).
  - split; [reflexivity | repeat constructor].
  - reflexivity.
Defined.

Example average_ch_two_channels :
  option_map (fun c => (channel_names c, signals c, events c))
             (match average_ch two_channel_container [] with
              | Ok c => Some c
              | Raise _ => None
              end)
  = Some (["CzPz"%string], [nums [(1 + 3) / 2; (2 + 6) / 2; (3 + 9) / 2]], []).
Proof. reflexivity. Qed.

(** ** Rates as functions of the threshold *)

Section RateFacts.
Import Metrics.

Lemma rate_finite (k : Z) (sims : list pyfloat) :
  sims <> [] -> np_true_divide k (len sims) = Finite (ratio k sims).
Proof.
  intros Hne. unfold np_true_divide, ratio.
  destruct (Z.eqb_spec (len sims) 0) as [H0|_]; [|reflexivity].
  apply len_pos in Hne. lia.
Qed.

Lemma ratio_le (a b : Z) (sims : list pyfloat) :
  sims <> [] -> (a <= b)%Z -> ratio a sims <= ratio b sims.
Proof.
  intros Hne Hab. unfold ratio, Qdiv.
  apply Qmult_le_compat_r; [rewrite <- Zle_Qle; exact Hab|].
  apply Qinv_le_0_compat. change 0 with (inject_Z 0). rewrite <- Zle_Qle.
  apply len_pos in Hne. lia.
Qed.

Lemma ratio_zero (sims : list pyfloat) : ratio 0 sims == 0.
Proof. unfold ratio, Qdiv. change (inject_Z 0) with 0. ring. Qed.

Lemma ratio_full (sims : list pyfloat) : sims <> [] -> ratio (len sims) sims == 1.
Proof.
  intros Hne. unfold ratio. field.
  apply len_pos in Hne. intros H.
  unfold Qeq in H. cbn [Qnum Qden inject_Z] in H. lia.
Qed.

Lemma count_ge_bounds (sims : list pyfloat) (t : Q) :
  (0 <= count_ge sims t <= len sims)%Z.
Proof.
  unfold count_ge, len. split; [lia|].
  apply Nat2Z.inj_le. apply filter_length_le.
Qed.

Lemma count_lt_bounds (sims : list pyfloat) (t : Q) :
  (0 <= count_lt sims t <= len sims)%Z.
Proof.
  unfold count_lt, len. split; [lia|].
  apply Nat2Z.inj_le. apply filter_length_le.
Qed.

(** A score that reaches the higher threshold reaches the lower one, and
    a score below the lower threshold is below the higher one. *)
Lemma count_ge_antitone (sims : list pyfloat) (t1 t2 : Q) :
  t1 <= t2 -> (count_ge sims t2 <= count_ge sims t1)%Z.
Proof.
  intros Ht. unfold count_ge. apply Nat2Z.inj_le.
  induction sims as [|s sims IH]; [reflexivity|].
  cbn [filter]. destruct (fge s (Finite t2)) eqn:H2.
  - assert (H1 : fge s (Finite t1) = true).
    { destruct s as [q|]; [|discriminate H2]. cbn [fge] in *.
      apply Qgeb_le. apply Qgeb_le in H2. lra. }
    rewrite H1. cbn [length]. lia.
  - destruct (fge s (Finite t1)); cbn [length]; lia.
Qed.

Lemma count_lt_monotone (sims : list pyfloat) (t1 t2 : Q) :
  t1 <= t2 -> (count_lt sims t1 <= count_lt sims t2)%Z.
Proof.
  intros Ht. unfold count_lt. apply Nat2Z.inj_le.
  induction sims as [|s sims IH]; [reflexivity|].
  cbn [filter]. destruct (flt s (Finite t1)) eqn:H1.
  - assert (H2 : flt s (Finite t2) = true).
    { destruct s as [q|]; [|discriminate H1]. cbn [flt] in *.
      apply Qltb_lt. apply Qltb_lt in H1. lra. }
    rewrite H2. cbn [length]. lia.
  - destruct (flt s (Finite t2)); cbn [length]; lia.
Qed.

Lemma ratio_bounds (k : Z) (sims : list pyfloat) :
  sims <> [] -> (0 <= k <= len sims)%Z -> 0 <= ratio k sims <= 1.
Proof.
  intros Hne [H0 H1]. split.
  - rewrite <- (ratio_zero sims). apply ratio_le; assumption.
  - rewrite <- (ratio_full Hne). apply ratio_le; assumption.
Qed.

Lemma filter_all (A : Type) (f : A -> bool) (l : list A) :
  (forall x, In x l -> f x = true) -> filter f l = l.
Proof.
  induction l as [|x l IH]; intros H; [reflexivity|].
  cbn [filter]. rewrite (H x) by (simpl; auto).
  f_equal. apply IH. intros y Hy. apply H. simpl. auto.
Qed.

Lemma filter_none (A : Type) (f : A -> bool) (l : list A) :
  (forall x, In x l -> f x = false) -> filter f l = [].
Proof.
  induction l as [|x l IH]; intros H; [reflexivity|].
  cbn [filter]. rewrite (H x) by (simpl; auto).
  apply IH. intros y Hy. apply H. simpl. auto.
Qed.

(** The two comparisons exclude each other. *)
Lemma fge_not_flt (s t : pyfloat) : fge s t = true -> flt s t = false.
Proof.
  destruct s as [a|], t as [b|]; try discriminate. cbn [fge flt].
  rewrite Qltb_Qgeb. intros ->. reflexivity.
Qed.

Lemma flt_not_fge (s t : pyfloat) : flt s t = true -> fge s t = false.
Proof.
  destruct s as [a|], t as [b|]; try discriminate. cbn [fge flt].
  rewrite Qltb_Qgeb. intros H. apply negb_true_iff in H. exact H.
Qed.

Lemma count_all_ge (sims : list pyfloat) (t : Q) :
  (forall s, In s sims -> fge s (Finite t) = true) ->
  count_ge sims t = len sims /\ count_lt sims t = 0%Z.
Proof.
  intros H. unfold count_ge, count_lt, len.
  rewrite filter_all by exact H.
  rewrite filter_none; [split; reflexivity|].
  intros x Hx. apply fge_not_flt, H, Hx.
Qed.

Lemma count_all_lt (sims : list pyfloat) (t : Q) :
  (forall s, In s sims -> flt s (Finite t) = true) ->
  count_ge sims t = 0%Z /\ count_lt sims t = len sims.
Proof.
  intros H. unfold count_ge, count_lt, len.
  rewrite (filter_all _ _ H).
  rewrite filter_none; [split; reflexivity|].
  intros x Hx. apply flt_not_fge, H, Hx.
Qed.

End RateFacts.

(** X13. For an array that is not empty, whatever its scores, each rate
    is a number between 0 and 1; raising the threshold never raises the
    rate of accepted scores ([TPR], [FPR]) and never lowers the rate of
    rejected scores ([FNR], [TNR]). *)
Theorem rates_bounded_monotone (sims : list pyfloat) (t1 t2 : Q) :
  sims <> [] -> t1 <= t2 ->
  exists a1 a2 r1 r2,
    Metrics.TPR sims t1 = Finite a1 /\ Metrics.TPR sims t2 = Finite a2 /\
    Metrics.FPR sims t1 = Finite a1 /\ Metrics.FPR sims t2 = Finite a2 /\
    Metrics.FNR sims t1 = Finite r1 /\ Metrics.FNR sims t2 = Finite r2 /\
    Metrics.TNR sims t1 = Finite r1 /\ Metrics.TNR sims t2 = Finite r2 /\
    0 <= a2 /\ a2 <= a1 /\ a1 <= 1 /\
    0 <= r1 /\ r1 <= r2 /\ r2 <= 1.
Proof.
  intros Hne Ht.
  exists (Metrics.ratio (Metrics.count_ge sims t1) sims),
         (Metrics.ratio (Metrics.count_ge sims t2) sims),
         (Metrics.ratio (Metrics.count_lt sims t1) sims),
         (Metrics.ratio (Metrics.count_lt sims t2) sims).
  unfold Metrics.TPR, Metrics.FPR, Metrics.FNR, Metrics.TNR.
  rewrite !rate_finite by exact Hne.
  repeat (split; [reflexivity|]).
  assert (Ha1 := ratio_bounds Hne (count_ge_bounds sims t1)).
  assert (Ha2 := ratio_bounds Hne (count_ge_bounds sims t2)).
  assert (Hr1 := ratio_bounds Hne (count_lt_bounds sims t1)).
  assert (Hr2 := ratio_bounds Hne (count_lt_bounds sims t2)).
  assert (Ha := ratio_le Hne (count_ge_antitone sims Ht)).
  assert (Hr := ratio_le Hne (count_lt_monotone sims Ht)).
  repeat split; tauto.
Qed.

Lemma rates_bounded_monotone_witness :
  exists a1 a2 r1 r2,
    Metrics.TPR (nums [8 # 10; 9 # 10; 7 # 10; 6 # 10]) (1 # 2) = Finite a1 /\
    Metrics.TPR (nums [8 # 10; 9 # 10; 7 # 10; 6 # 10]) (3 # 4) = Finite a2 /\
    Metrics.FPR (nums [8 # 10; 9 # 10; 7 # 10; 6 # 10]) (1 # 2) = Finite a1 /\
    Metrics.FPR (nums [8 # 10; 9 # 10; 7 # 10; 6 # 10]) (3 # 4) = Finite a2 /\
    Metrics.FNR (nums [8 # 10; 9 # 10; 7 # 10; 6 # 10]) (1 # 2) = Finite r1 /\
    Metrics.FNR (nums [8 # 10; 9 # 10; 7 # 10; 6 # 10]) (3 # 4) = Finite r2 /\
    Metrics.TNR (nums [8 # 10; 9 # 10; 7 # 10; 6 # 10]) (1 # 2) = Finite r1 /\
    Metrics.TNR (nums [8 # 10; 9 # 10; 7 # 10; 6 # 10]) (3 # 4) = Finite r2 /\
    0 <= a2 /\ a2 <= a1 /\ a1 <= 1 /\
    0 <= r1 /\ r1 <= r2 /\ r2 <= 1.
Proof.
  apply (@rates_bounded_monotone (nums [8 # 10; 9 # 10; 7 # 10; 6 # 10]) (1 # 2) (3 # 4)).
  - discriminate.
  - discriminate.
Defined.

(** X14. At a threshold that every score of a non-empty array reaches
    ([s >= t] holds for each), the rate of accepted scores is 1 and the
    rate of rejected scores is 0; at a threshold that every score is below
    ([s < t] holds for each) it is the other way round. *)
Theorem rates_at_extremes (sims : list pyfloat) (t : Q) :
  sims <> [] ->
  ((forall s, In s sims -> fge s (Finite t) = true) ->
   feq (Metrics.TPR sims t) (Finite 1) = true /\
   feq (Metrics.FNR sims t) (Finite 0) = true) /\
  ((forall s, In s sims -> flt s (Finite t) = true) ->
   feq (Metrics.TPR sims t) (Finite 0) = true /\
   feq (Metrics.FNR sims t) (Finite 1) = true).
Proof.
  intros Hne. unfold Metrics.TPR, Metrics.FNR.
  rewrite !rate_finite by exact Hne. cbn [feq].
  split; intros H.
  - destruct (count_all_ge sims t H) as [Hge Hlt].
    rewrite Hge, Hlt. split; apply Qeq_bool_iff.
    + apply ratio_full. exact Hne.
    + apply ratio_zero.
  - destruct (count_all_lt sims t H) as [Hge Hlt].
    rewrite Hge, Hlt. split; apply Qeq_bool_iff.
    + apply ratio_zero.
    + apply ratio_full. exact Hne.
Qed.

Lemma rates_at_extremes_witness :
  (feq (Metrics.TPR (nums [8 # 10; 9 # 10; 7 # 10; 6 # 10]) (1 # 2)) (Finite 1) = true /\
   feq (Metrics.FNR (nums [8 # 10; 9 # 10; 7 # 10; 6 # 10]) (1 # 2)) (Finite 0) = true) /\
  (feq (Metrics.TPR (nums [8 # 10; 9 # 10; 7 # 10; 6 # 10]) 1) (Finite 0) = true /\
   feq (Metrics.FNR (nums [8 # 10; 9 # 10; 7 # 10; 6 # 10]) 1) (Finite 1) = true).
Proof.
  split.
  - apply (proj1 (@rates_at_extremes (nums [8 # 10; 9 # 10; 7 # 10; 6 # 10]) (1 # 2)
                    ltac:(discriminate))).
    intros s [<- | [<- | [<- | [<- | []]]]]; reflexivity.
  - apply (proj2 (@rates_at_extremes (nums [8 # 10; 9 # 10; 7 # 10; 6 # 10]) 1
                    ltac:(discriminate))).
    intros s [<- | [<- | [<- | [<- | []]]]]; reflexivity.
Defined.

(** ** The ROC curve and the equal error rate *)

Section RocFacts.
Import Metrics.

Lemma In_removelast (A : Type) (l : list A) (x : A) :
  In x (removelast l) -> In x l.
Proof.
  induction l as [|a l IH]; [intros []|].
  destruct l as [|b l]; [intros []|].
  change (removelast (a :: b :: l)) with (a :: removelast (b :: l)).
  intros [<- | H]; [simpl; auto | right; apply IH; exact H].
Qed.

(** The sampled thresholds: [res] values between 0 and 1; from two values
    on the first is 0 and the last is 1. *)
Lemma linspace_unit (res : Z) :
  (0 <= res)%Z ->
  exists ths,
    linspace 0 1 res = Ok ths /\
    length ths = Z.to_nat res /\
    (forall t, In t ths -> 0 <= t <= 1) /\
    ((2 <= res)%Z ->
     last ths 0 = 1 /\ exists t0, nth_error ths 0 = Some t0 /\ t0 == 0).
Proof.
  intros Hres. unfold linspace.
  destruct (Z.ltb_spec res 0) as [|_]; [lia|].
  destruct (Z.ltb_spec 1 res) as [Hbig|Hsmall].
  - destruct (Z.ltb_spec 0 (res - 1)) as [_|]; [|lia].
    set (step := (1 - 0) / inject_Z (res - 1)).
    set (f := fun v : Q => if Qeq_bool step 0
                           then v / inject_Z (res - 1) * (1 - 0)
                           else v * step).
    assert (Hmap : (if Qeq_bool step 0
                    then map (fun v => v / inject_Z (res - 1) * (1 - 0))
                             (map (fun i => inject_Z (Z.of_nat i))
                                  (seq 0 (Z.to_nat res)))
                    else map (fun v => v * step)
                             (map (fun i => inject_Z (Z.of_nat i))
                                  (seq 0 (Z.to_nat res))))
                   = map f (map (fun i => inject_Z (Z.of_nat i))
                                (seq 0 (Z.to_nat res)))).
    { unfold f. destruct (Qeq_bool step 0); reflexivity. }
    rewrite Hmap. rewrite !map_map.
    set (g := fun i : nat => f (inject_Z (Z.of_nat i)) + 0).
    assert (Hg : forall i, (Z.of_nat i <= res - 1)%Z -> 0 <= g i <= 1).
    { intros i Hi. unfold g, f, step.
      assert (Hpos : 0 < inject_Z (res - 1))
        by (change 0 with (inject_Z 0); rewrite <- Zlt_Qlt; lia).
      assert (H0 : 0 <= inject_Z (Z.of_nat i))
        by (change 0 with (inject_Z 0); rewrite <- Zle_Qle; lia).
      assert (H1 : inject_Z (Z.of_nat i) <= inject_Z (res - 1))
        by (rewrite <- Zle_Qle; lia).
      assert (Hq : 0 <= inject_Z (Z.of_nat i) / inject_Z (res - 1) <= 1).
      { split.
        - apply Qle_shift_div_l; [exact Hpos | lra].
        - apply Qle_shift_div_r; [exact Hpos | lra]. }
      assert (Heq : inject_Z (Z.of_nat i) * ((1 - 0) / inject_Z (res - 1))
                    == inject_Z (Z.of_nat i) / inject_Z (res - 1))
        by (field; lra).
      destruct (Qeq_bool ((1 - 0) / inject_Z (res - 1)) 0); lra. }
    eexists. split; [reflexivity|].
    destruct (Z.to_nat res) as [|[|m]] eqn:Hn; [lia | lia |].
    cbn [seq map].
    change (removelast (g 0%nat :: g 1%nat :: map g (seq 2 m)))
      with (g 0%nat :: removelast (g 1%nat :: map g (seq 2 m))).
    split; [|split].
    + cbn [app length]. rewrite length_app. cbn [length].
      assert (H := @removelast_shorter _ (g 1%nat :: map g (seq 2 m))
                                       ltac:(discriminate)).
      cbn [length] in H. rewrite ?length_map, ?length_seq in H. lia.
    + intros t Ht. cbn [app] in Ht. destruct Ht as [<- | Ht].
      * apply Hg. lia.
      * apply in_app_or in Ht. destruct Ht as [Ht | [<- | []]]; [|lra].
        apply In_removelast in Ht.
        change (g 1%nat :: map g (seq 2 m)) with (map g (seq 1 (S m))) in Ht.
        apply in_map_iff in Ht. destruct Ht as (i & <- & Hi).
        apply in_seq in Hi. apply Hg. lia.
    + intros _. split.
      * cbn [app]. rewrite app_comm_cons. apply last_last.
      * exists (g 0%nat). split; [reflexivity|].
        unfold g, f, step. cbn [Z.of_nat].
        destruct (Qeq_bool ((1 - 0) / inject_Z (res - 1)) 0);
          change (inject_Z 0) with 0; [|ring].
        field. change 0 with (inject_Z 0). intros H.
        unfold Qeq in H. cbn [Qnum Qden inject_Z] in H. lia.
  - destruct (Z.ltb_spec 0 (res - 1)) as [|_]; [lia|].
    eexists. split; [reflexivity|]. rewrite !map_map.
    split; [now rewrite length_map, length_seq|].
    split; [|lia].
    intros t Ht. apply in_map_iff in Ht. destruct Ht as (i & <- & Hi).
    apply in_seq in Hi.
    assert (i = 0%nat) by lia. subst i. cbn [Z.of_nat].
    change (inject_Z 0) with 0. lra.
Qed.

Lemma fargmin_from_finite (l : list Q) :
  forall best_i best i,
    fargmin_from best_i best i (map Finite l)
    = Container.argmin_from best_i best i l.
Proof.
  induction l as [|x l IH]; intros best_i best i; [reflexivity|].
  cbn [map fargmin_from Container.argmin_from].
  destruct (Qltb x best); apply IH.
Qed.

Lemma fargmin_finite (l : list Q) :
  fargmin (map Finite l) = Container.argmin l.
Proof.
  destruct l as [|x l]; [reflexivity|].
  cbn [map fargmin Container.argmin]. now rewrite fargmin_from_finite.
Qed.

End RocFacts.

(** X15. [roc] with a resolution [res] that is not negative returns [res]
    thresholds between 0 and 1 (from two thresholds on, the first is 0 and
    the last is 1), and for each threshold, at the same position, the
    false-positive rate of the negative scores and the true-positive rate of
    the positive scores at that threshold. A negative resolution is
    refused. *)
Theorem roc_shape (p n : list pyfloat) (res : Z) :
  ((0 <= res)%Z ->
   exists fpr tpr ths,
     Metrics.roc p n res = Ok (fpr, tpr, ths) /\
     length ths = Z.to_nat res /\
     length fpr = Z.to_nat res /\
     length tpr = Z.to_nat res /\
     (forall i t, nth_error ths i = Some t ->
                  0 <= t <= 1 /\
                  nth_error fpr i = Some (Metrics.FPR n t) /\
                  nth_error tpr i = Some (Metrics.TPR p t)) /\
     ((2 <= res)%Z ->
      last ths 0 = 1 /\ exists t0, nth_error ths 0 = Some t0 /\ t0 == 0)) /\
  ((res < 0)%Z -> exists m, Metrics.roc p n res = Raise m).
Proof.
  split.
  - intros Hres.
    destruct (linspace_unit Hres) as (ths & Hlin & Hlen & Hin & Hends).
    unfold Metrics.roc. rewrite Hlin.
    do 3 eexists. split; [reflexivity|].
    rewrite !length_map.
    split; [exact Hlen|]. split; [exact Hlen|]. split; [exact Hlen|].
    split; [|exact Hends].
    intros i t Ht. split; [apply Hin; eapply nth_error_In; exact Ht|].
    rewrite !nth_error_map, Ht. split; reflexivity.
  - intros Hres. unfold Metrics.roc, Metrics.linspace.
    destruct (Z.ltb_spec res 0); [eexists; reflexivity | lia].
Qed.

Lemma roc_shape_witness :
  (exists fpr tpr ths,
     Metrics.roc (nums [8 # 10; 9 # 10]) (nums [3 # 10; 6 # 10]) 5 = Ok (fpr, tpr, ths) /\
     length ths = Z.to_nat 5 /\
     length fpr = Z.to_nat 5 /\
     length tpr = Z.to_nat 5 /\
     (forall i t, nth_error ths i = Some t ->
                  0 <= t <= 1 /\
                  nth_error fpr i = Some (Metrics.FPR (nums [3 # 10; 6 # 10]) t) /\
                  nth_error tpr i = Some (Metrics.TPR (nums [8 # 10; 9 # 10]) t)) /\
     ((2 <= 5)%Z ->
      last ths 0 = 1 /\ exists t0, nth_error ths 0 = Some t0 /\ t0 == 0)) /\
  (exists m, Metrics.roc (nums [8 # 10; 9 # 10]) (nums [3 # 10; 6 # 10]) (-1) = Raise m).
Proof.
  split.
  - apply (proj1 (@roc_shape (nums [8 # 10; 9 # 10]) (nums [3 # 10; 6 # 10]) 5)). lia.
  - apply (proj2 (@roc_shape (nums [8 # 10; 9 # 10]) (nums [3 # 10; 6 # 10]) (-1))). lia.
Defined.

Section EerFacts.
Import Metrics.
Variables p n : list pyfloat.
Hypothesis Hp : p <> [].
Hypothesis Hn : n <> [].

(** The distance between the false-positive rate and the false-negative
    rate at a threshold, as [calc_eer] computes it. *)
Lemma eer_distances (ths : list Q) :
  map fabs
      (zip_with fsub (map (FPR n) ths)
                (map (fsub (Finite 1)) (map (TPR p) ths)))
  = map Finite
        (map (fun t => Qabs (ratio (count_ge n t) n
                             - (1 - ratio (count_ge p t) p))) ths).
Proof.
  induction ths as [|t ths IH]; [reflexivity|].
  cbn [map zip_with]. rewrite IH. unfold FPR, TPR.
  rewrite !rate_finite by assumption. reflexivity.
Qed.

Lemma eer_distance (t : Q) :
  fabs (fsub (FPR n t) (fsub (Finite 1) (TPR p t)))
  = Finite (Qabs (ratio (count_ge n t) n - (1 - ratio (count_ge p t) p))).
Proof.
  unfold FPR, TPR. rewrite !rate_finite by assumption. reflexivity.
Qed.

End EerFacts.

(** X16. For positive and negative scores that are not empty and a
    resolution of at least one, [calc_eer] returns a rate between 0 and 1
    and one of the sampled thresholds; the rate is one minus the
    true-positive rate at that threshold, and at no sampled threshold is
    the false-positive rate closer to one minus the true-positive rate than
    at the returned one. *)
Theorem calc_eer_minimises (p n : list pyfloat) (res : Z) :
  p <> [] -> n <> [] -> (1 <= res)%Z ->
  exists r t ths,
    Metrics.calc_eer p n res = Ok (Finite r, t) /\
    Metrics.linspace 0 1 res = Ok ths /\
    In t ths /\
    0 <= r <= 1 /\ 0 <= t <= 1 /\
    fsub (Finite 1) (Metrics.TPR p t) = Finite r /\
    forall t', In t' ths ->
               fge (fabs (fsub (Metrics.FPR n t')
                               (fsub (Finite 1) (Metrics.TPR p t'))))
                   (fabs (fsub (Metrics.FPR n t)
                               (fsub (Finite 1) (Metrics.TPR p t)))) = true.
Proof.
  intros Hp Hn Hres.
  destruct (@linspace_unit res ltac:(lia)) as (ths & Hlin & Hlen & Hin & _).
  unfold Metrics.calc_eer, Metrics.roc. rewrite Hlin.
  rewrite np_binop_same_length by (now rewrite !length_map).
  rewrite (eer_distances Hp Hn), fargmin_finite.
  set (g := fun t => Qabs (Metrics.ratio (Metrics.count_ge n t) n
                           - (1 - Metrics.ratio (Metrics.count_ge p t) p))).
  destruct (@argmin_spec (map g ths)) as (i & y & Harg & Hy & Hmin).
  { destruct ths; [simpl in Hlen; lia | discriminate]. }
  rewrite Harg. rewrite nth_error_map in Hy.
  destruct (nth_error ths i) as [t|] eqn:Ht; [|discriminate].
  cbn [option_map] in Hy. assert (Hyg : y = g t) by congruence. subst y.
  rewrite !nth_error_map, Ht. cbn [option_map].
  unfold Metrics.TPR at 1. rewrite rate_finite by exact Hp. cbn [fsub].
  assert (Htin : In t ths) by (eapply nth_error_In; exact Ht).
  assert (Hge := ratio_bounds Hp (count_ge_bounds p t)).
  exists (1 - Metrics.ratio (Metrics.count_ge p t) p), t, ths.
  split; [reflexivity|]. split; [reflexivity|]. split; [exact Htin|].
  split; [lra|]. split; [apply Hin; exact Htin|]. split.
  - unfold Metrics.TPR. rewrite rate_finite by exact Hp. reflexivity.
  - intros t' Ht'. rewrite !(eer_distance Hp Hn). cbn [fge].
    apply Qgeb_le. apply (Hmin (g t')). apply in_map. exact Ht'.
Qed.

Lemma calc_eer_minimises_witness :
  exists r t ths,
    Metrics.calc_eer (nums [8 # 10; 9 # 10]) (nums [3 # 10; 6 # 10]) 5
    = Ok (Finite r, t) /\
    Metrics.linspace 0 1 5 = Ok ths /\
    In t ths /\
    0 <= r <= 1 /\ 0 <= t <= 1 /\
    fsub (Finite 1) (Metrics.TPR (nums [8 # 10; 9 # 10]) t) = Finite r /\
    forall t', In t' ths ->
               fge (fabs (fsub (Metrics.FPR (nums [3 # 10; 6 # 10]) t')
                               (fsub (Finite 1)
                                     (Metrics.TPR (nums [8 # 10; 9 # 10]) t'))))
                   (fabs (fsub (Metrics.FPR (nums [3 # 10; 6 # 10]) t)
                               (fsub (Finite 1)
                                     (Metrics.TPR (nums [8 # 10; 9 # 10]) t))))
               = true.
Proof.
  apply (@calc_eer_minimises (nums [8 # 10; 9 # 10]) (nums [3 # 10; 6 # 10]) 5);
    [discriminate | discriminate | lia].
Defined.

Example calc_eer_five :
  Metrics.calc_eer (nums [8 # 10; 9 # 10]) (nums [3 # 10; 6 # 10]) 5
  = Ok (Finite (0 # 2), 3 # 4).
Proof. vm_compute. reflexivity. Qed.

(** ** The area under the curve *)

Section AucFacts.
Import Metrics.

Lemma np_diff_cons (a b : Q) (l : list Q) :
  np_diff (a :: b :: l) = (b - a) :: np_diff (b :: l).
Proof. reflexivity. Qed.

Lemma pair_sums_cons (a b : Q) (l : list Q) :
  zip_with Qplus (tl (a :: b :: l)) (removelast (a :: b :: l))
  = (b + a) :: zip_with Qplus (tl (b :: l)) (removelast (b :: l)).
Proof. reflexivity. Qed.

Lemma np_diff_length (l : list Q) : length (np_diff l) = pred (length l).
Proof.
  destruct l as [|a l]; [reflexivity|].
  revert a. induction l as [|b l IH]; intros a; [reflexivity|].
  rewrite np_diff_cons. cbn [length]. rewrite IH. reflexivity.
Qed.

Lemma pair_sums_length (l : list Q) :
  length (zip_with Qplus (tl l) (removelast l)) = pred (length l).
Proof.
  destruct l as [|a l]; [reflexivity|].
  revert a. induction l as [|b l IH]; intros a; [reflexivity|].
  rewrite pair_sums_cons. cbn [length]. rewrite IH. reflexivity.
Qed.

Lemma ascending_tail (a : Q) (l : list Q) : ascending (a :: l) -> ascending l.
Proof. intros H i x y Hx Hy. exact (H (S i) x y Hx Hy). Qed.

Lemma descending_tail (a : Q) (l : list Q) : descending (a :: l) -> descending l.
Proof. intros H i x y Hx Hy. exact (H (S i) x y Hx Hy). Qed.

Lemma ascending_diff (l : list Q) :
  ascending l -> Forall (fun d => 0 <= d) (np_diff l).
Proof.
  destruct l as [|a l]; [constructor|].
  revert a. induction l as [|b l IH]; intros a H; [constructor|].
  rewrite np_diff_cons. constructor.
  - assert (a <= b) by (apply (H 0%nat); reflexivity). lra.
  - apply IH. eapply ascending_tail. exact H.
Qed.

Lemma descending_diff (l : list Q) :
  descending l -> Forall (fun d => d <= 0) (np_diff l).
Proof.
  destruct l as [|a l]; [constructor|].
  revert a. induction l as [|b l IH]; intros a H; [constructor|].
  rewrite np_diff_cons. constructor.
  - assert (b <= a) by (apply (H 0%nat); reflexivity). lra.
  - apply IH. eapply descending_tail. exact H.
Qed.

Lemma pair_sums_nonneg (l : list Q) :
  (forall y, In y l -> 0 <= y) ->
  Forall (fun s => 0 <= s) (zip_with Qplus (tl l) (removelast l)).
Proof.
  destruct l as [|a l]; [constructor|].
  revert a. induction l as [|b l IH]; intros a H; [constructor|].
  rewrite pair_sums_cons. constructor.
  - assert (0 <= a) by (apply H; simpl; auto).
    assert (0 <= b) by (apply H; simpl; auto). lra.
  - apply IH. intros y Hy. apply H. simpl. simpl in Hy. tauto.
Qed.

Lemma fold_plus_shift (l : list Q) :
  forall acc, fold_left Qplus l acc == acc + fold_left Qplus l 0.
Proof.
  induction l as [|x l IH]; intros acc; cbn [fold_left]; [ring|].
  rewrite (IH (acc + x)), (IH (0 + x)). ring.
Qed.

(** The sum of the trapezia has the sign that all the steps of [x] have. *)
Lemma trapezia_sign (d s : list Q) :
  Forall (fun v => 0 <= v) s ->
  (Forall (fun v => 0 <= v) d ->
   0 <= fold_left Qplus (map (fun v => v / 2) (zip_with Qmult d s)) 0) /\
  (Forall (fun v => v <= 0) d ->
   fold_left Qplus (map (fun v => v / 2) (zip_with Qmult d s)) 0 <= 0).
Proof.
  revert s. induction d as [|x d IH]; intros s Hs.
  - split; intros _; cbn; lra.
  - destruct s as [|y s]; [split; intros _; cbn; lra|].
    inversion Hs as [|? ? Hy Hs']; subst.
    destruct (IH s Hs') as [IHpos IHneg].
    cbn [zip_with map fold_left]. split; intros Hd;
      inversion Hd as [|? ? Hx Hd']; subst;
      rewrite fold_plus_shift.
    + specialize (IHpos Hd'). assert (0 <= x * y) by nra.
      assert (0 <= x * y / 2) by (apply Qle_shift_div_l; lra). lra.
    + specialize (IHneg Hd'). assert (x * y <= 0) by nra.
      assert (x * y / 2 <= 0) by (apply Qle_shift_div_r; lra). lra.
Qed.

Lemma forallb_Qgeb (d : list Q) :
  forallb (fun v => Qgeb v 0) d = true -> Forall (fun v => 0 <= v) d.
Proof.
  intros H. apply Forall_forall. intros v Hv.
  rewrite forallb_forall in H. apply Qgeb_le. apply H. exact Hv.
Qed.

End AucFacts.

(** X17. For rate arrays of equal length, true-positive rates that are not
    negative and false-positive rates that run in one direction, never
    decreasing or never increasing, [auc] returns an area that is not
    negative. *)
Theorem auc_nonnegative (fpr tpr : list Q) :
  length fpr = length tpr ->
  (forall y, In y tpr -> 0 <= y) ->
  Metrics.ascending fpr \/ Metrics.descending fpr ->
  exists area, Metrics.auc fpr tpr = Ok area /\ 0 <= area.
Proof.
  intros Hlen Htpr Hdir. unfold Metrics.auc, Metrics.np_trapz.
  rewrite np_binop_same_length
    by (rewrite np_diff_length, pair_sums_length; congruence).
  eexists. split; [reflexivity|].
  destruct (trapezia_sign (Metrics.np_diff fpr) (pair_sums_nonneg tpr Htpr))
    as [Hpos Hneg].
  destruct (forallb (fun d => Qgeb d 0) (Metrics.np_diff fpr)) eqn:Hall.
  - specialize (Hpos (forallb_Qgeb _ Hall)). lra.
  - destruct Hdir as [Hasc | Hdesc].
    + apply ascending_diff in Hasc.
      assert (Hb : forallb (fun d => Qgeb d 0) (Metrics.np_diff fpr) = true).
      { apply forallb_forall. intros v Hv. apply Qgeb_le.
        rewrite Forall_forall in Hasc. apply Hasc. exact Hv. }
      congruence.
    + specialize (Hneg (descending_diff Hdesc)). lra.
Qed.

Lemma auc_nonnegative_witness :
  exists area,
    Metrics.auc [1; 1 # 2; 1 # 2; 0] [1; 1; 1 # 2; 0] = Ok area /\ 0 <= area.
Proof.
  apply (@auc_nonnegative [1; 1 # 2; 1 # 2; 0] [1; 1; 1 # 2; 0]).
  - reflexivity.
  - intros y [<- | [<- | [<- | [<- | []]]]]; discriminate.
  - right. intros [|[|[|[|i]]]] a b Ha Hb; simpl in Ha, Hb;
      try discriminate; injection Ha as <-; injection Hb as <-; discriminate.
Defined.

(** ** Runs of the engine *)

Section RunFacts.
Variable E : Type.
Variable hw : Hardware E.
Variable pl : Plugins.

Lemma bind_Return (A B : Type) (c : M E A) (k : A -> M E B) (w w1 : World E)
      (a : A) :
  c w = (Return a, w1) -> bind c k w = k a w1.
Proof. intros H. unfold bind. now rewrite H. Qed.

Lemma bind_inv (A B : Type) (c : M E A) (k : A -> M E B) (w w' : World E)
      (b : B) :
  bind c k w = (Return b, w') ->
  exists a w1, c w = (Return a, w1) /\ k a w1 = (Return b, w').
Proof.
  unfold bind. destruct (c w) as [[a | m |] w1]; intros H;
    [eauto | discriminate | discriminate].
Qed.

Lemma perform_task_rec_self (fuel : nat) (timeout_s : Q) (w w2 : World E)
      (r : outcome (list EventContainer)) :
  perform_task_rec hw fuel timeout_s w = (r, w2) -> self w2 = self w.
Proof.
  intros H. assert (H2 := frames_perform_task_rec hw fuel timeout_s w).
  rewrite H in H2. exact H2.
Qed.

(** [authenticate] from the [try] on, when the recording succeeds. *)
Lemma authenticate_record_run (fuel : nat) (id : string) (timeout_s : Q)
      (threshold : Q) (tmode : TemplateMode) (smode : SimilarityMode)
      (w1 w2 : World E) (e3 : E) (now : Q) (events : list EventContainer)
      (templates : list Template) (sims : list (string * pyfloat)) :
  perform_task_rec hw fuel timeout_s w1 = (Return events, w2) ->
  create_templates pl (preprocessing_apply pl events) tmode = Ok templates ->
  calculate_similarity pl (database (self w1)) templates smode (Some id)
  = Ok sims ->
  time hw (env w2) = (now, e3) ->
  authenticate_record hw pl fuel id timeout_s threshold tmode smode w1
  = match sims with
    | [s] =>
        if isnan (snd s) || flt (snd s) (Finite threshold)
        then (Return false, w2)
        else (Return true,
              {| env := e3; calls := calls w2;
                 self := with_last_id (Some id) (with_last_auth now (self w1)) |})
    | _ => (Return false, w2)
    end.
Proof.
  intros Hrec Htpl Hsim Htime.
  assert (Hself := perform_task_rec_self _ _ _ Hrec).
  unfold authenticate_record. unfold bind at 1. unfold try_catch.
  rewrite Hrec. rewrite Htpl. unfold lift at 1. unfold bind at 1, ret at 1.
  unfold bind at 1, get_self at 1. rewrite Hself, Hsim.
  unfold lift at 1. unfold bind at 1, ret at 1.
  destruct sims as [|s [|s' rest]]; [reflexivity | | reflexivity].
  destruct (isnan (snd s)); [reflexivity|]. cbn [orb].
  destruct (flt (snd s) (Finite threshold)); [reflexivity|].
  unfold bind, clock, update_self, ret. rewrite Htime.
  cbn [env calls self]. now rewrite Hself.
Qed.

(** The guards of [authenticate] when the device is connected, the
    identity is known and the fast path is not taken. *)
Lemma authenticate_guards_pass (fuel : nat) (id : string)
      (continuous_auth : bool) (timeout_s : Q) (threshold : option Q)
      (tmode : option TemplateMode) (smode : option SimilarityMode)
      (w w1 : World E) (e1 : E) :
  is_connected hw (env w) = (true, e1) ->
  contains id (get_all_idents (database (self w))) = true ->
  fast_path hw id continuous_auth
            {| env := e1; calls := calls w ++ [DevIsConnected]; self := self w |}
  = (Return None, w1) ->
  authenticate hw pl fuel id continuous_auth timeout_s threshold tmode smode w
  = authenticate_record hw pl fuel id timeout_s
                        (resolve_threshold (self w) threshold)
                        (resolve_template_mode (self w) tmode)
                        (resolve_similarity_mode (self w) smode) w1.
Proof.
  intros Hconn Hid Hfast.
  unfold authenticate. unfold bind at 1. unfold query at 1.
  rewrite Hconn. cbn [negb]. unfold bind at 1, get_self at 1.
  cbn [self]. rewrite Hid. cbn [negb].
  unfold bind at 1. rewrite Hfast. reflexivity.
Qed.

Lemma fast_path_off (id : string) (w : World E) :
  fast_path hw id false w = (Return None, w).
Proof. reflexivity. Qed.

End RunFacts.

(** X18. When the device is not connected, [authenticate], [identification]
    and [enroll] all give up at once: they return false (with no identity,
    for [identification]), the only method invoked on the device or the
    task is [is_connected], and the engine object is unchanged. *)
Theorem not_connected_fails_fast
        (E : Type) (hw : Hardware E) (pl : Plugins) (fuel : nat) (id : string)
        (continuous_auth : bool) (timeout_s : Q) (threshold : option Q)
        (tmode : option TemplateMode) (smode : option SimilarityMode)
        (w : World E) (e1 : E) :
  is_connected hw (env w) = (false, e1) ->
  let w1 := {| env := e1; calls := calls w ++ [DevIsConnected];
               self := self w |} in
  authenticate hw pl fuel id continuous_auth timeout_s threshold tmode smode w
  = (Return false, w1) /\
  identification hw pl fuel timeout_s threshold tmode smode w
  = (Return (false, None), w1) /\
  enroll hw pl fuel id timeout_s tmode w = (Return false, w1).
Proof.
  intros Hconn w1. unfold authenticate, identification, enroll, bind, query.
  rewrite Hconn. repeat split.
Qed.

Lemma not_connected_fails_fast_witness :
  authenticate rig_hw (bench_plugins (Finite 1)) 20 "alice" true 10 None None
               None w_session_disconnected
  = (Return false,
     {| env := env w_session_disconnected; calls := [DevIsConnected];
        self := self w_session_disconnected |}) /\
  identification rig_hw (bench_plugins (Finite 1)) 20 10 None None None
                 w_session_disconnected
  = (Return (false, None),
     {| env := env w_session_disconnected; calls := [DevIsConnected];
        self := self w_session_disconnected |}) /\
  enroll rig_hw (bench_plugins (Finite 1)) 20 "alice" 10 None
         w_session_disconnected
  = (Return false,
     {| env := env w_session_disconnected; calls := [DevIsConnected];
        self := self w_session_disconnected |}).
Proof.
  apply (@not_connected_fails_fast Rig rig_hw (bench_plugins (Finite 1)) 20
           "alice" true 10 None None None w_session_disconnected
           (env w_session_disconnected)).
  reflexivity.
Defined.

(** X19. The decision of [authenticate] once the recording, the templates
    and the similarities are there. The call returns true exactly when
    there is exactly one similarity, it is a number and it is not below the
    threshold. When it returns false, the engine object is as it was,
    [last_auth] included. When it returns true, [last_id] is the identity,
    [last_auth] is the time read after the comparison, and the other fields
    of the engine object are what they were. *)
Theorem authenticate_decision
        (E : Type) (hw : Hardware E) (pl : Plugins) (fuel : nat) (id : string)
        (continuous_auth : bool) (timeout_s : Q) (threshold : option Q)
        (tmode : option TemplateMode) (smode : option SimilarityMode)
        (w w1 w2 : World E) (e1 e3 : E) (now : Q)
        (events : list EventContainer) (templates : list Template)
        (sims : list (string * pyfloat)) :
  is_connected hw (env w) = (true, e1) ->
  contains id (get_all_idents (database (self w))) = true ->
  fast_path hw id continuous_auth
            {| env := e1; calls := calls w ++ [DevIsConnected]; self := self w |}
  = (Return None, w1) ->
  perform_task_rec hw fuel timeout_s w1 = (Return events, w2) ->
  create_templates pl (preprocessing_apply pl events)
                   (resolve_template_mode (self w) tmode) = Ok templates ->
  calculate_similarity pl (database (self w)) templates
                       (resolve_similarity_mode (self w) smode) (Some id)
  = Ok sims ->
  time hw (env w2) = (now, e3) ->
  exists r w',
    authenticate hw pl fuel id continuous_auth timeout_s threshold tmode smode w
    = (Return r, w') /\
    r = match sims with
        | [s] =>
            negb (isnan (snd s)
                  || flt (snd s)
                         (Finite (resolve_threshold (self w) threshold)))
        | _ => false
        end /\
    (r = false -> w' = w2 /\ self w' = self w) /\
    (r = true ->
     env w' = e3 /\ calls w' = calls w2 /\
     last_id (self w') = Some id /\
     last_auth (self w') = now /\
     database (self w') = database (self w) /\
     default_threshold (self w') = default_threshold (self w) /\
     before_event_time_ms (self w') = before_event_time_ms (self w) /\
     after_event_time_ms (self w') = after_event_time_ms (self w) /\
     template_mode (self w') = template_mode (self w) /\
     similarity_mode (self w') = similarity_mode (self w)).
Proof.
  intros Hconn Hid Hfast Hrec Htpl Hsim Htime.
  assert (H1 : self w1 = self w).
  { assert (H := frames_fast_path hw id continuous_auth
                   {| env := e1; calls := calls w ++ [DevIsConnected];
                      self := self w |}).
    rewrite Hfast in H. exact H. }
  assert (H2 : self w2 = self w1)
    by (eapply perform_task_rec_self; exact Hrec).
  assert (Hself : self w2 = self w) by congruence.
  erewrite authenticate_guards_pass; [| exact Hconn | exact Hid | exact Hfast].
  replace (database (self w)) with (database (self w1)) in Hsim
    by (now rewrite H1).
  erewrite authenticate_record_run;
    [| exact Hrec | exact Htpl | exact Hsim | exact Htime].
  rewrite H1.
  assert (Hrej : exists r w',
             (Return false, w2) = (@Return bool r, w') /\
             r = false /\
             (r = false -> w' = w2 /\ self w' = self w) /\
             (r = true ->
              env w' = e3 /\ calls w' = calls w2 /\
              last_id (self w') = Some id /\
              last_auth (self w') = now /\
              database (self w') = database (self w) /\
              default_threshold (self w') = default_threshold (self w) /\
              before_event_time_ms (self w') = before_event_time_ms (self w) /\
              after_event_time_ms (self w') = after_event_time_ms (self w) /\
              template_mode (self w') = template_mode (self w) /\
              similarity_mode (self w') = similarity_mode (self w))).
  { exists false, w2. split; [reflexivity|]. split; [reflexivity|].
    split; [auto | discriminate]. }
  destruct sims as [|s [|s' rest]]; [exact Hrej | | exact Hrej].
  destruct (isnan (snd s)
            || flt (snd s) (Finite (resolve_threshold (self w) threshold)));
    [exact Hrej|].
  eexists true, _. split; [reflexivity|]. split; [reflexivity|].
  split; [discriminate|]. intros _. cbn. repeat split.
Qed.

Lemma authenticate_decision_witness :
  exists w',
    authenticate rig_hw (bench_plugins (Finite (3 # 10))) 20 "alice" false 8
                 (Some (1 # 10)) None None w_ready
    = (Return true, w') /\
    calls w' = calls w_ready_recorded /\
    last_id (self w') = Some "alice"%string /\
    last_auth (self w') = 110 /\
    database (self w') = database (self w_ready).
Proof.
  destruct (@authenticate_decision Rig rig_hw (bench_plugins (Finite (3 # 10)))
              20 "alice" false 8 (Some (1 # 10)) None None
              w_ready w_ready_asked w_ready_recorded (env w_ready)
              (snd (rig_tick (env w_ready_recorded))) 110
              ready_events ready_templates (ready_sims (Some "alice"%string))
              eq_refl eq_refl eq_refl eq_refl eq_refl eq_refl eq_refl)
    as (r & w' & Heq & Hr & _ & Hacc).
  assert (Htrue : r = true) by (rewrite Hr; reflexivity).
  destruct (Hacc Htrue) as (_ & Hc & Hid & Hauth & Hdb & _).
  rewrite Htrue in Heq.
  exists w'. repeat split; assumption.
Defined.

Lemma identification_decision_witness :
  identification rig_hw (bench_plugins (Finite (3 # 10))) 20 8
                 (Some (1 # 10)) None None w_ready
  = (Return
       match ready_sims None with
       | [] => (false, Some ""%string)
       | s :: _ =>
           if flt (snd s)
                  (Finite (resolve_threshold (self w_ready) (Some (1 # 10))))
           then (false, Some ""%string)
           else (true, Some (fst s))
       end,
     w_ready_recorded).
Proof.
  apply (@identification_decision Rig rig_hw (bench_plugins (Finite (3 # 10)))
           20 8 (Some (1 # 10)) None None w_ready w_ready_recorded
           (env w_ready) ready_events ready_templates (ready_sims None));
    reflexivity.
Defined.

Lemma calculate_similarity_best_witness :
  In (fst ("ps2"%string, Finite 1)) (get_all_idents db_two) /\
  (no_nan [("ps2"%string, Finite 1); ("ps1"%string, Finite (1 # 4))] ->
   forall x, In x [("ps2"%string, Finite 1); ("ps1"%string, Finite (1 # 4))] ->
             not_below ("ps2"%string, Finite 1) x).
Proof.
  apply (@calculate_similarity_best telling_plugins db_two
           [nums [5; 6; 7; 8; 9]] BestSimilarity
           ("ps2"%string, Finite 1) [("ps1"%string, Finite (1 # 4))]).
  vm_compute. reflexivity.
Defined.

(** The similarities of the two identities of [db_two] to a recording of
    the second one: the second identity, compared last, comes first. *)
Example similarity_order_two :
  calculate_similarity telling_plugins db_two [nums [5; 6; 7; 8; 9]]
                       BestSimilarity None
  = Ok [("ps2"%string, Finite 1); ("ps1"%string, Finite (1 # 4))].
Proof. vm_compute. reflexivity. Qed.

Lemma trim_events_prefix_witness :
  exists kept dropped,
    trim_events [fst (six_epoch 102); fst (six_epoch 103); fst (six_epoch 105)]
    = Some (Ok kept) /\
    [fst (six_epoch 102); fst (six_epoch 103); fst (six_epoch 105)]
    = kept ++ dropped /\
    kept <> [] /\
    ev_len (hd blink_epoch kept) = ev_len (last kept blink_epoch).
Proof.
  apply (@trim_events_prefix
           [fst (six_epoch 102); fst (six_epoch 103); fst (six_epoch 105)]
           blink_epoch).
  discriminate.
Defined.

Example trim_drops_short_tail :
  option_map (fun r => match r with Ok l => map ev_len l | Raise _ => [] end)
             (trim_events [fst (six_epoch 102); fst (six_epoch 103);
                           fst (six_epoch 105)])
  = Some [5; 5]%Z.
Proof. reflexivity. Qed.

(** ** The calls an acquisition makes *)

Section CallFacts.
Variable E : Type.
Variable hw : Hardware E.
Variable pl : Plugins.

Local Abbreviation grows := (@grows_calls E).

Lemma grows_ret (A : Type) (a : A) : grows (ret a).
Proof. intros w. exists []. cbn. now rewrite app_nil_r. Qed.

Lemma grows_throw (A : Type) (m : string) : grows (throw (E:=E) A m).
Proof. intros w. exists []. cbn. now rewrite app_nil_r. Qed.

Lemma grows_diverge (A : Type) : grows (diverge (E:=E) A).
Proof. intros w. exists []. cbn. now rewrite app_nil_r. Qed.

Lemma grows_bind (A B : Type) (c : M E A) (k : A -> M E B) :
  grows c -> (forall a, grows (k a)) -> grows (bind c k).
Proof.
  intros Hc Hk w. unfold bind. destruct (Hc w) as [r1 H1].
  destruct (c w) as [[a | m |] w']; cbn [snd] in *; eauto.
  destruct (Hk a w') as [r2 H2]. exists (r1 ++ r2).
  now rewrite H2, H1, app_assoc.
Qed.

Lemma grows_lift (A : Type) (r : result A) : grows (lift (E:=E) r).
Proof. destruct r; [apply grows_ret | apply grows_throw]. Qed.

Lemma grows_query (A : Type) (c : Call) (f : E -> A * E) : grows (query c f).
Proof.
  intros w. unfold query. destruct (f (env w)). exists [c]. reflexivity.
Qed.

Lemma grows_command (c : Call) (f : E -> E) : grows (command c f).
Proof. intros w. exists [c]. reflexivity. Qed.

Lemma grows_attribute (A : Type) (f : E -> A) : grows (attribute f).
Proof. intros w. exists []. cbn. now rewrite app_nil_r. Qed.

Lemma grows_clock : grows (clock hw).
Proof.
  intros w. unfold clock. destruct (time hw (env w)). exists []. cbn.
  now rewrite app_nil_r.
Qed.

Lemma grows_get_self : grows (get_self (E:=E)).
Proof. intros w. exists []. cbn. now rewrite app_nil_r. Qed.

Lemma grows_if (A : Type) (b : bool) (c1 c2 : M E A) :
  grows c1 -> grows c2 -> grows (if b then c1 else c2).
Proof. destruct b; auto. Qed.

Ltac grow_step :=
  first
    [ apply grows_ret | apply grows_throw | apply grows_diverge
    | apply grows_lift | apply grows_query | apply grows_command
    | apply grows_attribute | apply grows_clock | apply grows_get_self
    | apply grows_if
    | apply grows_bind; [| intros ? ] ].

Lemma grows_poll_loop (fuel : nat) :
  forall start timeout_s c, grows (poll_loop hw fuel start timeout_s c).
Proof.
  induction fuel as [|fuel IH]; intros start timeout_s c; cbn [poll_loop].
  - apply grows_diverge.
  - repeat grow_step. apply IH.
Qed.

Lemma grows_drain_loop (fuel : nat) :
  forall stop_time stimuli, grows (drain_loop hw fuel stop_time stimuli).
Proof.
  induction fuel as [|fuel IH]; intros stop_time stimuli; cbn [drain_loop].
  - apply grows_diverge.
  - repeat grow_step. apply IH.
Qed.

Lemma lift_world (A : Type) (r : result A) (w w' : World E) (o : outcome A) :
  lift r w = (o, w') -> w' = w.
Proof.
  destruct r; unfold lift, ret, throw; intros H; inversion H; reflexivity.
Qed.

Lemma run_trim_world (events : list EventContainer) (w w' : World E)
      (o : outcome (list EventContainer)) :
  run_trim events w = (o, w') -> w' = w.
Proof.
  unfold run_trim. destruct (trim_events events) as [r|].
  - apply lift_world.
  - unfold diverge. intros H. inversion H. reflexivity.
Qed.

(** The calls of a whole run of the acquisition procedure. *)
Lemma perform_task_rec_calls (fuel : nat) (timeout_s : Q) (w w' : World E)
      (r : outcome (list EventContainer)) :
  perform_task_rec hw fuel timeout_s w = (r, w') ->
  exists rest,
    calls w' = calls w ++ DevStartStream :: TaskStart :: rest /\
    forall events,
      r = Return events ->
      exists polled drained,
        rest = polled ++ DevStopStream :: drained ++ [TaskStop].
Proof.
  intros Hrun. unfold perform_task_rec in Hrun.
  unfold bind at 1, attribute at 1 in Hrun.
  unfold bind at 1, attribute at 1 in Hrun.
  unfold bind at 1, clock at 1 in Hrun.
  destruct (time hw (env w)) as [start e0].
  unfold bind at 1, command at 1 in Hrun.
  unfold bind at 1, command at 1 in Hrun.
  cbn [env calls self] in Hrun.
  set (wa := {| env := task_start hw (start_stream hw e0);
                calls := (calls w ++ [DevStartStream]) ++ [TaskStart];
                self := self w |}) in *.
  assert (Hwa : calls wa = calls w ++ [DevStartStream; TaskStart])
    by (unfold wa; cbn [calls]; now rewrite <- app_assoc).
  set (c0 := new_EEGContainer (dev_channel_names hw (env w))
                              (dev_sample_rate hw (env w))) in *.
  destruct (grows_poll_loop fuel start timeout_s c0 wa) as [polled Hpoll].
  unfold bind at 1 in Hrun.
  destruct (poll_loop hw fuel start timeout_s c0 wa) as [[c | m |] wb] eqn:Hp;
    cbn [snd] in Hpoll.
  - unfold bind at 1, command at 1 in Hrun.
    unfold bind at 1, clock at 1 in Hrun. cbn [env calls self] in Hrun.
    destruct (time hw (stop_stream hw (env wb))) as [stop_time ec].
    set (wc := {| env := ec; calls := calls wb ++ [DevStopStream];
                  self := self wb |}) in *.
    destruct (grows_drain_loop fuel stop_time [] wc) as [drained Hdrain].
    unfold bind at 1 in Hrun.
    destruct (drain_loop hw fuel stop_time [] wc) as [[st | m |] wd] eqn:Hd;
      cbn [snd] in Hdrain.
    + unfold bind at 1, command at 1 in Hrun.
      unfold bind at 1, get_self at 1 in Hrun. cbn [env calls self] in Hrun.
      set (we := {| env := task_stop hw (env wd);
                    calls := calls wd ++ [TaskStop]; self := self wd |}) in *.
      assert (Hwe : calls we
                    = calls w ++ DevStartStream :: TaskStart
                        :: polled ++ DevStopStream :: drained ++ [TaskStop]).
      { unfold we, wc in *. cbn [calls] in *.
        rewrite Hdrain, Hpoll, Hwa. rewrite <- !app_assoc. reflexivity. }
      unfold bind at 1 in Hrun.
      destruct (lift (extract_events c st (before_event_time_ms (self wd))
                                     (after_event_time_ms (self wd)) []) we)
        as [[ev | m |] wf] eqn:Hl.
      * apply lift_world in Hl. subst wf.
        assert (Hw' := run_trim_world _ _ Hrun). subst w'.
        eexists. split; [exact Hwe|]. intros events _. eauto.
      * apply lift_world in Hl. subst wf. injection Hrun as <- <-.
        eexists. split; [exact Hwe|]. discriminate.
      * apply lift_world in Hl. subst wf. injection Hrun as <- <-.
        eexists. split; [exact Hwe|]. discriminate.
    + injection Hrun as <- <-. eexists. split; [|discriminate].
      unfold wc in Hdrain. cbn [calls] in Hdrain.
      rewrite Hdrain, Hpoll, Hwa. rewrite <- !app_assoc. reflexivity.
    + injection Hrun as <- <-. eexists. split; [|discriminate].
      unfold wc in Hdrain. cbn [calls] in Hdrain.
      rewrite Hdrain, Hpoll, Hwa. rewrite <- !app_assoc. reflexivity.
  - injection Hrun as <- <-. eexists. split; [|discriminate].
    rewrite Hpoll, Hwa. rewrite <- !app_assoc. reflexivity.
  - injection Hrun as <- <-. eexists. split; [|discriminate].
    rewrite Hpoll, Hwa. rewrite <- !app_assoc. reflexivity.
Qed.

End CallFacts.

(** X20. Every run of the acquisition procedure, however it ends, first
    starts the device stream and then the task, and only adds to the record
    of calls. A run that returns epochs has also stopped the stream and,
    as its last call, stopped the task. *)
Theorem acquisition_call_order
        (E : Type) (hw : Hardware E) (fuel : nat) (timeout_s : Q)
        (w : World E) :
  exists rest,
    calls (snd (perform_task_rec hw fuel timeout_s w))
    = calls w ++ DevStartStream :: TaskStart :: rest /\
    forall events,
      fst (perform_task_rec hw fuel timeout_s w) = Return events ->
      exists polled drained,
        rest = polled ++ DevStopStream :: drained ++ [TaskStop].
Proof.
  destruct (perform_task_rec hw fuel timeout_s w) as [r w'] eqn:Hrun.
  cbn [fst snd]. eapply perform_task_rec_calls. exact Hrun.
Qed.

Section AcceptFacts.
Variable E : Type.
Variable hw : Hardware E.
Variable pl : Plugins.

(** An accepting run of [authenticate] from the [try] on has recorded. *)
Lemma authenticate_record_true (fuel : nat) (id : string) (timeout_s : Q)
      (threshold : Q) (tmode : TemplateMode) (smode : SimilarityMode)
      (w1 w' : World E) :
  authenticate_record hw pl fuel id timeout_s threshold tmode smode w1
  = (Return true, w') ->
  exists events w2,
    perform_task_rec hw fuel timeout_s w1 = (Return events, w2) /\
    calls w' = calls w2 /\
    last_id (self w') = Some id.
Proof.
  unfold authenticate_record. unfold bind at 1. unfold try_catch.
  destruct (perform_task_rec hw fuel timeout_s w1) as [[events | m |] w2];
    [| intros H; discriminate H | intros H; discriminate H].
  unfold bind at 1.
  destruct (create_templates pl (preprocessing_apply pl events) tmode)
    as [templates|m]; [|intros H; discriminate H].
  unfold lift at 1, ret at 1. unfold bind at 1, get_self at 1.
  unfold bind at 1.
  destruct (calculate_similarity pl (database (self w2)) templates smode
                                 (Some id)) as [sims|m];
    [|intros H; discriminate H].
  unfold lift at 1, ret at 1.
  destruct sims as [|s [|s' rest]]; try (intros H; discriminate H).
  destruct (isnan (snd s)); [intros H; discriminate H|].
  destruct (flt (snd s) (Finite threshold)); [intros H; discriminate H|].
  unfold bind, clock, update_self, ret.
  destruct (time hw (env w2)) as [now e3]. cbn [env calls self].
  intros H. injection H as <-. exists events, w2. repeat split.
Qed.

(** Without a matching [last_id] the continuous-authentication test never
    accepts: it rejects, or it lets the call go on to record. *)
Lemma fast_path_no_token (id : string) (continuous_auth : bool)
      (w1 w2 : World E) (o : outcome (option bool)) :
  last_id (self w1) <> Some id ->
  fast_path hw id continuous_auth w1 = (o, w2) ->
  o = Return (Some false) \/
  (o = Return None /\ exists rest, calls w2 = calls w1 ++ rest).
Proof.
  intros Hlast. unfold fast_path, bind, get_self, attribute.
  destruct (continuous_auth && Qltb (removal_time_stamp hw (env w1))
                                    (last_auth (self w1))).
  - unfold query. destruct (is_worn hw (env w1)) as [worn e2].
    destruct worn; cbn [negb].
    + assert (Hne : opt_string_eqb (Some id) (last_id (self w1)) = false).
      { destruct (last_id (self w1)) as [l|]; [|reflexivity].
        cbn [opt_string_eqb]. destruct (String.eqb_spec id l); [|reflexivity].
        congruence. }
      cbn [self]. rewrite Hne. unfold ret. intros H. injection H as <- <-.
      right. split; [reflexivity|]. exists [DevIsWorn]. reflexivity.
    + unfold clock, set_attribute, ret. cbn [env calls self].
      destruct (time hw e2). intros H. injection H as <- <-. auto.
  - unfold ret. intros H. injection H as <- <-.
    right. split; [reflexivity|]. exists []. now rewrite app_nil_r.
Qed.

End AcceptFacts.

(** X21. While [last_id] is not the identity asked for, as after [reset]
    and on a new engine, [authenticate] does not accept without recording:
    every call that returns true, with or without [continuous_auth], has
    started the device stream. *)
Theorem no_token_no_shortcut
        (E : Type) (hw : Hardware E) (pl : Plugins) (fuel : nat) (id : string)
        (continuous_auth : bool) (timeout_s : Q) (threshold : option Q)
        (tmode : option TemplateMode) (smode : option SimilarityMode)
        (w w' : World E) :
  last_id (self w) <> Some id ->
  authenticate hw pl fuel id continuous_auth timeout_s threshold tmode smode w
  = (Return true, w') ->
  (exists before after,
      calls w' = calls w ++ before ++ DevStartStream :: after) /\
  last_id (self w') = Some id.
Proof.
  intros Hlast. unfold authenticate. unfold bind at 1. unfold query at 1.
  destruct (is_connected hw (env w)) as [connected e1].
  destruct connected; cbn [negb]; [|intros H; discriminate H].
  unfold bind at 1, get_self at 1. cbn [self].
  destruct (contains id (get_all_idents (database (self w)))); cbn [negb];
    [|intros H; discriminate H].
  unfold bind at 1.
  destruct (fast_path hw id continuous_auth
                      {| env := e1; calls := calls w ++ [DevIsConnected];
                         self := self w |}) as [o w1] eqn:Hfast.
  destruct (@fast_path_no_token E hw id continuous_auth
              {| env := e1; calls := calls w ++ [DevIsConnected];
                 self := self w |} w1 o Hlast Hfast)
    as [-> | [-> (rest & Hcalls)]]; [intros H; discriminate H|].
  intros Hrec. apply authenticate_record_true in Hrec.
  destruct Hrec as (events & w2 & Hrun & Hc & Hid).
  split; [|exact Hid].
  destruct (@perform_task_rec_calls E hw fuel timeout_s w1 w2 _ Hrun)
    as (tail & Htail & _).
  exists (DevIsConnected :: rest), (TaskStart :: tail).
  rewrite Hc, Htail, Hcalls. cbn [calls]. rewrite <- !app_assoc. reflexivity.
Qed.

Lemma no_token_no_shortcut_witness :
  (exists before after,
      calls w_ready_accepted
      = calls w_ready ++ before ++ DevStartStream :: after) /\
  last_id (self w_ready_accepted) = Some "alice"%string.
Proof.
  apply (@no_token_no_shortcut Rig rig_hw (bench_plugins (Finite (3 # 10))) 20
           "alice" false 8 (Some (1 # 10)) None None w_ready w_ready_accepted).
  - discriminate.
  - vm_compute. reflexivity.
Defined.

(** ** Enrollment *)

Lemma get_templates_add_same (db : TemplateDatabase) (id : string)
      (t : Template) :
  get_templates (add_template db id t) id = (true, Some (stored db id ++ [t])).
Proof.
  unfold stored. rewrite (get_templates_lookup db id).
  rewrite get_templates_lookup. unfold add_template, dict_mem.
  destruct (dict_get id (internal_data db)) as [v|] eqn:Hget; cbn [negb snd].
  - rewrite Hget. cbn [internal_data]. now rewrite dict_get_set_same.
  - rewrite dict_get_set_same. cbn [internal_data].
    now rewrite dict_get_set_same.
Qed.

Lemma get_templates_add_other (db : TemplateDatabase) (id other : string)
      (t : Template) :
  other <> id ->
  get_templates (add_template db id t) other = get_templates db other.
Proof.
  intros Hne. rewrite !get_templates_lookup. unfold add_template, dict_mem.
  destruct (dict_get id (internal_data db)) as [v|] eqn:Hget; cbn [negb].
  - rewrite Hget. cbn [internal_data]. now rewrite dict_get_set_other.
  - rewrite dict_get_set_same. cbn [internal_data].
    now rewrite !dict_get_set_other.
Qed.

Lemma add_templates_lookup (templates : list Template) :
  forall (db : TemplateDatabase) (id : string),
    (templates <> [] ->
     get_templates (add_templates db id templates) id
     = (true, Some (stored db id ++ templates))) /\
    (forall other, other <> id ->
                   get_templates (add_templates db id templates) other
                   = get_templates db other).
Proof.
  unfold add_templates.
  induction templates as [|t ts IH]; intros db id.
  - split; [congruence | reflexivity].
  - cbn [fold_left]. destruct (IH (add_template db id t) id) as [IHs IHo].
    split.
    + intros _. destruct ts as [|t' ts'].
      * cbn [fold_left]. apply get_templates_add_same.
      * rewrite IHs by discriminate. unfold stored at 1.
        rewrite get_templates_add_same. cbn [snd].
        now rewrite <- app_assoc.
    + intros other Hne. rewrite IHo by exact Hne.
      apply get_templates_add_other. exact Hne.
Qed.

(** X22. What [enroll] does with a connected device. If the acquisition
    raises, it returns false and the engine object is as before. If the
    acquisition and the templating succeed, it returns true; [last_id] is
    the identity and [last_auth] the time read at the end; the identity is
    then found with the templates it had followed by the new ones (when
    there is at least one), and every other identity with the templates it
    had. *)
Theorem enroll_outcome
        (E : Type) (hw : Hardware E) (pl : Plugins) (fuel : nat) (id : string)
        (timeout_s : Q) (mode : option TemplateMode) (w : World E) (e1 : E) :
  is_connected hw (env w) = (true, e1) ->
  (forall msg w2,
      perform_task_rec hw fuel timeout_s
                       {| env := e1; calls := calls w ++ [DevIsConnected];
                          self := self w |}
      = (Throw msg, w2) ->
      enroll hw pl fuel id timeout_s mode w = (Return false, w2) /\
      self w2 = self w) /\
  (forall events w2 templates now e3,
      perform_task_rec hw fuel timeout_s
                       {| env := e1; calls := calls w ++ [DevIsConnected];
                          self := self w |}
      = (Return events, w2) ->
      create_templates pl (preprocessing_apply pl events)
                       (resolve_template_mode (self w) mode) = Ok templates ->
      time hw (env w2) = (now, e3) ->
      exists w',
        enroll hw pl fuel id timeout_s mode w = (Return true, w') /\
        env w' = e3 /\ calls w' = calls w2 /\
        last_id (self w') = Some id /\
        last_auth (self w') = now /\
        database (self w') = add_templates (database (self w)) id templates /\
        (templates <> [] ->
         get_templates (database (self w')) id
         = (true, Some (stored (database (self w)) id ++ templates))) /\
        (forall other, other <> id ->
                       get_templates (database (self w')) other
                       = get_templates (database (self w)) other)).
Proof.
  intros Hconn. split.
  - intros msg w2 Hrec.
    assert (Hself : self w2 = self w)
      by (apply perform_task_rec_self in Hrec; exact Hrec).
    split; [|exact Hself].
    unfold enroll. unfold bind at 1. unfold query at 1.
    rewrite Hconn. cbn [negb]. unfold bind at 1, get_self at 1.
    unfold bind at 1. unfold try_catch. rewrite Hrec. reflexivity.
  - intros events w2 templates now e3 Hrec Htpl Htime.
    assert (Hself : self w2 = self w)
      by (apply perform_task_rec_self in Hrec; exact Hrec).
    eexists. split.
    + unfold enroll. unfold bind at 1. unfold query at 1.
      rewrite Hconn. cbn [negb]. unfold bind at 1, get_self at 1.
      unfold bind at 1. unfold try_catch. rewrite Hrec. cbn [self].
      rewrite Htpl. unfold lift at 1. unfold bind at 1, ret at 1.
      unfold bind, update_self, clock, ret. cbn [env calls self].
      rewrite Htime. reflexivity.
    + cbn [env calls self last_id last_auth database with_last_id
               with_last_auth with_database].
      rewrite Hself.
      destruct (add_templates_lookup templates (database (self w)) id)
        as [Hsame Hother].
      repeat split; assumption.
Qed.

Lemma enroll_outcome_witness :
  (enroll rig_hw (bench_plugins (Finite (3 # 10))) 20 "bob" 10 None
          w_session_unworn
   = (Return false, w_unworn_failed) /\
   self w_unworn_failed = self w_session_unworn) /\
  exists w',
    enroll rig_hw (bench_plugins (Finite (3 # 10))) 20 "bob" 8 None w_ready
    = (Return true, w') /\
    env w' = snd (rig_tick (env w_ready_recorded)) /\
    calls w' = calls w_ready_recorded /\
    last_id (self w') = Some "bob"%string /\
    last_auth (self w') = 110 /\
    database (self w')
    = add_templates (database (self w_ready)) "bob" ready_templates /\
    (ready_templates <> [] ->
     get_templates (database (self w')) "bob"
     = (true, Some (stored (database (self w_ready)) "bob" ++ ready_templates))) /\
    (forall other, other <> "bob"%string ->
                   get_templates (database (self w')) other
                   = get_templates (database (self w_ready)) other).
Proof.
  split.
  - apply (proj1 (@enroll_outcome Rig rig_hw (bench_plugins (Finite (3 # 10)))
                    20 "bob" 10 None w_session_unworn (env w_session_unworn)
                    eq_refl) "Device not on head"%string w_unworn_failed).
    vm_compute. reflexivity.
  - apply (proj2 (@enroll_outcome Rig rig_hw (bench_plugins (Finite (3 # 10)))
                    20 "bob" 8 None w_ready (env w_ready) eq_refl)
                 ready_events w_ready_recorded ready_templates 110
                 (snd (rig_tick (env w_ready_recorded))));
      vm_compute; reflexivity.
Defined.

Example enroll_bob :
  get_all_idents (database (self w_bob_enrolled)) = ["alice"; "bob"]%string /\
  last_id (self w_bob_enrolled) = Some "bob"%string.
Proof. vm_compute. split; reflexivity. Qed.

(** ** Similarities for one identity *)

Section OneIdentity.
Variable pl : Plugins.

Lemma similarity_of_id (db : TemplateDatabase) (templates : list Template)
      (mode : SimilarityMode) (id : string) (s : string * pyfloat) :
  similarity_of pl db templates mode id = Ok (Some s) -> fst s = id.
Proof.
  unfold similarity_of.
  destruct (negb (fst (get_templates db id))); [discriminate|].
  destruct (snd (get_templates db id)) as [[|t ts]|]; try discriminate.
  destruct (if SimilarityMode_eqb mode AverageSimilarity then _ else _);
    [|discriminate].
  intros H. injection H as <-. reflexivity.
Qed.

Lemma sort_desc_one (x : string * pyfloat) : sort_desc [x] = [x].
Proof. reflexivity. Qed.

End OneIdentity.

(** X23. For an identity that is not the empty string,
    [__calculate_similarity] returns no similarity or exactly one, which
    then belongs to that identity; it returns none when the identity is not
    in the database. For the empty string it compares against all
    identities, as when no identity is given. *)
Theorem named_similarity_single
        (pl : Plugins) (db : TemplateDatabase) (templates : list Template)
        (mode : SimilarityMode) (id : string) (sims : list (string * pyfloat)) :
  id <> ""%string ->
  calculate_similarity pl db templates mode (Some id) = Ok sims ->
  (sims = [] \/ exists sim, sims = [(id, sim)]) /\
  (fst (get_templates db id) = false -> sims = []) /\
  calculate_similarity pl db templates mode (Some ""%string)
  = calculate_similarity pl db templates mode None.
Proof.
  intros Hid. unfold calculate_similarity at 1. unfold truthy_str.
  destruct (String.eqb_spec id "") as [|_]; [contradiction|]. cbn [negb].
  cbn [similarity_loop].
  destruct (similarity_of pl db templates mode id) as [[s|]|m] eqn:Hof;
    [| |discriminate].
  - cbn [app]. rewrite sort_desc_one. intros H. injection H as <-.
    assert (Hfst := similarity_of_id _ _ _ _ _ Hof).
    split; [|split; [|reflexivity]].
    + right. exists (snd s). destruct s as [i v]. cbn in *. now subst.
    + intros Hnot. unfold similarity_of in Hof. rewrite Hnot in Hof.
      discriminate.
  - intros H. injection H as <-. cbn. auto.
Qed.

Lemma named_similarity_single_witness :
  (ready_sims (Some "alice"%string) = []
   \/ exists sim, ready_sims (Some "alice"%string) = [("alice"%string, sim)]) /\
  (fst (get_templates db_alice "alice") = false ->
   ready_sims (Some "alice"%string) = []) /\
  calculate_similarity (bench_plugins (Finite (3 # 10))) db_alice
                       ready_templates AverageSimilarity (Some ""%string)
  = calculate_similarity (bench_plugins (Finite (3 # 10))) db_alice
                         ready_templates AverageSimilarity None.
Proof.
  apply (@named_similarity_single (bench_plugins (Finite (3 # 10))) db_alice
           ready_templates AverageSimilarity "alice"
           (ready_sims (Some "alice"%string))).
  - discriminate.
  - vm_compute. reflexivity.
Defined.

(** ** A metric that gives every pair the same score *)

Section ConstantMetric.
Variable pl : Plugins.
Variable c : Q.
Hypothesis Hconst : forall a b, similarity_metric pl a b = Finite c.

Lemma constant_sims (stored_templates templates : list Template) :
  Forall (fun s => s = Finite c)
         (flat_map (fun st => map (fun t => similarity_metric pl st t) templates)
                   stored_templates).
Proof.
  apply Forall_forall. intros s Hs. apply in_flat_map in Hs.
  destruct Hs as (st & _ & Hs). apply in_map_iff in Hs.
  destruct Hs as (t & <- & _). apply Hconst.
Qed.

Lemma py_max_constant (sims : list pyfloat) :
  Forall (fun s => s = Finite c) sims -> sims <> [] ->
  py_max sims = Ok (Finite c).
Proof.
  intros Hall Hne. destruct sims as [|s sims]; [congruence|].
  inversion Hall as [|? ? Hs Hrest]; subst. cbn [py_max]. f_equal.
  clear Hall Hne.
  induction Hrest as [|s sims Hs Hrest IH]; [reflexivity|].
  subst s. cbn [fold_left]. unfold fgt at 2. cbn [flt].
  assert (Hcc : Qltb c c = false) by (apply Qltb_ge; lra).
  rewrite Hcc. exact IH.
Qed.

(** The similarity of an identity with stored templates to fresh templates
    is the constant score when the best score is taken, and when the mean
    is that of a single score. *)
Lemma similarity_of_constant (db : TemplateDatabase) (templates : list Template)
      (mode : SimilarityMode) (id : string) (t : Template) (ts : list Template)
      (u : Template) (us : list Template) :
  get_templates db id = (true, Some (t :: ts)) ->
  templates = u :: us ->
  mode = BestSimilarity \/ (ts = [] /\ us = []) ->
  exists c', similarity_of pl db templates mode id = Ok (Some (id, Finite c'))
             /\ c' == c.
Proof.
  intros Hget -> Hmode. unfold similarity_of. rewrite Hget.
  cbn [fst snd negb].
  destruct mode; cbn [SimilarityMode_eqb].
  - set (sims := flat_map _ (t :: ts)).
    assert (Hall : Forall (fun s => s = Finite c) sims)
      by apply constant_sims.
    assert (Hne : sims <> []).
    { unfold sims. cbn [flat_map map]. discriminate. }
    rewrite (py_max_constant Hall Hne). exists c. split; reflexivity.
  - destruct Hmode as [Hmode | [-> ->]]; [discriminate Hmode|].
    cbn [flat_map map app length]. rewrite Hconst.
    unfold py_sum. cbn [fold_left fadd py_div_len].
    eexists. split; [reflexivity|]. cbn [Z.of_nat]. field.
Qed.

End ConstantMetric.

Lemma Qltb_Qeq (a b t : Q) : a == b -> Qltb a t = Qltb b t.
Proof.
  intros H. destruct (Qltb b t) eqn:Hb.
  - apply Qltb_lt. apply Qltb_lt in Hb. lra.
  - apply Qltb_ge. apply Qltb_ge in Hb. lra.
Qed.

(** X24. With a similarity metric that gives every pair of templates the
    score [c], an identity that has stored templates, and a recording that
    yields at least one template, [authenticate] without continuous
    authentication returns true exactly when the threshold in force is not
    above [c], provided the best similarity is taken, or there is one
    stored and one recorded template, so that no mean of several scores is
    formed. *)
Theorem constant_metric_decides
        (E : Type) (hw : Hardware E) (pl : Plugins) (fuel : nat) (id : string)
        (timeout_s : Q) (threshold : option Q)
        (tmode : option TemplateMode) (smode : option SimilarityMode)
        (w w2 : World E) (e1 : E) (c : Q) (events : list EventContainer)
        (t u : Template) (ts us : list Template) :
  (forall a b, similarity_metric pl a b = Finite c) ->
  id <> ""%string ->
  is_connected hw (env w) = (true, e1) ->
  get_templates (database (self w)) id = (true, Some (t :: ts)) ->
  perform_task_rec hw fuel timeout_s
                   {| env := e1; calls := calls w ++ [DevIsConnected];
                      self := self w |}
  = (Return events, w2) ->
  create_templates pl (preprocessing_apply pl events)
                   (resolve_template_mode (self w) tmode) = Ok (u :: us) ->
  resolve_similarity_mode (self w) smode = BestSimilarity
  \/ (ts = [] /\ us = []) ->
  fst (authenticate hw pl fuel id false timeout_s threshold tmode smode w)
  = Return (Qgeb c (resolve_threshold (self w) threshold)).
Proof.
  intros Hconst Hid Hconn Hget Hrec Htpl Hmode.
  assert (Hin : contains id (get_all_idents (database (self w))) = true).
  { apply contains_In. unfold get_all_idents. apply dict_mem_In.
    rewrite get_templates_lookup in Hget. unfold dict_mem.
    destruct (dict_get id (internal_data (database (self w))));
      [reflexivity | discriminate]. }
  destruct (@similarity_of_constant pl c Hconst (database (self w)) (u :: us)
              (resolve_similarity_mode (self w) smode) id t ts u us Hget eq_refl
              Hmode)
    as (c' & Hof & Hc').
  assert (Hsim : calculate_similarity pl (database (self w)) (u :: us)
                   (resolve_similarity_mode (self w) smode) (Some id)
                 = Ok [(id, Finite c')]).
  { unfold calculate_similarity, truthy_str.
    destruct (String.eqb_spec id "") as [|_]; [contradiction|]. cbn [negb].
    cbn [similarity_loop]. rewrite Hof. reflexivity. }
  destruct (time hw (env w2)) as [now e3] eqn:Htime.
  erewrite authenticate_guards_pass;
    [| exact Hconn | exact Hin | apply fast_path_off].
  erewrite authenticate_record_run;
    [| exact Hrec | exact Htpl | exact Hsim | exact Htime].
  cbn [snd isnan orb flt]. rewrite (Qltb_Qeq _ Hc'), Qltb_Qgeb.
  destruct (Qgeb c (resolve_threshold (self w) threshold)); reflexivity.
Qed.

Lemma constant_metric_decides_witness :
  fst (authenticate rig_hw (bench_plugins (Finite 1)) 20 "alice" false 8
                    (Some 1) None None w_ready)
  = Return (Qgeb 1 (resolve_threshold (self w_ready) (Some 1))).
Proof.
  apply (@constant_metric_decides Rig rig_hw (bench_plugins (Finite 1)) 20
           "alice" 8 (Some 1) None None w_ready w_ready_recorded (env w_ready)
           1 ready_events (nums [1; 2; 3; 4; 5]) (hd [] ready_templates) []
           (tl ready_templates)).
  - reflexivity.
  - discriminate.
  - reflexivity.
  - reflexivity.
  - vm_compute. reflexivity.
  - vm_compute. reflexivity.
  - right. split; reflexivity.
Defined.

(** With the best similarity the same holds for several templates: two
    stored templates of one identity against one recorded template. *)
Example constant_metric_best_of_two :
  calculate_similarity (bench_plugins (Finite (7 # 10))) db_two
                       [nums [1; 2; 3]] BestSimilarity (Some "ps1"%string)
  = Ok [("ps1"%string, Finite (7 # 10))].
Proof. reflexivity. Qed.

(** ** Enrollment followed by continuous authentication *)

Section TokenFacts.
Variable E : Type.
Variable hw : Hardware E.
Variable pl : Plugins.

Lemma enroll_true_last_id (fuel : nat) (id : string) (timeout_s : Q)
      (mode : option TemplateMode) (w w' : World E) :
  enroll hw pl fuel id timeout_s mode w = (Return true, w') ->
  last_id (self w') = Some id.
Proof.
  unfold enroll. unfold bind at 1. unfold query at 1.
  destruct (is_connected hw (env w)) as [connected e1].
  destruct connected; cbn [negb]; [|intros H; discriminate H].
  unfold bind at 1, get_self at 1. unfold bind at 1. unfold try_catch.
  destruct (perform_task_rec hw fuel timeout_s _) as [[events | m |] w2];
    [| intros H; discriminate H | intros H; discriminate H].
  unfold bind at 1.
  destruct (create_templates pl (preprocessing_apply pl events) _)
    as [templates|m]; [|intros H; discriminate H].
  unfold lift at 1, ret at 1.
  unfold bind, update_self, clock, ret. cbn [env calls self].
  destruct (time hw (env w2)) as [now e3].
  intros H. injection H as <-. reflexivity.
Qed.

(** The continuous-authentication test with the token in place and the
    device worn. *)
Lemma authenticate_with_token (fuel : nat) (id : string) (timeout_s : Q)
      (threshold : option Q) (tmode : option TemplateMode)
      (smode : option SimilarityMode) (w : World E) (e1 e2 : E) :
  is_connected hw (env w) = (true, e1) ->
  contains id (get_all_idents (database (self w))) = true ->
  removal_time_stamp hw e1 < last_auth (self w) ->
  last_id (self w) = Some id ->
  is_worn hw e1 = (true, e2) ->
  authenticate hw pl fuel id true timeout_s threshold tmode smode w
  = (Return true,
     {| env := e2; calls := calls w ++ [DevIsConnected; DevIsWorn];
        self := self w |}).
Proof.
  intros Hconn Hid Hlt Hlast Hworn. apply Qltb_lt in Hlt.
  unfold authenticate, fast_path, bind, query, get_self, ret, attribute.
  rewrite Hconn. cbn [negb env calls self]. rewrite Hid.
  cbn [negb env calls self]. rewrite Hlt.
  cbn [andb env calls self]. rewrite Hworn. cbn [negb env calls self].
  rewrite <- app_assoc. cbn [app].
  rewrite Hlast. cbn [opt_string_eqb]. rewrite String.eqb_refl. reflexivity.
Qed.

End TokenFacts.

(** X25. Enrollment counts as an authentication: after [enroll(id)] has
    returned true, a call [authenticate(id, continuous_auth=True)] returns
    true without recording, provided the device is connected and worn, was
    not removed since the enrollment, and the identity is in the database.
    The call asks the device [is_connected] and [is_worn] and nothing
    else. *)
Theorem enroll_then_continuous
        (E : Type) (hw : Hardware E) (pl : Plugins) (fuel fuel' : nat)
        (id : string) (timeout_s timeout_s' : Q) (mode : option TemplateMode)
        (threshold : option Q) (tmode : option TemplateMode)
        (smode : option SimilarityMode) (w w' : World E) (e1 e2 : E) :
  enroll hw pl fuel id timeout_s mode w = (Return true, w') ->
  is_connected hw (env w') = (true, e1) ->
  contains id (get_all_idents (database (self w'))) = true ->
  removal_time_stamp hw e1 < last_auth (self w') ->
  is_worn hw e1 = (true, e2) ->
  authenticate hw pl fuel' id true timeout_s' threshold tmode smode w'
  = (Return true,
     {| env := e2; calls := calls w' ++ [DevIsConnected; DevIsWorn];
        self := self w' |}).
Proof.
  intros Henroll Hconn Hid Hlt Hworn.
  apply (@authenticate_with_token E hw pl fuel' id timeout_s' threshold tmode
           smode w' e1 e2 Hconn Hid Hlt); [|exact Hworn].
  eapply enroll_true_last_id. exact Henroll.
Qed.

Lemma enroll_then_continuous_witness :
  authenticate rig_hw (bench_plugins (Finite (3 # 10))) 20 "bob" true 10
               None None None w_bob_enrolled
  = (Return true,
     {| env := env w_bob_enrolled;
        calls := calls w_bob_enrolled ++ [DevIsConnected; DevIsWorn];
        self := self w_bob_enrolled |}).
Proof.
  apply (@enroll_then_continuous Rig rig_hw (bench_plugins (Finite (3 # 10)))
           20 20 "bob" 8 10 None None None None w_ready w_bob_enrolled
           (env w_bob_enrolled) (env w_bob_enrolled));
    vm_compute; reflexivity.
Defined.

(** ** How the polling loop fails *)

Lemma append_each_message (vals : list pyfloat) (sigs : list (list pyfloat))
      (m : string) :
  append_each sigs vals = Raise m -> m = "IndexError"%string.
Proof.
  revert sigs. induction vals as [|v vals IH]; intros sigs.
  - destruct sigs; cbn [append_each]; intros H; discriminate H.
  - destruct sigs as [|s sigs]; cbn [append_each].
    + intros H. injection H as <-. reflexivity.
    + destruct (append_each sigs vals) as [r|m'] eqn:Hr.
      * intros H. discriminate H.
      * intros H. injection H as <-. eapply IH. exact Hr.
Qed.

Lemma add_data_messages (c : EEGContainer) (rec : BCISignal) (m : string) :
  add_data c rec = Raise m ->
  m = "Number of signals does not match number of channels provided"%string
  \/ m = "IndexError"%string.
Proof.
  unfold add_data.
  destruct (negb (length (sig_signals rec) =? length (channel_names c))%nat).
  - intros H. injection H as <-. left. reflexivity.
  - destruct (append_each (signals c) (sig_signals rec)) as [r|m'] eqn:Ha.
    + intros H. discriminate H.
    + intros H. injection H as <-. right.
      eapply append_each_message. exact Ha.
Qed.

(** X26. The polling loop of the acquisition raises for three reasons
    only. "Device not on head": its last two calls stopped the stream and
    then the task. "Task was stopped early": its last calls asked the task
    whether it is alive and, at most, stopped the task; the stream was not
    stopped after that question. An error of [add_data]: its last call
    fetched the sample. *)
Theorem poll_loop_failures
        (E : Type) (hw : Hardware E) (fuel : nat) (start timeout_s : Q)
        (c : EEGContainer) (w w' : World E) (m : string) :
  poll_loop hw fuel start timeout_s c w = (Throw m, w') ->
  (m = "Device not on head"%string /\
   exists pre, calls w' = pre ++ [DevStopStream; TaskStop]) \/
  (m = "Task was stopped early"%string /\
   exists pre, calls w' = pre ++ [TaskIsAlive]
               \/ calls w' = pre ++ [TaskIsAlive; TaskStop]) \/
  ((m = "Number of signals does not match number of channels provided"%string
    \/ m = "IndexError"%string) /\
   exists pre, calls w' = pre ++ [DevFetchData]).
Proof.
  revert c w. induction fuel as [|fuel IH]; intros c w; cbn [poll_loop].
  - intros H. discriminate H.
  - unfold bind at 1, clock at 1. destruct (time hw (env w)) as [now e0].
    destruct (negb (Qltb (now - start) timeout_s)); [intros H; discriminate H|].
    unfold bind at 1, query at 1. cbn [env calls self].
    destruct (task_is_alive hw e0) as [alive e1].
    destruct alive; cbn [negb]; [|intros H; discriminate H].
    unfold bind at 1, attribute at 1. cbn [env calls self].
    destruct (Qltb start (removal_time_stamp hw e1)).
    + unfold bind, ret, command, throw. cbn [env calls self].
      intros H. injection H as <- <-. left. split; [reflexivity|].
      eexists. cbn [calls]. rewrite <- app_assoc. reflexivity.
    + unfold bind at 1. unfold bind at 1, query at 1. cbn [env calls self].
      destruct (is_worn hw e1) as [worn e2]. unfold ret at 1.
      destruct worn; cbn [negb].
      * unfold bind at 1, attribute at 1. cbn [env calls self].
        destruct (task_aborted hw e2).
        -- unfold bind at 1, query at 1. cbn [env calls self].
           destruct (task_is_alive hw e2) as [still e3].
           destruct still; unfold bind, command, ret, throw;
             cbn [env calls self]; intros H; injection H as <- <-;
             right; left; (split; [reflexivity|]); eexists; cbn [calls].
           ++ right. rewrite <- app_assoc. reflexivity.
           ++ left. reflexivity.
        -- unfold bind at 1, query at 1. cbn [env calls self].
           destruct (dev_has_data hw e2) as [has e3].
           destruct has.
           ++ unfold bind at 1. unfold bind at 1, query at 1.
              cbn [env calls self].
              destruct (dev_fetch_data hw e3) as [rec e4].
              destruct (add_data c rec) as [c'|m'] eqn:Hadd.
              ** unfold lift, ret. apply IH.
              ** unfold lift, throw. intros H. injection H as <- <-.
                 right. right. split; [eapply add_data_messages; exact Hadd|].
                 eexists. cbn [calls]. reflexivity.
           ++ unfold bind at 1, ret at 1. apply IH.
      * unfold bind, ret, command, throw. cbn [env calls self].
        intros H. injection H as <- <-. left. split; [reflexivity|].
        eexists. cbn [calls]. rewrite <- app_assoc. reflexivity.
Qed.

Lemma poll_loop_failures_witness :
  ("Device not on head"%string = "Device not on head"%string /\
   exists pre, calls (snd (poll_loop rig_hw 20 100 10
                                     (new_EEGContainer ["Cz"%string] 1)
                                     w_unworn_polling))
               = pre ++ [DevStopStream; TaskStop]) \/
  ("Device not on head"%string = "Task was stopped early"%string /\
   exists pre, calls (snd (poll_loop rig_hw 20 100 10
                                     (new_EEGContainer ["Cz"%string] 1)
                                     w_unworn_polling))
               = pre ++ [TaskIsAlive]
               \/ calls (snd (poll_loop rig_hw 20 100 10
                                        (new_EEGContainer ["Cz"%string] 1)
                                        w_unworn_polling))
                  = pre ++ [TaskIsAlive; TaskStop]) \/
  (("Device not on head"%string
    = "Number of signals does not match number of channels provided"%string
    \/ "Device not on head"%string = "IndexError"%string) /\
   exists pre, calls (snd (poll_loop rig_hw 20 100 10
                                     (new_EEGContainer ["Cz"%string] 1)
                                     w_unworn_polling))
               = pre ++ [DevFetchData]).
Proof.
  apply (@poll_loop_failures Rig rig_hw 20 100 10
           (new_EEGContainer ["Cz"%string] 1) w_unworn_polling
           (snd (poll_loop rig_hw 20 100 10 (new_EEGContainer ["Cz"%string] 1)
                           w_unworn_polling))
           "Device not on head"%string).
  vm_compute. reflexivity.
Defined.
